(** * AGV manager: telemetry ingestion, persistence and low-battery control

    A shallow embedding of [backend/agv_manager.py].  The Python values
    produced by [json.loads] are an inductive type, the three handlers
    [save_to_db], [process_and_control] and [on_message] are written in a
    small state / exception / event-log monad, and the external
    collaborators (MySQL driver, MQTT client, clock) are an explicit
    environment that fixes, for one message, how each external call ends. *)

From Stdlib Require Import ZArith List Bool Lia.
From Stdlib.Strings Require Import Ascii String Byte.
Import ListNotations.

Set Warnings "-register-all".

Local Open Scope string_scope.
Local Open Scope Z_scope.
Local Open Scope list_scope.

(* ------------------------------------------------------------------ *)
(** ** Python values *)

(** A Python [float], by its exact value: [FFin m e] is [m * 2^e]. *)
Inductive pyfloat : Type :=
| FNaN
| FInf (negative : bool)
| FFin (m e : Z).

(** The values [json.loads] can return.  A [dict] keeps its insertion
    order; keys of a JSON object are strings. *)
Inductive pyval : Type :=
| PNone
| PBool (b : bool)
| PInt (z : Z)
| PFloat (f : pyfloat)
| PStr (s : string)
| PList (l : list pyval)
| PDict (d : list (string * pyval)).

(** The exceptions (all below [Exception]) that the handlers can meet. *)
Inductive exn : Type :=
| UnicodeDecodeError
| UnicodeEncodeError
| JSONDecodeError
| AttributeError
| TypeError
| IndexError
| NameError
| MySQLError (msg : string)
| OtherError (msg : string).

Inductive res (A : Type) : Type :=
| Ok (a : A)
| Raise (e : exn).
Arguments Ok {A} a.
Arguments Raise {A} e.

(* ------------------------------------------------------------------ *)
(** ** The outside world *)

(** The argument tuple of the [INSERT]: [(agv_id, battery, status, now)]. *)
Record Row : Type := mkRow {
  row_agv_id : pyval;
  row_battery : pyval;
  row_status : pyval;
  row_recorded_at : string
}.

(** What is observable outside the process: the committed rows of
    [agv_logs], the number of open database connections and the messages
    the broker client took for sending, that is the publish calls that
    returned with the code MQTT_ERR_SUCCESS (topic and the object given
    to [json.dumps]). *)
Record World : Type := mkWorld {
  agv_logs : list Row;
  open_conns : nat;
  outbox : list (string * pyval)
}.

(** The lines printed on the console, by their format string. *)
Inductive diag : Type :=
| DiagSaved (agv_id status battery : pyval)   (* save_to_db, after the commit *)
| DiagDbError (e : exn)                       (* save_to_db, except branch *)
| DiagDecision (agv_id battery : pyval)       (* process_and_control, rule fired *)
| DiagSent (topic : string)                   (* process_and_control, after publish *)
| DiagNotJson (payload : string)              (* on_message, except JSONDecodeError *)
| DiagMsgError (e : exn).                     (* on_message, except Exception *)

(** The calls a message can cause, in the order they happen. *)
Inductive event : Type :=
| EvSaveToDb (data : pyval)
| EvConnect
| EvCursor
| EvExecute (args : Row)
| EvCommit
| EvClose
| EvProcess (data : pyval)
| EvPublish (topic : string) (body : pyval)
| EvPrint (line : diag).

(** How the external calls end while one message is handled ([None]: the
    call returns, [Some e]: it raises [e]), the return code of a publish
    that returns (0 is MQTT_ERR_SUCCESS; any other code, such as 4 for
    MQTT_ERR_NO_CONN, means the message was dropped) and what the clock
    reads. *)
Record Env : Type := mkEnv {
  connect_raises : option exn;
  cursor_raises : option exn;
  execute_raises : option exn;
  commit_raises : option exn;
  close_raises : option exn;
  publish_raises : option exn;
  publish_rc : Z;
  now : string;
  time_time : pyfloat
}.

(* ------------------------------------------------------------------ *)
(** ** State, exceptions and the event log *)

Record outcome (S A : Type) : Type := mkOutcome {
  result : res A;
  final : S;
  events : list event
}.
Arguments mkOutcome {S A} result final events.
Arguments result {S A} o.
Arguments final {S A} o.
Arguments events {S A} o.

Definition M (S A : Type) : Type := S -> outcome S A.

Definition ret {S A} (a : A) : M S A :=
  fun s => mkOutcome (Ok a) s [].

Definition raise {S A} (e : exn) : M S A :=
  fun s => mkOutcome (Raise e) s [].

(** The events of a computation that ran after the events [before]. *)
Definition after {S A} (before : list event) (o : outcome S A) : outcome S A :=
  match o with
  | mkOutcome r s evs => mkOutcome r s (before ++ evs)
  end.

Definition bind {S A B} (m : M S A) (f : A -> M S B) : M S B :=
  fun s =>
    match m s with
    | mkOutcome (Ok a) s' evs => after evs (f a s')
    | mkOutcome (Raise e) s' evs => mkOutcome (Raise e) s' evs
    end.

Declare Scope py_scope.
Delimit Scope py_scope with py.
Notation "x <- m ;; k" := (bind m (fun x => k))
  (at level 61, m at next level, right associativity) : py_scope.
Notation "m ;; k" := (bind m (fun _ => k))
  (at level 61, right associativity) : py_scope.
Local Open Scope py_scope.

Definition emit {S} (ev : event) : M S unit :=
  fun s => mkOutcome (Ok tt) s [ev].

(** [print] of a line that formats nothing but an exception.  The text
    of the exceptions met here (Python's own, the driver's and the
    client's) writes a character that cannot be encoded as an escape,
    so the line always goes out. *)
Definition print {S} (line : diag) : M S unit := emit (EvPrint line).

Definition modify {S} (f : S -> S) : M S unit :=
  fun s => mkOutcome (Ok tt) (f s) [].

Definition lift_res {S A} (r : res A) : M S A :=
  match r with Ok a => ret a | Raise e => raise e end.

(** [try: body  except Exception as e: handler e]. *)
Definition try_except {S A} (body : M S A) (handler : exn -> M S A) : M S A :=
  fun s =>
    match body s with
    | mkOutcome (Ok a) s' evs => mkOutcome (Ok a) s' evs
    | mkOutcome (Raise e) s' evs => after evs (handler e s')
    end.

(** [try: body  finally: cleanup]: the cleanup always runs; when it
    raises, its exception replaces the outcome of the body. *)
Definition try_finally {S A} (body : M S A) (cleanup : M S unit) : M S A :=
  fun s =>
    match body s with
    | mkOutcome r s' evs =>
        match cleanup s' with
        | mkOutcome (Ok _) s'' evs' => mkOutcome r s'' (evs ++ evs')
        | mkOutcome (Raise e) s'' evs' => mkOutcome (Raise e) s'' (evs ++ evs')
        end
    end.

(** A function body with one local variable: the state is the world
    paired with the variable, initialised on entry and dropped on return. *)
Definition with_local {W L A} (init : L) (body : M (W * L) A) : M W A :=
  fun w =>
    match body (w, init) with
    | mkOutcome r (w', _) evs => mkOutcome r w' evs
    end.

Definition in_world {W L A} (m : M W A) : M (W * L) A :=
  fun s =>
    match m (fst s) with
    | mkOutcome r w' evs => mkOutcome r (w', snd s) evs
    end.

Definition get_local {W L} : M (W * L) L :=
  fun s => mkOutcome (Ok (snd s)) s [].
Definition set_local {W L} (v : L) : M (W * L) unit :=
  fun s => mkOutcome (Ok tt) (fst s, v) [].

(* ------------------------------------------------------------------ *)
(** ** The Python operations the handlers use *)

Fixpoint dict_get (k : string) (d : list (string * pyval)) : option pyval :=
  match d with
  | [] => None
  | (k', v) :: d' => if String.eqb k k' then Some v else dict_get k d'
  end.

(** [data.get(key, default)]: only a dict has the method. *)
Definition py_get (data : pyval) (key : string) (default : pyval) : res pyval :=
  match data with
  | PDict d =>
      Ok (match dict_get key d with
          | Some v => v
          | None => default
          end)
  | _ => Raise AttributeError
  end.

Definition float_lt_int (f : pyfloat) (n : Z) : bool :=
  match f with
  | FNaN => false
  | FInf negative => negative
  | FFin m e => if 0 <=? e then m * 2 ^ e <? n else m <? n * 2 ^ (- e)
  end.

(** [v < n] for an int literal [n]: numbers compare ([bool] is an [int]),
    anything else raises [TypeError]. *)
Definition py_lt_int (v : pyval) (n : Z) : res bool :=
  match v with
  | PInt z => Ok (z <? n)
  | PBool b => Ok (Z.b2z b <? n)
  | PFloat f => Ok (float_lt_int f n)
  | _ => Raise TypeError
  end.

(** [v == s] for a str literal [s]: never raises. *)
Definition py_eq_str (v : pyval) (s : string) : bool :=
  match v with
  | PStr s' => String.eqb s' s
  | _ => false
  end.

(** [s.split(sep)] for a one-character separator. *)
Fixpoint str_split (sep : ascii) (s : string) : list string :=
  match s with
  | EmptyString => [EmptyString]
  | String c s' =>
      if Ascii.eqb c sep then EmptyString :: str_split sep s'
      else match str_split sep s' with
           | [] => [String c EmptyString]
           | seg :: rest => String c seg :: rest
           end
  end.

(** [v.split('/')]: only a str has the method. *)
Definition py_split (v : pyval) (sep : ascii) : res (list string) :=
  match v with
  | PStr s => Ok (str_split sep s)
  | _ => Raise AttributeError
  end.

(** [l[-1]]. *)
Fixpoint py_last (l : list string) : res string :=
  match l with
  | [] => Raise IndexError
  | [x] => Ok x
  | _ :: l' => py_last l'
  end.

(* ------------------------------------------------------------------ *)
(** ** Text: UTF-8, and what [print] can write *)

Definition in_range (n lo hi : N) : bool := ((lo <=? n) && (n <=? hi))%N.

(** Well-formed UTF-8 (no overlong form, no surrogate, at most U+10FFFF),
    as the strict ["utf-8"] codec requires. *)
Fixpoint utf8_valid (bs : list byte) : bool :=
  match bs with
  | [] => true
  | b0 :: r0 =>
    let n0 := Byte.to_N b0 in
    if (n0 <? 128)%N then utf8_valid r0 else
    match r0 with
    | [] => false
    | b1 :: r1 =>
      let n1 := Byte.to_N b1 in
      if in_range n0 194 223 then in_range n1 128 191 && utf8_valid r1 else
      match r1 with
      | [] => false
      | b2 :: r2 =>
        let n2 := Byte.to_N b2 in
        if (n0 =? 224)%N then
          in_range n1 160 191 && in_range n2 128 191 && utf8_valid r2
        else if in_range n0 225 236 || in_range n0 238 239 then
          in_range n1 128 191 && in_range n2 128 191 && utf8_valid r2
        else if (n0 =? 237)%N then
          in_range n1 128 159 && in_range n2 128 191 && utf8_valid r2
        else
        match r2 with
        | [] => false
        | b3 :: r3 =>
          let n3 := Byte.to_N b3 in
          if (n0 =? 240)%N then
            in_range n1 144 191 && in_range n2 128 191 && in_range n3 128 191
            && utf8_valid r3
          else if in_range n0 241 243 then
            in_range n1 128 191 && in_range n2 128 191 && in_range n3 128 191
            && utf8_valid r3
          else if (n0 =? 244)%N then
            in_range n1 128 143 && in_range n2 128 191 && in_range n3 128 191
            && utf8_valid r3
          else false
        end
      end
    end
  end.

(** [payload.decode("utf-8")]: the text is kept in its UTF-8 form. *)
Definition bytes_decode_utf8 (bs : list byte) : res string :=
  if utf8_valid bs then Ok (string_of_list_byte bs) else Raise UnicodeDecodeError.

(** A str is held in its UTF-8 form.  A lone surrogate, which
    [json.loads] accepts as an escape, is held as the three bytes that
    strict UTF-8 refuses.  The console is UTF-8 with the strict error
    handler (the default of [sys.stdout] in a UTF-8 locale); so a str
    can be encoded, and written to the console, exactly when its bytes
    are well-formed UTF-8. *)
Definition encodable (s : string) : bool := utf8_valid (list_byte_of_string s).

(** The values an f-string formats: a str goes into the line as it is;
    the text of any other value escapes what cannot be encoded. *)
Definition formattable (values : list pyval) : bool :=
  forallb (fun v => match v with PStr s => encodable s | _ => true end) values.

(** [print(f"...")] of a line that formats [values]: when the line
    cannot be encoded, nothing is written and UnicodeEncodeError is
    raised. *)
Definition print_values {S} (line : diag) (values : list pyval) : M S unit :=
  if formattable values then emit (EvPrint line) else raise UnicodeEncodeError.

Arguments formattable : simpl never.

(* ------------------------------------------------------------------ *)
(** ** Configuration *)

Definition CONTROL_TOPIC_BASE : string := "factory/control".

(* ------------------------------------------------------------------ *)
(** ** Database and broker calls *)

Definition external {S} (ev : event) (outcome_of_call : option exn) : M S unit :=
  emit ev ;;
  match outcome_of_call with
  | None => ret tt
  | Some e => raise e
  end.

(** [get_db_connection()]: one more open connection when it returns. *)
Definition get_db_connection (env : Env) : M World unit :=
  external EvConnect (connect_raises env) ;;
  modify (fun w => mkWorld (agv_logs w) (S (open_conns w)) (outbox w)).

(** [conn.close()]. *)
Definition conn_close (env : Env) : M World unit :=
  external EvClose (close_raises env) ;;
  modify (fun w => mkWorld (agv_logs w) (Nat.pred (open_conns w)) (outbox w)).

(** [conn.commit()]: the rows executed on the connection become durable. *)
Definition conn_commit (env : Env) (staged : list Row) : M World unit :=
  external EvCommit (commit_raises env) ;;
  modify (fun w => mkWorld (agv_logs w ++ staged) (open_conns w) (outbox w)).

(** [client.publish(topic, json.dumps(body))]: the call raises, or it
    returns a code; the client took the message only when the code is
    MQTT_ERR_SUCCESS.  The caller does not look at the code. *)
Definition client_publish (env : Env) (topic : string) (body : pyval) : M World unit :=
  external (EvPublish topic body) (publish_raises env) ;;
  if publish_rc env =? 0 then
    modify (fun w => mkWorld (agv_logs w) (open_conns w) (outbox w ++ [(topic, body)]))
  else ret tt.

(** The world after a publish of [(topic, body)] that returned. *)
Definition after_publish (env : Env) (topic : string) (body : pyval) (w : World) : World :=
  if publish_rc env =? 0 then
    mkWorld (agv_logs w) (open_conns w) (outbox w ++ [(topic, body)])
  else w.

(* ------------------------------------------------------------------ *)
(** ** [save_to_db] *)

(** The connection object held by the local [conn]: the rows executed on
    it and not yet committed. *)
Definition Conn : Type := list Row.

Definition modify_local {W L} (f : L -> L) : M (W * L) unit :=
  fun s => mkOutcome (Ok tt) (fst s, f (snd s)) [].

(** [cursor.execute(sql, args)]. *)
Definition cursor_execute {W} (env : Env) (args : Row) : M (W * option Conn) unit :=
  external (EvExecute args) (execute_raises env) ;;
  modify_local (option_map (fun staged => staged ++ [args])).

Definition staged_rows (conn : option Conn) : list Row :=
  match conn with
  | Some staged => staged
  | None => []
  end.

Definition save_to_db (env : Env) (data : pyval) : M World unit :=
  emit (EvSaveToDb data) ;;
  with_local (None : option Conn)                              (* conn = None *)
    (try_finally
       (try_except
          (in_world (get_db_connection env) ;;
           set_local (Some []) ;;                              (* conn = ... *)
           external EvCursor (cursor_raises env) ;;            (* cursor = conn.cursor() *)
           let now := now env in
           agv_id <- lift_res (py_get data "agv_id" (PStr "Unknown")) ;;
           battery <- lift_res (py_get data "battery" (PInt 0)) ;;
           status <- lift_res (py_get data "status" (PStr "Unknown")) ;;
           cursor_execute env (mkRow agv_id battery status now) ;;
           conn <- get_local ;;
           in_world (conn_commit env (staged_rows conn)) ;;
           print_values (DiagSaved agv_id status battery) [agv_id; status; battery])
          (fun e => print (DiagDbError e)))
       (conn <- get_local ;;                                   (* if conn: conn.close() *)
        match conn with
        | Some _ => in_world (conn_close env)
        | None => ret tt
        end)).

(* ------------------------------------------------------------------ *)
(** ** [process_and_control] *)

Definition command_payload (env : Env) (agv_id : pyval) : pyval :=
  PDict [ ("target_id", agv_id);
          ("command", PStr "RETURN_TO_BASE");
          ("reason", PStr "Low Battery");
          ("timestamp", PFloat (time_time env)) ].

Definition process_and_control (env : Env) (data : pyval) : M World unit :=
  emit (EvProcess data) ;;
  agv_id <- lift_res (py_get data "agv_id" (PStr "Unknown")) ;;
  battery <- lift_res (py_get data "battery" (PInt 0)) ;;
  status <- lift_res (py_get data "status" (PStr "Unknown")) ;;
  low <- lift_res (py_lt_int battery 20) ;;
  if low && py_eq_str status "MOVING" then
    print_values (DiagDecision agv_id battery) [agv_id; battery] ;;
    let command_payload := command_payload env agv_id in
    parts <- lift_res (py_split agv_id "/") ;;
    short_id <- lift_res (py_last parts) ;;
    let target_topic := (CONTROL_TOPIC_BASE ++ "/" ++ short_id)%string in
    client_publish env target_topic command_payload ;;
    print_values (DiagSent target_topic) [PStr target_topic]
  else ret tt.

(* ------------------------------------------------------------------ *)
(** ** [on_message] and the loop *)

Section Ingestion.

(** [json.loads] of the Python standard library, on decoded text. *)
Variable json_loads : string -> res pyval.

Definition on_message (env : Env) (message_payload : list byte) : M World unit :=
  with_local (None : option string)                 (* payload not yet bound *)
    (try_except
       (payload <- lift_res (bytes_decode_utf8 message_payload) ;;
        set_local (Some payload) ;;
        data <- lift_res (json_loads payload) ;;
        in_world (save_to_db env data) ;;
        in_world (process_and_control env data))
       (fun e =>
          match e with
          | JSONDecodeError =>
              bound <- get_local ;;
              match bound with
              | Some payload => print_values (DiagNotJson payload) [PStr payload]
              | None => raise NameError
              end
          | _ => print (DiagMsgError e)
          end)).

(** [client.loop_forever()] on the messages the broker delivers, each
    with the environment it is handled in: one callback at a time; an
    exception that leaves the callback ends the loop. *)
Fixpoint loop_forever (deliveries : list (Env * list byte)) : M World unit :=
  match deliveries with
  | [] => ret tt
  | (env, message_payload) :: rest =>
      on_message env message_payload ;; loop_forever rest
  end.

End Ingestion.

(* ------------------------------------------------------------------ *)
(** ** Observations on an event log *)

Definition publish_calls (evs : list event) : list (string * pyval) :=
  flat_map (fun ev => match ev with EvPublish t b => [(t, b)] | _ => [] end) evs.

Definition execute_calls (evs : list event) : list Row :=
  flat_map (fun ev => match ev with EvExecute r => [r] | _ => [] end) evs.

Definition diagnostics (evs : list event) : list diag :=
  flat_map (fun ev => match ev with EvPrint l => [l] | _ => [] end) evs.

Definition connect_calls (evs : list event) : nat :=
  List.length (filter (fun ev => match ev with EvConnect => true | _ => false end) evs).

Definition close_calls (evs : list event) : nat :=
  List.length (filter (fun ev => match ev with EvClose => true | _ => false end) evs).

(** The pipeline stages of section 4.1: record, evaluate, dispatch. *)
Inductive stage : Type := StRecord | StEvaluate | StDispatch.

Definition stages (evs : list event) : list stage :=
  flat_map (fun ev =>
              match ev with
              | EvSaveToDb _ => [StRecord]
              | EvProcess _ => [StEvaluate]
              | EvPublish _ _ => [StDispatch]
              | _ => []
              end) evs.

Definition is_dict (v : pyval) : bool :=
  match v with PDict _ => true | _ => false end.

Fixpoint has_sep (sep : ascii) (s : string) : bool :=
  match s with
  | EmptyString => false
  | String c s' => Ascii.eqb c sep || has_sep sep s'
  end.

(** The short vehicle id of line 121, on a str. *)
Definition last_segment (s : string) : res string := py_last (str_split "/" s).

(** The line the [except] clauses of [on_message] print for [e], once the
    local [payload] is bound. *)
Definition handler_line (payload : string) (e : exn) : diag :=
  match e with
  | JSONDecodeError => DiagNotJson payload
  | _ => DiagMsgError e
  end.

(* ------------------------------------------------------------------ *)
(** ** Malformed payloads *)

(** The payload never becomes a Python value: the bytes are not UTF-8, or
    [json.loads] raises on the text. *)
Inductive undecodable (json_loads : string -> res pyval)
    (message_payload : list byte) : Prop :=
| invalid_utf8 :
    utf8_valid message_payload = false ->
    undecodable json_loads message_payload
| invalid_json (payload : string) (e : exn) :
    bytes_decode_utf8 message_payload = Ok payload ->
    json_loads payload = Raise e ->
    undecodable json_loads message_payload.

(** The payload is JSON, but an array or a scalar. *)
Inductive not_an_object (json_loads : string -> res pyval)
    (message_payload : list byte) : Prop :=
| json_non_object (payload : string) (v : pyval) :
    bytes_decode_utf8 message_payload = Ok payload ->
    json_loads payload = Ok v ->
    is_dict v = false ->
    not_an_object json_loads message_payload.

Definition malformed (json_loads : string -> res pyval)
    (message_payload : list byte) : Prop :=
  undecodable json_loads message_payload \/
  not_an_object json_loads message_payload.

(** The first exception raised inside the [try] block of [save_to_db]
    by the connect, the cursor, the field lookup, the insert or the
    commit, in the order of the calls. *)
Definition first_store_exception (env : Env) (data : pyval) : option exn :=
  match connect_raises env with
  | Some e => Some e
  | None =>
    match cursor_raises env with
    | Some e => Some e
    | None =>
      if is_dict data then
        match execute_raises env with
        | Some e => Some e
        | None => commit_raises env
        end
      else Some AttributeError
    end
  end.

(* ------------------------------------------------------------------ *)
(** ** Scenarios *)

(** Every external call returns, the publish with MQTT_ERR_SUCCESS. *)
Definition quiet_env : Env :=
  mkEnv None None None None None None 0 "2024-05-01 12:00:00" (FFin 1714564800 0).

(** As [quiet_env], but the [INSERT] is refused. *)
Definition failing_insert_env : Env :=
  mkEnv None None (Some (MySQLError "insert refused")) None None None 0
        "2024-05-01 12:00:00" (FFin 1714564800 0).

(** As [quiet_env], but the broker client refuses the publish. *)
Definition failing_publish_env : Env :=
  mkEnv None None None None None (Some (OtherError "publish refused")) 0
        "2024-05-01 12:00:00" (FFin 1714564800 0).

Definition empty_world : World := mkWorld [] 0 [].

Definition reading_007 (battery : pyval) (status : string) : pyval :=
  PDict [("agv_id", PStr "factory/agv/007"); ("battery", battery);
         ("status", PStr status)].

Definition dq : string := String "034"%char EmptyString.

Definition quoted (s : string) : string := (dq ++ s ++ dq)%string.

(** The JSON text of a reading, as a vehicle sends it. *)
Definition text_of_reading (agv_id battery status : string) : string :=
  ("{" ++ quoted "agv_id" ++ ":" ++ quoted agv_id ++ ","
       ++ quoted "battery" ++ ":" ++ battery ++ ","
       ++ quoted "status" ++ ":" ++ quoted status ++ "}")%string.

(** [json.loads] on the texts of the scenarios; the table holds no other
    text, and the last line stands for the texts that are not JSON. *)
Definition scenario_loads (text : string) : res pyval :=
  if String.eqb text (text_of_reading "factory/agv/007" "15" "MOVING")
  then Ok (reading_007 (PInt 15) "MOVING")
  else if String.eqb text (text_of_reading "factory/agv/007" "15" "RETURNING")
  then Ok (reading_007 (PInt 15) "RETURNING")
  else if String.eqb text "{}" then Ok (PDict [])
  else if String.eqb text "[1]" then Ok (PList [PInt 1])
  else if String.eqb text "15" then Ok (PInt 15)
  else Raise JSONDecodeError.

Definition payload_007_moving : list byte :=
  list_byte_of_string (text_of_reading "factory/agv/007" "15" "MOVING").

Definition payload_007_returning : list byte :=
  list_byte_of_string (text_of_reading "factory/agv/007" "15" "RETURNING").

Definition payload_array : list byte := list_byte_of_string "[1]".

Definition payload_not_json : list byte := list_byte_of_string "not-json".

Definition payload_not_utf8 : list byte := [xff; xfe].

(* ------------------------------------------------------------------ *)
(** ** Numbers, as [<] sees them *)

(** The values [v < 20] accepts: int, bool and float. *)
Definition is_number (v : pyval) : bool :=
  match v with
  | PInt _ | PBool _ | PFloat _ => true
  | _ => false
  end.

(* ------------------------------------------------------------------ *)
(** ** More scenarios *)

(** A reading whose vehicle id is the number 7. *)
Definition reading_numeric_id : pyval :=
  PDict [("agv_id", PInt 7); ("battery", PInt 5); ("status", PStr "MOVING")].

Definition text_numeric_id : string :=
  ("{" ++ quoted "agv_id" ++ ":7," ++ quoted "battery" ++ ":5,"
       ++ quoted "status" ++ ":" ++ quoted "MOVING" ++ "}")%string.

(** [scenario_loads], with the text of [reading_numeric_id] added. *)
Definition scenario_loads_ext (text : string) : res pyval :=
  if String.eqb text text_numeric_id then Ok reading_numeric_id
  else scenario_loads text.

Definition payload_numeric_id : list byte := list_byte_of_string text_numeric_id.

(** As [quiet_env], but [conn.close()] raises. *)
Definition failing_close_env : Env :=
  mkEnv None None None None (Some (MySQLError "close failed")) None 0
        "2024-05-01 12:00:00" (FFin 1714564800 0).

(** As [quiet_env], but [conn.cursor()] ends on an exception that is not
    an error of the driver. *)
Definition interrupted_env : Env :=
  mkEnv None (Some (OtherError "interrupted")) None None None None 0
        "2024-05-01 12:00:00" (FFin 1714564800 0).

(** As [quiet_env], but the publish returns MQTT_ERR_NO_CONN: the client
    is not connected and drops the message. *)
Definition dropped_publish_env : Env :=
  mkEnv None None None None None None 4
        "2024-05-01 12:00:00" (FFin 1714564800 0).

(** The lone surrogate U+D800, as [json.loads] returns it for the
    escape backslash-u-d800. *)
Definition lone_surrogate : string :=
  String "237"%char (String "160"%char (String "128"%char EmptyString)).

(** A vehicle id that cannot be printed. *)
Definition unprintable_id : string := ("factory/agv/" ++ lone_surrogate)%string.

Definition reading_unprintable_id : pyval :=
  PDict [("agv_id", PStr unprintable_id); ("battery", PInt 5);
         ("status", PStr "MOVING")].

(** The JSON text of [reading_unprintable_id]: the surrogate is written
    as an escape, so the text itself is ASCII. *)
Definition text_unprintable_id : string :=
  ("{" ++ quoted "agv_id" ++ ":" ++ quoted "factory/agv/\ud800" ++ ","
       ++ quoted "battery" ++ ":5,"
       ++ quoted "status" ++ ":" ++ quoted "MOVING" ++ "}")%string.

(** [scenario_loads_ext], with the text of [reading_unprintable_id] added. *)
Definition scenario_loads_esc (text : string) : res pyval :=
  if String.eqb text text_unprintable_id then Ok reading_unprintable_id
  else scenario_loads_ext text.

Definition payload_unprintable_id : list byte := list_byte_of_string text_unprintable_id.

(** As [quiet_env], but the database cannot be reached. *)
Definition failing_connect_env : Env :=
  mkEnv (Some (MySQLError "connection refused")) None None None None None 0
        "2024-05-01 12:00:00" (FFin 1714564800 0).

(* ------------------------------------------------------------------ *)
(** ** Startup: [init_db], [on_connect] and the main program *)

(** The lines printed outside the two message handlers. *)
Inductive boot_line : Type :=
| LineDbConnecting                 (* init_db, on entry *)
| LineDbReady                      (* init_db, table ready *)
| LineDbRetry (e : exn)            (* init_db, except MySQLError *)
| LineStarting                     (* main, before the connect *)
| LineFatal (e : exn)              (* main, except Exception *)
| LineMqttConnected                (* on_connect, rc == 0 *)
| LineSubscribed (topic : string)  (* on_connect, after subscribe *)
| LineMqttRefused (rc : Z).        (* on_connect, rc != 0 *)

(** What startup and the session do besides the calls of [event]. *)
Inductive boot_event : Type :=
| BootPrint (line : boot_line)
| BootSleep (seconds : Z)               (* time.sleep *)
| BootCreateTable                       (* cursor.execute(create_table_sql) *)
| BootBrokerConnect                     (* client.connect *)
| BootSubscribe (topic : string).       (* client.subscribe *)

(** The session of the process: what it did so far, in order, and the
    topic filters the broker holds for the client. *)
Record Session : Type := mkSession {
  session_log : list boot_event;
  subscriptions : list string
}.

Definition boot (ev : boot_event) : M (World * Session) unit :=
  modify_local (fun s => mkSession (session_log s ++ [ev]) (subscriptions s)).

Definition boot_external (ev : boot_event) (outcome_of_call : option exn)
    : M (World * Session) unit :=
  boot ev ;;
  match outcome_of_call with
  | None => ret tt
  | Some e => raise e
  end.

(** [except pymysql.MySQLError]: the driver's own errors only. *)
Definition is_mysql_error (e : exn) : bool :=
  match e with
  | MySQLError _ => true
  | _ => false
  end.

(** [try: body  except <class> as e: handler e]: an exception outside
    the class goes on to the caller. *)
Definition try_except_class {S A} (in_class : exn -> bool)
    (body : M S A) (handler : exn -> M S A) : M S A :=
  try_except body (fun e => if in_class e then handler e else raise e).

(** What the locals [conn] and [cursor] of [init_db] keep alive.  A
    connection that was not closed stays open as long as [conn] refers
    to it or [cursor] refers to a cursor of it; when the last of the two
    is rebound, or the function returns, the connection object is
    released and its finalizer closes the socket. *)
Inductive cursor_holds : Type :=
| HoldsNothing          (* unbound, or a cursor of a closed connection *)
| HoldsConn             (* a cursor of the connection [conn] refers to *)
| HoldsOther.           (* a cursor of an earlier connection, still open *)

Record Locals : Type := mkLocals {
  conn_open : bool;     (* [conn] refers to a connection that is open *)
  cursor_of : cursor_holds
}.

Definition no_locals : Locals := mkLocals false HoldsNothing.

(** The open connections that only the locals keep alive. *)
Definition held_connections (l : Locals) : nat :=
  ((if conn_open l then 1 else 0) +
   match cursor_of l with HoldsOther => 1 | _ => 0 end)%nat.

(** The finalizer of a connection object: its socket is closed. *)
Definition finalize_connection : M World unit :=
  modify (fun w => mkWorld (agv_logs w) (Nat.pred (open_conns w)) (outbox w)).

Definition on_world {S L A} (m : M World A) : M ((World * S) * L) A :=
  in_world (in_world m).

(** [conn = ...]: the connection [conn] referred to is released, unless
    it is closed already or [cursor] still refers to a cursor of it. *)
Definition rebind_conn {S} : M ((World * S) * Locals) unit :=
  l <- get_local ;;
  (match conn_open l, cursor_of l with
   | true, HoldsConn => set_local (mkLocals true HoldsOther)
   | true, held => on_world finalize_connection ;; set_local (mkLocals true held)
   | false, HoldsConn => set_local (mkLocals true HoldsNothing)
   | false, held => set_local (mkLocals true held)
   end).

(** [cursor = ...]: the earlier connection that only the old cursor kept
    alive is released. *)
Definition rebind_cursor {S} : M ((World * S) * Locals) unit :=
  l <- get_local ;;
  (match cursor_of l with
   | HoldsOther => on_world finalize_connection
   | _ => ret tt
   end) ;;
  set_local (mkLocals (conn_open l) HoldsConn).

(** The function returns: what the locals still keep alive is released. *)
Definition drop_locals {S} : M ((World * S) * Locals) unit :=
  l <- get_local ;;
  (if conn_open l then on_world finalize_connection else ret tt) ;;
  (match cursor_of l with
   | HoldsOther => on_world finalize_connection
   | _ => ret tt
   end) ;;
  set_local no_locals.

(** One turn of the [while True] of [init_db]; [true] stands for [break]. *)
Definition init_db_attempt (env : Env) : M ((World * Session) * Locals) bool :=
  try_except_class is_mysql_error
    (on_world (get_db_connection env) ;;
     rebind_conn ;;                                      (* conn = get_db_connection() *)
     external EvCursor (cursor_raises env) ;;
     rebind_cursor ;;                                    (* cursor = conn.cursor() *)
     in_world (boot_external BootCreateTable (execute_raises env)) ;;
     on_world (conn_commit env []) ;;                    (* conn.commit() *)
     on_world (conn_close env) ;;                        (* conn.close() *)
     modify_local (fun l => mkLocals false (cursor_of l)) ;;
     in_world (boot (BootPrint LineDbReady)) ;;
     ret true)
    (fun e =>
       in_world (boot (BootPrint (LineDbRetry e))) ;;
       in_world (boot (BootSleep 3)) ;;
       ret false).

(** The [while True] loop on the environments of its successive turns;
    [false] when the turns given run out with the loop still going. *)
Fixpoint init_db_loop (attempts : list Env) : M ((World * Session) * Locals) bool :=
  match attempts with
  | [] => ret false
  | env :: later =>
      done <- init_db_attempt env ;;
      if done then drop_locals ;; ret true else init_db_loop later
  end.

Definition init_db (attempts : list Env) : M (World * Session) bool :=
  boot (BootPrint LineDbConnecting) ;;
  with_local no_locals (init_db_loop attempts).

(** What the network loop hands to the callbacks: a CONNACK with its
    reason code (and how the subscribe it causes ends), or a message
    (and the environment it is handled in). *)
Inductive delivery : Type :=
| ConnAck (subscribe_raises : option exn) (rc : Z)
| Message (env : Env) (message_payload : list byte).

Definition seconds_slept (log : list boot_event) : Z :=
  fold_right (fun ev total =>
                match ev with
                | BootSleep seconds => seconds + total
                | _ => total
                end) 0 log.

Definition broker_connects (log : list boot_event) : nat :=
  List.length (filter (fun ev => match ev with BootBrokerConnect => true | _ => false end)
                      log).

Definition subscribe_calls (log : list boot_event) : list string :=
  flat_map (fun ev => match ev with BootSubscribe t => [t] | _ => [] end) log.

Definition boot_lines (log : list boot_event) : list boot_line :=
  flat_map (fun ev => match ev with BootPrint l => [l] | _ => [] end) log.

(** The first exception of a turn of [init_db], in the order of its calls. *)
Definition first_init_exception (env : Env) : option exn :=
  match connect_raises env with
  | Some e => Some e
  | None =>
    match cursor_raises env with
    | Some e => Some e
    | None =>
      match execute_raises env with
      | Some e => Some e
      | None =>
        match commit_raises env with
        | Some e => Some e
        | None => close_raises env
        end
      end
    end
  end.

(** A turn that fails on an error of the driver, and so is retried. *)
Definition retried (env : Env) : bool :=
  match first_init_exception env with
  | Some e => is_mysql_error e
  | None => false
  end.

(** A turn in which a connection was obtained and not closed. *)
Definition leaks_connection (env : Env) : bool :=
  match connect_raises env, first_init_exception env with
  | None, Some _ => true
  | _, _ => false
  end.

Definition empty_session : Session := mkSession [] [].

Section Program.

(** [json.loads], and the topic filter read from the environment
    variable MQTT_TOPIC at import time. *)
Variable json_loads : string -> res pyval.
Variable MQTT_TOPIC : string.

Definition client_subscribe (subscribe_raises : option exn) (topic : string)
    : M (World * Session) unit :=
  boot_external (BootSubscribe topic) subscribe_raises ;;
  modify_local (fun s => mkSession (session_log s) (subscriptions s ++ [topic])).

Definition on_connect (subscribe_raises : option exn) (rc : Z)
    : M (World * Session) unit :=
  if rc =? 0 then
    boot (BootPrint LineMqttConnected) ;;
    client_subscribe subscribe_raises MQTT_TOPIC ;;
    boot (BootPrint (LineSubscribed MQTT_TOPIC))
  else
    boot (BootPrint (LineMqttRefused rc)).

(** [client.loop_forever()] with both callbacks set: each delivery goes
    to its callback, one at a time; an exception that leaves a callback
    ends the loop. *)
Fixpoint network_loop (deliveries : list delivery) : M (World * Session) unit :=
  match deliveries with
  | [] => ret tt
  | ConnAck subscribe_raises rc :: rest =>
      on_connect subscribe_raises rc ;; network_loop rest
  | Message env message_payload :: rest =>
      in_world (on_message json_loads env message_payload) ;; network_loop rest
  end.

(** The program: [attempts] are the turns of [init_db], [connect_raises]
    is how [client.connect] ends, [deliveries] is what the broker sends.
    [false] when the program is still inside [init_db]. *)
Definition main (attempts : list Env) (connect_raises : option exn)
    (deliveries : list delivery) : M (World * Session) bool :=
  ready <- init_db attempts ;;
  if ready then
    boot (BootPrint LineStarting) ;;
    try_except
      (boot_external BootBrokerConnect connect_raises ;;
       network_loop deliveries)
      (fun e => boot (BootPrint (LineFatal e))) ;;
    ret true
  else ret false.

End Program.

(** A CONNACK that the broker accepted (reason code 0). *)
Definition accepted (d : delivery) : bool :=
  match d with
  | ConnAck _ rc => rc =? 0
  | Message _ _ => false
  end.

(** A delivery whose callback returns: every message, every refused
    CONNACK, and an accepted CONNACK whose subscribe returns. *)
Definition callback_returns (d : delivery) : bool :=
  match d with
  | ConnAck (Some _) rc => negb (rc =? 0)
  | _ => true
  end.

(** The messages among the deliveries, in order. *)
Definition messages_of (deliveries : list delivery) : list (Env * list byte) :=
  flat_map (fun d => match d with
                     | Message env message_payload => [(env, message_payload)]
                     | ConnAck _ _ => []
                     end) deliveries.

(* ------------------------------------------------------------------ *)
(** ** Facts about [str.split] and the last segment *)

Section Split.

Variable sep : ascii.

Lemma str_split_nonempty (s : string) : str_split sep s <> [].
Proof.
  destruct s as [|c s']; cbn; [discriminate|].
  destruct (Ascii.eqb c sep); [discriminate|].
  destruct (str_split sep s'); discriminate.
Qed.

Lemma py_last_total (l : list string) : l <> [] -> exists x, py_last l = Ok x.
Proof.
  induction l as [|x l IH]; intros Hne; [congruence|].
  destruct l as [|y l]; [exists x; reflexivity|].
  cbn [py_last]. apply IH. discriminate.
Qed.

Lemma py_last_cons (x : string) (l : list string) :
  l <> [] -> py_last (x :: l) = py_last l.
Proof. destruct l; [congruence | reflexivity]. Qed.

(** No separator: [split] returns the string itself, alone. *)
Lemma str_split_no_sep (s : string) :
  has_sep sep s = false -> str_split sep s = [s].
Proof.
  induction s as [|c s' IH]; cbn; intros H; [reflexivity|].
  apply orb_false_iff in H as [Hc Hs]. rewrite Hc, (IH Hs). reflexivity.
Qed.

(** A single piece is the whole string, and it has no separator. *)
Lemma str_split_single (s seg : string) :
  str_split sep s = [seg] -> seg = s /\ has_sep sep s = false.
Proof.
  revert seg. induction s as [|c s' IH]; cbn; intros seg H.
  - injection H as <-. auto.
  - destruct (Ascii.eqb c sep) eqn:Hc.
    + injection H as _ H. exfalso. exact (str_split_nonempty _ H).
    + destruct (str_split sep s') as [|seg' rest] eqn:Hs; [|].
      * exfalso. exact (str_split_nonempty _ Hs).
      * injection H as <- ->. destruct (IH seg' eq_refl) as [-> ->]. auto.
Qed.

(** The last piece holds no separator, and the string ends with it:
    it is the whole string, or what follows the last separator. *)
Lemma py_last_str_split (s : string) :
  exists seg,
    py_last (str_split sep s) = Ok seg /\
    has_sep sep seg = false /\
    (s = seg \/ exists pre, s = (pre ++ String sep seg)%string).
Proof.
  induction s as [|c s' (seg & Hl & Hn & Hs)]; cbn [str_split].
  - exists EmptyString. cbn. auto.
  - destruct (Ascii.eqb c sep) eqn:Hc.
    + apply Ascii.eqb_eq in Hc. subst c.
      exists seg. rewrite py_last_cons by apply str_split_nonempty.
      split; [exact Hl|]. split; [exact Hn|]. right.
      destruct Hs as [->|[pre ->]].
      * exists EmptyString. reflexivity.
      * exists (String sep pre). reflexivity.
    + destruct (str_split sep s') as [|seg' rest] eqn:Hsp.
      * exfalso. exact (str_split_nonempty _ Hsp).
      * destruct rest as [|seg'' rest].
        -- destruct (str_split_single _ _ Hsp) as [-> Hno].
           exists (String c s'). cbn. rewrite Hc, Hno. auto.
        -- exists seg. split; [exact Hl|]. split; [exact Hn|]. right.
           destruct Hs as [->|[pre ->]].
           ++ rewrite (str_split_no_sep _ Hn) in Hsp. discriminate.
           ++ exists (String c pre). reflexivity.
Qed.

End Split.

(* ------------------------------------------------------------------ *)
(** ** What the console can write *)

Lemma in_range_ascii (n lo hi : N) :
  (n <? 128)%N = true -> (128 <=? lo)%N = true -> in_range n lo hi = false.
Proof.
  intros Hn Hlo. unfold in_range. apply andb_false_iff. left.
  apply N.ltb_lt in Hn. apply N.leb_le in Hlo. apply N.leb_gt. lia.
Qed.

(** One step of the strict UTF-8 check. *)
Lemma utf8_valid_ascii (x : byte) (bs : list byte) :
  (Byte.to_N x <? 128)%N = true -> utf8_valid (x :: bs) = utf8_valid bs.
Proof. intros H. cbn [utf8_valid]. cbv zeta. rewrite H. reflexivity. Qed.

(** Splits a hypothesis [H] on the tests of the validator. *)
Ltac split_checks H :=
  repeat match type of H with
         | (if ?c then _ else _) = true => destruct c
         | match ?l with [] => _ | _ :: _ => _ end = true => destruct l
         end.

(** An ASCII byte is never inside a multi-byte sequence: what follows
    it in well-formed text is well-formed. *)
Lemma utf8_valid_after_ascii (x : byte) (b : list byte) :
  (Byte.to_N x <? 128)%N = true ->
  forall (n : nat) (a : list byte),
    (List.length a <= n)%nat ->
    utf8_valid (a ++ x :: b) = true -> utf8_valid b = true.
Proof.
  intros Hx.
  assert (Hr : forall lo hi, (128 <=? lo)%N = true -> in_range (Byte.to_N x) lo hi = false)
    by (intros lo hi; apply in_range_ascii; exact Hx).
  assert (Hno : forall (lo hi : N) (c : bool),
             (128 <=? lo)%N = true -> in_range (Byte.to_N x) lo hi && c = true -> False).
  { intros lo hi c Hlo Hc. rewrite (Hr lo hi Hlo) in Hc. discriminate Hc. }
  induction n as [|n IH]; intros a Hlen H.
  { destruct a; [|cbn in Hlen; lia]. cbn [app] in H.
    rewrite (utf8_valid_ascii _ _ Hx) in H. exact H. }
  destruct a as [|b0 a].
  { cbn [app] in H. rewrite (utf8_valid_ascii _ _ Hx) in H. exact H. }
  cbn [app utf8_valid] in H. cbv zeta in H.
  destruct (Byte.to_N b0 <? 128)%N.
  { apply (IH a); [cbn in Hlen; lia | exact H]. }
  destruct a as [|b1 a]; cbn [app] in H.
  { split_checks H; try discriminate H; rewrite <- ?andb_assoc in H;
      (exfalso; refine (Hno _ _ _ _ H); reflexivity). }
  destruct (in_range (Byte.to_N b0) 194 223).
  { apply andb_true_iff in H as [_ H]. apply (IH a); [cbn in Hlen; lia | exact H]. }
  destruct a as [|b2 a]; cbn [app] in H.
  { split_checks H; try discriminate H; rewrite <- ?andb_assoc in H;
      apply andb_true_iff in H as [_ H]; (exfalso; refine (Hno _ _ _ _ H); reflexivity). }
  repeat match type of H with
         | (if ?c then _ else _) = true => destruct c
         end;
    try (apply andb_true_iff in H as [_ H]; apply (IH a); [cbn in Hlen; lia | exact H]).
  destruct a as [|b3 a]; cbn [app] in H.
  - split_checks H; try discriminate H; rewrite <- ?andb_assoc in H;
      apply andb_true_iff in H as [_ H]; apply andb_true_iff in H as [_ H];
      (exfalso; refine (Hno _ _ _ _ H); reflexivity).
  - split_checks H; try discriminate H;
      (apply andb_true_iff in H as [_ H]; apply (IH a); [cbn in Hlen; lia | exact H]).
Qed.

Lemma list_byte_of_string_app (a b : string) :
  list_byte_of_string (a ++ b)%string = list_byte_of_string a ++ list_byte_of_string b.
Proof.
  induction a as [|c a IH]; [reflexivity|].
  cbn [String.append]. unfold list_byte_of_string in *. cbn [list_ascii_of_string map app].
  rewrite IH. reflexivity.
Qed.

(** What follows a slash in a str that can be written can be written. *)
Lemma encodable_after_sep (pre s : string) :
  encodable (pre ++ String "/" s)%string = true -> encodable s = true.
Proof.
  unfold encodable. rewrite list_byte_of_string_app. intros H.
  exact (utf8_valid_after_ascii "/"%byte (list_byte_of_string s) eq_refl _ _ (le_n _) H).
Qed.

(** The text of the bytes that [decode] accepted can be written. *)
Lemma encodable_decoded (message_payload : list byte) (payload : string) :
  bytes_decode_utf8 message_payload = Ok payload -> encodable payload = true.
Proof.
  unfold bytes_decode_utf8, encodable.
  destruct (utf8_valid message_payload) eqn:H; intros Hd; [|discriminate Hd].
  injection Hd as <-. rewrite list_byte_of_string_of_list_byte. exact H.
Qed.

Lemma utf8_valid_ascii_prefix (p bs : list byte) :
  forallb (fun x => (Byte.to_N x <? 128)%N) p = true ->
  utf8_valid (p ++ bs) = utf8_valid bs.
Proof.
  induction p as [|x p IH]; intros H; [reflexivity|].
  cbn [forallb] in H. apply andb_true_iff in H as [Hx Hp].
  cbn [app]. rewrite (utf8_valid_ascii _ _ Hx). exact (IH Hp).
Qed.

(** The topic of a command can be written whenever the vehicle id can:
    the sent line of line 126 is never the one that fails. *)
Lemma encodable_topic (agv short : string) :
  encodable agv = true ->
  py_last (str_split "/" agv) = Ok short ->
  encodable (CONTROL_TOPIC_BASE ++ "/" ++ short)%string = true.
Proof.
  intros Henc Hseg.
  destruct (py_last_str_split "/" agv) as (seg & Hl & _ & Hs).
  rewrite Hl in Hseg. injection Hseg as ->.
  assert (Hshort : encodable short = true).
  { destruct Hs as [<-|[pre ->]]; [exact Henc|].
    exact (encodable_after_sep pre short Henc). }
  unfold encodable in *. rewrite !list_byte_of_string_app, app_assoc.
  rewrite utf8_valid_ascii_prefix; [exact Hshort | reflexivity].
Qed.

(** What the decision line of line 110 formats. *)
Lemma formattable_decision (agv_id battery : pyval) (low : bool) :
  py_lt_int battery 20 = Ok low ->
  formattable [agv_id; battery] =
  match agv_id with PStr agv => encodable agv | _ => true end.
Proof.
  intros H. unfold formattable. cbn [forallb].
  destruct battery; try discriminate H; rewrite !andb_true_r; reflexivity.
Qed.

(* ------------------------------------------------------------------ *)
(** ** Stepping through a computation *)

Lemma after_nil {S A} (o : outcome S A) : after [] o = o.
Proof. destruct o; reflexivity. Qed.

Lemma events_after {S A} (evs : list event) (o : outcome S A) :
  events (after evs o) = evs ++ events o.
Proof. destruct o; reflexivity. Qed.

Lemma result_after {S A} (evs : list event) (o : outcome S A) :
  result (after evs o) = result o.
Proof. destruct o; reflexivity. Qed.

Lemma final_after {S A} (evs : list event) (o : outcome S A) :
  final (after evs o) = final o.
Proof. destruct o; reflexivity. Qed.

Lemma bind_emit {S B} (ev : event) (k : unit -> M S B) (s : S) :
  bind (emit ev) k s = after [ev] (k tt s).
Proof. reflexivity. Qed.

Lemma bind_lift_res {S A B} (r : res A) (k : A -> M S B) (s : S) :
  bind (lift_res r) k s =
  match r with
  | Ok a => k a s
  | Raise e => mkOutcome (Raise e) s []
  end.
Proof.
  destruct r as [a|e]; unfold bind, lift_res, ret, raise; [|reflexivity].
  apply after_nil.
Qed.

Lemma print_values_eq {S} (line : diag) (values : list pyval) (s : S) :
  print_values line values s =
  if formattable values then mkOutcome (Ok tt) s [EvPrint line]
  else mkOutcome (Raise UnicodeEncodeError) s [].
Proof. unfold print_values. destruct (formattable values); reflexivity. Qed.

Lemma bind_print_values {S B} (line : diag) (values : list pyval)
    (k : unit -> M S B) (s : S) :
  bind (print_values line values) k s =
  if formattable values then after [EvPrint line] (k tt s)
  else mkOutcome (Raise UnicodeEncodeError) s [].
Proof. unfold bind. rewrite print_values_eq. destruct (formattable values); reflexivity. Qed.

Lemma client_publish_eq (env : Env) (topic : string) (body : pyval) (w : World) :
  client_publish env topic body w =
  match publish_raises env with
  | None => mkOutcome (Ok tt) (after_publish env topic body w) [EvPublish topic body]
  | Some e => mkOutcome (Raise e) w [EvPublish topic body]
  end.
Proof.
  unfold client_publish, after_publish, external.
  destruct (publish_raises env); [reflexivity|].
  destruct (publish_rc env =? 0); reflexivity.
Qed.

(** The branch of [process_and_control] taken when the rule fires. *)
Lemma send_command_eq (env : Env) (agv : string) (battery : pyval) (short : string)
    (low : bool) (w : World) :
  py_lt_int battery 20 = Ok low ->
  encodable agv = true ->
  last_segment agv = Ok short ->
  (print_values (DiagDecision (PStr agv) battery) [PStr agv; battery] ;;
   parts <- lift_res (py_split (PStr agv) "/") ;;
   short_id <- lift_res (py_last parts) ;;
   client_publish env (CONTROL_TOPIC_BASE ++ "/" ++ short_id)%string (command_payload env (PStr agv)) ;;
   print_values (DiagSent (CONTROL_TOPIC_BASE ++ "/" ++ short_id)%string)
     [PStr (CONTROL_TOPIC_BASE ++ "/" ++ short_id)%string]) w =
  let topic := (CONTROL_TOPIC_BASE ++ "/" ++ short)%string in
  let body := command_payload env (PStr agv) in
  match publish_raises env with
  | None =>
      mkOutcome (Ok tt) (after_publish env topic body w)
        [EvPrint (DiagDecision (PStr agv) battery); EvPublish topic body;
         EvPrint (DiagSent topic)]
  | Some e =>
      mkOutcome (Raise e) w
        [EvPrint (DiagDecision (PStr agv) battery); EvPublish topic body]
  end.
Proof.
  unfold last_segment. intros Hlow Henc Hseg.
  rewrite bind_print_values, (formattable_decision _ _ _ Hlow), Henc.
  rewrite bind_lift_res. cbn [py_split].
  rewrite bind_lift_res, Hseg.
  assert (Hsent : formattable [PStr (CONTROL_TOPIC_BASE ++ "/" ++ short)%string] = true).
  { unfold formattable. cbn [forallb]. rewrite andb_true_r.
    exact (encodable_topic agv short Henc Hseg). }
  unfold bind. rewrite client_publish_eq.
  destruct (publish_raises env); [reflexivity|].
  rewrite print_values_eq, Hsent. reflexivity.
Qed.

(* ------------------------------------------------------------------ *)
(** ** The six ways through [process_and_control] *)

Section ProcessAndControl.

Variables (env : Env) (data : pyval) (w : World).

Lemma pac_not_dict :
  is_dict data = false ->
  process_and_control env data w =
  mkOutcome (Raise AttributeError) w [EvProcess data].
Proof. destruct data; intros H; try discriminate H; reflexivity. Qed.

Variables agv_id battery status : pyval.
Hypothesis Hagv : py_get data "agv_id" (PStr "Unknown") = Ok agv_id.
Hypothesis Hbat : py_get data "battery" (PInt 0) = Ok battery.
Hypothesis Hsta : py_get data "status" (PStr "Unknown") = Ok status.

Ltac enter :=
  unfold process_and_control;
  rewrite bind_emit, bind_lift_res, Hagv, bind_lift_res, Hbat,
    bind_lift_res, Hsta, bind_lift_res.

Lemma pac_type_error (e : exn) :
  py_lt_int battery 20 = Raise e ->
  process_and_control env data w = mkOutcome (Raise e) w [EvProcess data].
Proof. intros H. enter. rewrite H. reflexivity. Qed.

Lemma pac_silent (low : bool) :
  py_lt_int battery 20 = Ok low ->
  low && py_eq_str status "MOVING" = false ->
  process_and_control env data w = mkOutcome (Ok tt) w [EvProcess data].
Proof. intros H Hc. enter. rewrite H, Hc. reflexivity. Qed.

Lemma pac_bad_id :
  py_lt_int battery 20 = Ok true ->
  py_eq_str status "MOVING" = true ->
  (forall s, agv_id <> PStr s) ->
  process_and_control env data w =
  mkOutcome (Raise AttributeError) w
    [EvProcess data; EvPrint (DiagDecision agv_id battery)].
Proof.
  intros H Hm Hid. enter. rewrite H, Hm. cbn [andb].
  rewrite bind_print_values, (formattable_decision _ _ _ H), bind_lift_res.
  destruct agv_id; try reflexivity. exfalso. exact (Hid _ eq_refl).
Qed.

Lemma pac_unprintable (agv : string) :
  py_lt_int battery 20 = Ok true ->
  py_eq_str status "MOVING" = true ->
  agv_id = PStr agv ->
  encodable agv = false ->
  process_and_control env data w =
  mkOutcome (Raise UnicodeEncodeError) w [EvProcess data].
Proof.
  intros H Hm Hid Henc. enter. rewrite H, Hm. cbn [andb]. subst agv_id.
  rewrite bind_print_values, (formattable_decision _ _ _ H), Henc. reflexivity.
Qed.

Lemma pac_fires (agv short : string) :
  py_lt_int battery 20 = Ok true ->
  py_eq_str status "MOVING" = true ->
  agv_id = PStr agv ->
  encodable agv = true ->
  last_segment agv = Ok short ->
  process_and_control env data w =
  let topic := (CONTROL_TOPIC_BASE ++ "/" ++ short)%string in
  let body := command_payload env (PStr agv) in
  match publish_raises env with
  | None =>
      mkOutcome (Ok tt) (after_publish env topic body w)
        [EvProcess data; EvPrint (DiagDecision (PStr agv) battery);
         EvPublish topic body; EvPrint (DiagSent topic)]
  | Some e =>
      mkOutcome (Raise e) w
        [EvProcess data; EvPrint (DiagDecision (PStr agv) battery);
         EvPublish topic body]
  end.
Proof.
  intros H Hm Hid Henc Hseg. enter. rewrite H, Hm. cbn [andb]. subst agv_id.
  rewrite (send_command_eq env agv battery short true w H Henc Hseg).
  destruct (publish_raises env); reflexivity.
Qed.

End ProcessAndControl.

Arguments pac_not_dict env {data} w _.
Arguments pac_type_error env {data} w {agv_id battery status} _ _ _ {e} _.
Arguments pac_silent env {data} w {agv_id battery status} _ _ _ {low} _ _.
Arguments pac_bad_id env {data} w {agv_id battery status} _ _ _ _ _ _.
Arguments pac_unprintable env {data} w {agv_id battery status} _ _ _ {agv} _ _ _ _.
Arguments pac_fires env {data} w {agv_id battery status} _ _ _ {agv short} _ _ _ _ _.

Lemma after_publish_frame (env : Env) (topic : string) (body : pyval) (w : World) :
  agv_logs (after_publish env topic body w) = agv_logs w /\
  open_conns (after_publish env topic body w) = open_conns w.
Proof. unfold after_publish. destruct (publish_rc env =? 0); split; reflexivity. Qed.

Lemma py_get_dict (d : list (string * pyval)) (key : string) (default : pyval) :
  py_get (PDict d) key default =
  Ok (match dict_get key d with Some v => v | None => default end).
Proof. reflexivity. Qed.

Lemma is_dict_true (data : pyval) : is_dict data = true -> exists d, data = PDict d.
Proof. destruct data; try discriminate. eauto. Qed.

Lemma last_segment_total (s : string) : exists short, last_segment s = Ok short.
Proof. destruct (py_last_str_split "/" s) as (seg & H & _). exists seg. exact H. Qed.

Lemma in_publish_calls (evs : list event) (topic : string) (body : pyval) :
  In (EvPublish topic body) evs <-> In (topic, body) (publish_calls evs).
Proof.
  unfold publish_calls. rewrite in_flat_map. split.
  - intros H. exists (EvPublish topic body). cbn. auto.
  - intros (ev & Hin & Hev). destruct ev; cbn in Hev; try contradiction.
    destruct Hev as [Hev|[]]. injection Hev as <- <-. exact Hin.
Qed.

(** A publish happens only on the firing path, and then exactly once. *)
Lemma pac_publish_inv (env : Env) (data : pyval) (w : World) (topic : string) (body : pyval) :
  In (topic, body) (publish_calls (events (process_and_control env data w))) ->
  exists agv battery status short,
    py_get data "agv_id" (PStr "Unknown") = Ok (PStr agv) /\
    py_get data "battery" (PInt 0) = Ok battery /\
    py_get data "status" (PStr "Unknown") = Ok status /\
    py_lt_int battery 20 = Ok true /\
    py_eq_str status "MOVING" = true /\
    last_segment agv = Ok short /\
    topic = (CONTROL_TOPIC_BASE ++ "/" ++ short)%string /\
    body = command_payload env (PStr agv) /\
    publish_calls (events (process_and_control env data w)) = [(topic, body)] /\
    encodable agv = true.
Proof.
  intros Hin.
  destruct (is_dict data) eqn:Hd.
  2:{ rewrite (pac_not_dict env w Hd) in Hin. contradiction. }
  apply is_dict_true in Hd as [d ->].
  pose proof (py_get_dict d "agv_id" (PStr "Unknown")) as Ha.
  pose proof (py_get_dict d "battery" (PInt 0)) as Hb.
  pose proof (py_get_dict d "status" (PStr "Unknown")) as Hs.
  set (agv_id := match dict_get "agv_id" d with Some v => v | None => PStr "Unknown" end) in *.
  set (battery := match dict_get "battery" d with Some v => v | None => PInt 0 end) in *.
  set (status := match dict_get "status" d with Some v => v | None => PStr "Unknown" end) in *.
  destruct (py_lt_int battery 20) as [low|e] eqn:Hl.
  2:{ rewrite (pac_type_error env w Ha Hb Hs Hl) in Hin. contradiction. }
  destruct (low && py_eq_str status "MOVING") eqn:Hc.
  2:{ rewrite (pac_silent env w Ha Hb Hs Hl Hc) in Hin. contradiction. }
  apply andb_true_iff in Hc as [-> Hm].
  destruct agv_id as [| | | |agv| |] eqn:Hid;
    try (rewrite (pac_bad_id env w Ha Hb Hs Hl Hm) in Hin by discriminate;
         contradiction).
  destruct (encodable agv) eqn:Henc.
  2:{ rewrite (pac_unprintable env w Ha Hb Hs Hl Hm eq_refl Henc) in Hin.
      contradiction. }
  destruct (last_segment_total agv) as [short Hseg].
  exists agv, battery, status, short.
  rewrite (pac_fires env w Ha Hb Hs Hl Hm eq_refl Henc Hseg) in Hin |- *.
  destruct (publish_raises env); cbn in Hin |- *;
    destruct Hin as [Hin|[]]; injection Hin as <- <-; repeat split; auto.
Qed.

(* ------------------------------------------------------------------ *)
(** ** The ways through [on_message] *)

Section OnMessage.

Variable json_loads : string -> res pyval.
Variables (env : Env) (message_payload : list byte) (w : World).

Lemma on_message_bad_utf8 :
  utf8_valid message_payload = false ->
  on_message json_loads env message_payload w =
  mkOutcome (Ok tt) w [EvPrint (DiagMsgError UnicodeDecodeError)].
Proof.
  intros H. unfold on_message, with_local, try_except.
  rewrite bind_lift_res. unfold bytes_decode_utf8. rewrite H. reflexivity.
Qed.

Variable payload : string.
Hypothesis Hdecode : bytes_decode_utf8 message_payload = Ok payload.

Lemma payload_formattable : formattable [PStr payload] = true.
Proof.
  unfold formattable. cbn [forallb]. rewrite andb_true_r.
  exact (encodable_decoded _ _ Hdecode).
Qed.

(** The [except] clauses, once [payload] is bound: a line, no exception. *)
Lemma handler_eq (e : exn) (w' : World) :
  match e with
  | JSONDecodeError =>
      bound <- get_local ;;
      match bound with
      | Some payload => print_values (DiagNotJson payload) [PStr payload]
      | None => raise NameError
      end
  | _ => print (DiagMsgError e)
  end (w', Some payload) =
  mkOutcome (Ok tt) (w', Some payload) [EvPrint (handler_line payload e)].
Proof.
  destruct e; try reflexivity.
  unfold bind, get_local. cbn [snd after app].
  rewrite print_values_eq, payload_formattable. reflexivity.
Qed.

Lemma on_message_loads_raises (e : exn) :
  json_loads payload = Raise e ->
  on_message json_loads env message_payload w =
  mkOutcome (Ok tt) w [EvPrint (handler_line payload e)].
Proof.
  intros H. unfold on_message, with_local, try_except.
  rewrite bind_lift_res, Hdecode.
  unfold bind at 1, set_local at 1. cbn [fst]. rewrite after_nil.
  rewrite bind_lift_res, H, after_nil, handler_eq. reflexivity.
Qed.

Lemma on_message_decoded (data : pyval) :
  json_loads payload = Ok data ->
  on_message json_loads env message_payload w =
  match save_to_db env data w with
  | mkOutcome (Raise e) w1 evs1 =>
      mkOutcome (Ok tt) w1 (evs1 ++ [EvPrint (handler_line payload e)])
  | mkOutcome (Ok _) w1 evs1 =>
      match process_and_control env data w1 with
      | mkOutcome (Ok _) w2 evs2 => mkOutcome (Ok tt) w2 (evs1 ++ evs2)
      | mkOutcome (Raise e) w2 evs2 =>
          mkOutcome (Ok tt) w2 (evs1 ++ evs2 ++ [EvPrint (handler_line payload e)])
      end
  end.
Proof.
  intros H. unfold on_message, with_local, try_except.
  rewrite bind_lift_res, Hdecode.
  unfold bind at 1, set_local at 1. cbn [fst]. rewrite after_nil.
  rewrite bind_lift_res, H.
  unfold bind, in_world. cbn [fst snd].
  destruct (save_to_db env data w) as [[[]|e] w1 evs1]; cbv beta iota; cbn [fst snd].
  - destruct (process_and_control env data w1) as [[[]|e] w2 evs2].
    + reflexivity.
    + cbn [after app fst snd]. rewrite handler_eq. cbn [after].
      rewrite ?app_nil_r, <- ?app_assoc. reflexivity.
  - cbn [after app fst snd]. rewrite handler_eq. reflexivity.
Qed.

End OnMessage.

Arguments on_message_bad_utf8 json_loads env {message_payload} w _.
Arguments on_message_loads_raises json_loads env {message_payload} w {payload} _ {e} _.
Arguments on_message_decoded json_loads env {message_payload} w {payload} _ {data} _.

(* ------------------------------------------------------------------ *)
(** ** Case analysis on the handlers *)

(** Splits on the outcome of every database call. *)
Ltac cases_env env :=
  destruct env as [[?e|] [?e|] [?e|] [?e|] [?e|] ?pub ?rc ?nw ?tm].

Ltac unfold_save :=
  unfold save_to_db, get_db_connection, conn_close, conn_commit,
    cursor_execute, external, with_local, in_world, try_finally, try_except,
    bind, after, lift_res, ret, raise, emit, print, print_values, modify,
    modify_local, get_local, set_local;
  cbn.

(** Runs [save_to_db]; where the saved line is reached, splits on
    whether it can be written. *)
Ltac run_save :=
  unfold_save;
  try match goal with
      | |- context [formattable ?values] =>
          let Hfmt := fresh "Hfmt" in
          destruct (formattable values) eqn:Hfmt; cbn
      end.

(** Every path through [save_to_db], with the three fields abstract. *)
Ltac save_paths env data :=
  cases_env env;
  destruct data as [| | | | | |?d];
  run_save.

(** Every path through [process_and_control], each rewritten to its outcome. *)
Ltac pac_paths env data w :=
  let Hd := fresh "Hd" in
  destruct (is_dict data) eqn:Hd;
  [ let d := fresh "d" in
    apply is_dict_true in Hd as [d ->];
    let Ha := fresh "Ha" in
    let Hb := fresh "Hb" in
    let Hs := fresh "Hs" in
    pose proof (py_get_dict d "agv_id" (PStr "Unknown")) as Ha;
    pose proof (py_get_dict d "battery" (PInt 0)) as Hb;
    pose proof (py_get_dict d "status" (PStr "Unknown")) as Hs;
    let Hl := fresh "Hl" in
    destruct (py_lt_int (match dict_get "battery" d with
                         | Some v => v
                         | None => PInt 0
                         end) 20) as [[|]|?e] eqn:Hl;
    [ let Hm := fresh "Hm" in
      destruct (py_eq_str (match dict_get "status" d with
                           | Some v => v
                           | None => PStr "Unknown"
                           end) "MOVING") eqn:Hm;
      [ let Hid := fresh "Hid" in
        destruct (match dict_get "agv_id" d with
                  | Some v => v
                  | None => PStr "Unknown"
                  end) as [| | | |?agv| |] eqn:Hid;
        [ rewrite (pac_bad_id env w Ha Hb Hs Hl Hm) by discriminate ..
        | let Henc := fresh "Henc" in
          destruct (encodable agv) eqn:Henc;
          [ let short := fresh "short" in
            let Hseg := fresh "Hseg" in
            destruct (last_segment_total agv) as [short Hseg];
            rewrite (pac_fires env w Ha Hb Hs Hl Hm eq_refl Henc Hseg)
          | rewrite (pac_unprintable env w Ha Hb Hs Hl Hm eq_refl Henc) ]
        | rewrite (pac_bad_id env w Ha Hb Hs Hl Hm) by discriminate
        | rewrite (pac_bad_id env w Ha Hb Hs Hl Hm) by discriminate ]
      | rewrite (pac_silent env w Ha Hb Hs Hl (f_equal (andb true) Hm)) ]
    | rewrite (pac_silent env w Ha Hb Hs Hl eq_refl)
    | rewrite (pac_type_error env w Ha Hb Hs Hl) ]
  | rewrite (pac_not_dict env w Hd) ].

Lemma save_to_db_stages (env : Env) (data : pyval) (w : World) :
  stages (events (save_to_db env data w)) = [StRecord].
Proof. save_paths env data; reflexivity. Qed.

Lemma save_to_db_no_publish (env : Env) (data : pyval) (w : World) :
  publish_calls (events (save_to_db env data w)) = [] /\
  outbox (final (save_to_db env data w)) = outbox w.
Proof. save_paths env data; split; reflexivity. Qed.

Lemma process_and_control_stages (env : Env) (data : pyval) (w : World) :
  stages (events (process_and_control env data w)) = [StEvaluate] \/
  stages (events (process_and_control env data w)) = [StEvaluate; StDispatch].
Proof.
  pac_paths env data w; try (left; reflexivity).
  destruct (publish_raises env); right; reflexivity.
Qed.

Lemma save_to_db_enters (env : Env) (data : pyval) (w : World) :
  exists rest, events (save_to_db env data w) = EvSaveToDb data :: rest.
Proof. save_paths env data; eexists; reflexivity. Qed.

Lemma save_to_db_not_dict (env : Env) (data : pyval) (w : World) :
  is_dict data = false ->
  execute_calls (events (save_to_db env data w)) = [] /\
  agv_logs (final (save_to_db env data w)) = agv_logs w.
Proof. save_paths env data; intros H; try discriminate H; split; reflexivity. Qed.

(** The row [save_to_db] builds from a dict. *)
Lemma save_to_db_dict (env : Env) (d : list (string * pyval)) (w : World) :
  let o := save_to_db env (PDict d) w in
  let row :=
    mkRow (match dict_get "agv_id" d with Some v => v | None => PStr "Unknown" end)
          (match dict_get "battery" d with Some v => v | None => PInt 0 end)
          (match dict_get "status" d with Some v => v | None => PStr "Unknown" end)
          (now env) in
  (execute_calls (events o) = [] \/ execute_calls (events o) = [row]) /\
  (agv_logs (final o) = agv_logs w \/ agv_logs (final o) = agv_logs w ++ [row]) /\
  (connect_raises env = None -> cursor_raises env = None ->
   execute_calls (events o) = [row]) /\
  (connect_raises env = None -> cursor_raises env = None ->
   execute_raises env = None -> commit_raises env = None ->
   agv_logs (final o) = agv_logs w ++ [row]).
Proof.
  cases_env env; run_save;
    (split; [auto | split; [auto | split; intros; try discriminate; auto]]).
Qed.

(** An exception of the connect, the cursor, the field lookup, the
    insert or the commit means no row was committed. *)
Lemma save_to_db_uncommitted (env : Env) (data : pyval) (w : World) (e : exn) :
  first_store_exception env data = Some e ->
  agv_logs (final (save_to_db env data w)) = agv_logs w.
Proof.
  unfold first_store_exception.
  save_paths env data; cbn; intros H; try discriminate H; reflexivity.
Qed.

Lemma save_to_db_once (env : Env) (data : pyval) (w : World) :
  (connect_calls (events (save_to_db env data w)) <= 1)%nat /\
  (List.length (execute_calls (events (save_to_db env data w))) <= 1)%nat.
Proof. save_paths env data; split; cbn; lia. Qed.

(** What [conn.close()] and the [finally] clause guarantee. *)
Lemma save_to_db_close (env : Env) (data : pyval) (w : World) :
  let o := save_to_db env data w in
  match connect_raises env with
  | None =>
      (exists evs, events o = evs ++ [EvClose] /\ In EvConnect evs /\ ~ In EvClose evs) /\
      (close_raises env = None -> open_conns (final o) = open_conns w)
  | Some _ => close_calls (events o) = 0%nat /\ open_conns (final o) = open_conns w
  end.
Proof.
  save_paths env data;
    try (split; reflexivity);
    (split; [| intros H; try discriminate H; reflexivity]);
    match goal with
    | |- exists evs, ?l = _ /\ _ => exists (removelast l)
    end; cbn;
    (split; [reflexivity | split; [auto |]]);
    intros H; repeat (destruct H as [H|H]; [discriminate H|]); contradiction.
Qed.

Lemma process_and_control_db_untouched (env : Env) (data : pyval) (w : World) :
  let o := process_and_control env data w in
  agv_logs (final o) = agv_logs w /\ open_conns (final o) = open_conns w /\
  execute_calls (events o) = [] /\ connect_calls (events o) = 0%nat.
Proof.
  cbv zeta. pac_paths env data w; try (repeat split; reflexivity).
  destruct (after_publish_frame env (CONTROL_TOPIC_BASE ++ "/" ++ short)%string
              (command_payload env (PStr agv)) w) as [Hlogs Hconns].
  destruct (publish_raises env); cbn [final events];
    repeat split; try reflexivity; assumption.
Qed.

Lemma process_and_control_enters (env : Env) (data : pyval) (w : World) :
  exists rest, events (process_and_control env data w) = EvProcess data :: rest.
Proof.
  pac_paths env data w; try (eexists; reflexivity).
  destruct (publish_raises env); eexists; reflexivity.
Qed.

(** A raising publish is the last thing [process_and_control] does. *)
Lemma process_and_control_publish_raises (env : Env) (data : pyval) (w : World) (e : exn) :
  publish_raises env = Some e ->
  let o := process_and_control env data w in
  publish_calls (events o) = [] \/
  exists pre topic body,
    events o = pre ++ [EvPublish topic body] /\ publish_calls pre = [] /\
    result o = Raise e /\ final o = w.
Proof.
  intros Hp. cbv zeta. pac_paths env data w; try (left; reflexivity).
  rewrite Hp. right.
  eexists [_; _], _, _. repeat split; reflexivity.
Qed.

(* ------------------------------------------------------------------ *)
(** ** Observations distribute over the log *)

Lemma stages_app (a b : list event) : stages (a ++ b) = stages a ++ stages b.
Proof. apply flat_map_app. Qed.

Lemma publish_calls_app (a b : list event) :
  publish_calls (a ++ b) = publish_calls a ++ publish_calls b.
Proof. apply flat_map_app. Qed.

Lemma execute_calls_app (a b : list event) :
  execute_calls (a ++ b) = execute_calls a ++ execute_calls b.
Proof. apply flat_map_app. Qed.

Lemma connect_calls_app (a b : list event) :
  connect_calls (a ++ b) = (connect_calls a + connect_calls b)%nat.
Proof. unfold connect_calls. rewrite filter_app. apply length_app. Qed.

Lemma decode_cases (message_payload : list byte) :
  utf8_valid message_payload = false \/
  exists payload, bytes_decode_utf8 message_payload = Ok payload.
Proof.
  unfold bytes_decode_utf8. destruct (utf8_valid message_payload); eauto.
Qed.

Lemma save_to_db_result (env : Env) (data : pyval) (w : World) :
  match close_raises env with
  | None => result (save_to_db env data w) = Ok tt
  | Some e =>
      result (save_to_db env data w) = Ok tt \/
      result (save_to_db env data w) = Raise e
  end.
Proof. save_paths env data; auto. Qed.

Lemma save_to_db_logs (env : Env) (data : pyval) (w : World) (e : exn) :
  first_store_exception env data = Some e ->
  In (EvPrint (DiagDbError e)) (events (save_to_db env data w)).
Proof.
  unfold first_store_exception.
  save_paths env data; cbn; intros H; try discriminate H;
    injection H as <-; auto 10.
Qed.

(* ------------------------------------------------------------------ *)
(** ** [on_message], seen through its two callees *)

Section OnMessageDecoded.

Variable json_loads : string -> res pyval.
Variables (env : Env) (message_payload : list byte) (w : World).
Variables (payload : string) (data : pyval).
Hypothesis Hdecode : bytes_decode_utf8 message_payload = Ok payload.
Hypothesis Hloads : json_loads payload = Ok data.

Lemma on_message_events :
  events (on_message json_loads env message_payload w) =
  events (save_to_db env data w) ++
  match result (save_to_db env data w) with
  | Ok _ =>
      events (process_and_control env data (final (save_to_db env data w))) ++
      match result (process_and_control env data
                      (final (save_to_db env data w))) with
      | Ok _ => []
      | Raise e => [EvPrint (handler_line payload e)]
      end
  | Raise e => [EvPrint (handler_line payload e)]
  end.
Proof.
  rewrite (on_message_decoded json_loads env w Hdecode Hloads).
  destruct (save_to_db env data w) as [[[]|e] w1 evs1]; cbn [result final events].
  - destruct (process_and_control env data w1) as [[[]|e] w2 evs2];
      cbn [result final events]; rewrite ?app_nil_r; reflexivity.
  - reflexivity.
Qed.

Lemma on_message_final :
  final (on_message json_loads env message_payload w) =
  match result (save_to_db env data w) with
  | Ok _ => final (process_and_control env data (final (save_to_db env data w)))
  | Raise _ => final (save_to_db env data w)
  end.
Proof.
  rewrite (on_message_decoded json_loads env w Hdecode Hloads).
  destruct (save_to_db env data w) as [[[]|e] w1 evs1]; cbn [result final events].
  - destruct (process_and_control env data w1) as [[[]|e] w2 evs2]; reflexivity.
  - reflexivity.
Qed.

Lemma on_message_result :
  result (on_message json_loads env message_payload w) = Ok tt.
Proof.
  rewrite (on_message_decoded json_loads env w Hdecode Hloads).
  destruct (save_to_db env data w) as [[[]|e] w1 evs1]; [|reflexivity].
  destruct (process_and_control env data w1) as [[[]|e] w2 evs2]; reflexivity.
Qed.

End OnMessageDecoded.

Arguments on_message_events json_loads env {message_payload} w {payload data} _ _.
Arguments on_message_final json_loads env {message_payload} w {payload data} _ _.
Arguments on_message_result json_loads env {message_payload} w {payload data} _ _.

Section Loop.

Variable json_loads : string -> res pyval.

(** No exception leaves the callback. *)
Lemma on_message_never_raises (env : Env) (message_payload : list byte) (w : World) :
  result (on_message json_loads env message_payload w) = Ok tt.
Proof.
  destruct (decode_cases message_payload) as [Hbad|[payload Hdec]].
  - rewrite (on_message_bad_utf8 json_loads env w Hbad). reflexivity.
  - destruct (json_loads payload) as [data|e] eqn:Hl.
    + exact (on_message_result json_loads env w Hdec Hl).
    + rewrite (on_message_loads_raises json_loads env w Hdec Hl). reflexivity.
Qed.

(** After a message the loop goes on with the next one. *)
Lemma loop_forever_next (env : Env) (message_payload : list byte)
    (rest : list (Env * list byte)) (w : World) :
  loop_forever json_loads ((env, message_payload) :: rest) w =
  after (events (on_message json_loads env message_payload w))
        (loop_forever json_loads rest
           (final (on_message json_loads env message_payload w))).
Proof.
  cbn [loop_forever]. unfold bind.
  pose proof (on_message_never_raises env message_payload w) as H.
  destruct (on_message json_loads env message_payload w) as [r w' evs].
  cbn in H. subst r. reflexivity.
Qed.

(** The loop handles every delivery and never ends on an exception. *)
Lemma loop_forever_never_raises (deliveries : list (Env * list byte)) (w : World) :
  result (loop_forever json_loads deliveries w) = Ok tt.
Proof.
  revert w. induction deliveries as [|[env m] rest IH]; intros w.
  - reflexivity.
  - rewrite loop_forever_next, result_after. apply IH.
Qed.

End Loop.

(* ------------------------------------------------------------------ *)
(** * The rule engine *)

(** C1, as stated, fails for a vehicle id that cannot be written to the
    console: for the id factory/agv/ followed by the lone surrogate
    U+D800 (which [json.loads] returns for its escape), with battery 5
    and status MOVING, the decision line of line 110 raises
    UnicodeEncodeError before the publish of line 125, and no command is
    produced. *)
Lemma unprintable_vehicle_id_gets_no_command :
  py_get reading_unprintable_id "agv_id" (PStr "Unknown") = Ok (PStr unprintable_id) /\
  py_get reading_unprintable_id "battery" (PInt 0) = Ok (PInt 5) /\
  py_get reading_unprintable_id "status" (PStr "Unknown") = Ok (PStr "MOVING") /\
  5 < 20 /\
  process_and_control quiet_env reading_unprintable_id empty_world =
    mkOutcome (Raise UnicodeEncodeError) empty_world [EvProcess reading_unprintable_id] /\
  publish_calls
    (events (process_and_control quiet_env reading_unprintable_id empty_world)) = [] /\
  bytes_decode_utf8 payload_unprintable_id = Ok text_unprintable_id /\
  scenario_loads_esc text_unprintable_id = Ok reading_unprintable_id /\
  publish_calls
    (events (on_message scenario_loads_esc quiet_env payload_unprintable_id
               empty_world)) = [].
Proof. repeat split; reflexivity. Qed.

(** C1, amended.  For a reading (vehicle id and status strings, integer
    battery, each possibly defaulted) whose vehicle id can be written to
    the console, the rule evaluation makes exactly one publish call,
    carrying a RETURN_TO_BASE command, when the battery is below 20 and
    the status is exactly MOVING; for every reading it makes none when
    the battery is 20 or more or the status is anything else. *)
Theorem low_battery_rule (env : Env) (data : pyval) (w : World)
    (vehicle_id : string) (battery : Z) (status : string) :
  py_get data "agv_id" (PStr "Unknown") = Ok (PStr vehicle_id) ->
  py_get data "battery" (PInt 0) = Ok (PInt battery) ->
  py_get data "status" (PStr "Unknown") = Ok (PStr status) ->
  (encodable vehicle_id = true ->
   battery < 20 /\ status = "MOVING" ->
   exists topic body,
     publish_calls (events (process_and_control env data w)) = [(topic, body)] /\
     py_get body "command" PNone = Ok (PStr "RETURN_TO_BASE")) /\
  (20 <= battery \/ status <> "MOVING" ->
   publish_calls (events (process_and_control env data w)) = []).
Proof.
  intros Ha Hb Hs. split.
  - intros Henc [Hlow ->].
    assert (Hl : py_lt_int (PInt battery) 20 = Ok true).
    { cbn. f_equal. apply Z.ltb_lt, Hlow. }
    destruct (last_segment_total vehicle_id) as [short Hseg].
    rewrite (pac_fires env w Ha Hb Hs Hl eq_refl eq_refl Henc Hseg).
    destruct (publish_raises env); cbn; eexists _, _; split; reflexivity.
  - intros Hno.
    assert (Hc : (battery <? 20) && py_eq_str (PStr status) "MOVING" = false).
    { apply andb_false_iff. destruct Hno as [Hge|Hst].
      - left. apply Z.ltb_ge, Hge.
      - right. cbn. apply String.eqb_neq, Hst. }
    rewrite (pac_silent env w Ha Hb Hs eq_refl Hc). reflexivity.
Qed.

Lemma low_battery_rule_witness :
  py_get (reading_007 (PInt 15) "MOVING") "agv_id" (PStr "Unknown") =
    Ok (PStr "factory/agv/007") /\
  py_get (reading_007 (PInt 15) "MOVING") "battery" (PInt 0) = Ok (PInt 15) /\
  py_get (reading_007 (PInt 15) "MOVING") "status" (PStr "Unknown") =
    Ok (PStr "MOVING") /\
  (encodable "factory/agv/007" = true ->
   15 < 20 /\ "MOVING" = "MOVING" ->
   exists topic body,
     publish_calls
       (events (process_and_control quiet_env (reading_007 (PInt 15) "MOVING")
                  empty_world)) = [(topic, body)] /\
     py_get body "command" PNone = Ok (PStr "RETURN_TO_BASE")) /\
  (20 <= 15 \/ "MOVING" <> "MOVING" ->
   publish_calls
     (events (process_and_control quiet_env (reading_007 (PInt 15) "MOVING")
                empty_world)) = []).
Proof.
  repeat (split; [reflexivity|]).
  apply (low_battery_rule quiet_env (reading_007 (PInt 15) "MOVING") empty_world
           "factory/agv/007" 15 "MOVING"); reflexivity.
Defined.

(** Low battery while already returning, charging or idle: no command. *)
Example low_battery_not_moving :
  Forall (fun status =>
            publish_calls
              (events (process_and_control quiet_env (reading_007 (PInt 15) status)
                         empty_world)) = [])
         ["RETURNING"; "CHARGING"; "IDLE"; "moving"; "Unknown"].
Proof. repeat constructor. Qed.

(** C2, as stated, fails: for vehicle id factory/agv/007 the published
    payload carries the full id as target_id, not the last segment 007. *)
Lemma target_id_is_not_last_segment :
  exists topic body,
    publish_calls
      (events (process_and_control quiet_env (reading_007 (PInt 15) "MOVING")
                 empty_world)) = [(topic, body)] /\
    last_segment "factory/agv/007" = Ok "007" /\
    py_get body "target_id" PNone = Ok (PStr "factory/agv/007") /\
    py_get body "target_id" PNone <> Ok (PStr "007").
Proof.
  eexists _, _. split; [reflexivity|]. split; [reflexivity|].
  split; [reflexivity | discriminate].
Qed.

Lemma last_segment_no_sep (s short : string) :
  last_segment s = Ok short -> has_sep "/" short = false.
Proof.
  unfold last_segment. intros H.
  destruct (py_last_str_split "/" s) as (seg & Hl & Hn & _).
  rewrite Hl in H. injection H as <-. exact Hn.
Qed.

Lemma last_segment_identity (s : string) :
  has_sep "/" s = false -> last_segment s = Ok s.
Proof. intros H. unfold last_segment. rewrite (str_split_no_sep _ _ H). reflexivity. Qed.

(** C2, amended.  Whenever a command is published, the target_id of its
    payload is the full vehicle id of the reading, unchanged; the last
    path segment goes into the topic only, and the two agree exactly when
    the vehicle id holds no separator. *)
Theorem command_target_id_is_full_vehicle_id (env : Env) (data : pyval) (w : World)
    (topic : string) (body : pyval) :
  In (EvPublish topic body) (events (process_and_control env data w)) ->
  exists vehicle_id short,
    py_get data "agv_id" (PStr "Unknown") = Ok (PStr vehicle_id) /\
    py_get body "target_id" PNone = Ok (PStr vehicle_id) /\
    last_segment vehicle_id = Ok short /\
    topic = (CONTROL_TOPIC_BASE ++ "/" ++ short)%string /\
    (short = vehicle_id <-> has_sep "/" vehicle_id = false).
Proof.
  intros Hin. apply in_publish_calls in Hin.
  destruct (pac_publish_inv env data w topic body Hin)
    as (agv & battery & status & short & Ha & _ & _ & _ & _ & Hseg & -> & -> & _).
  exists agv, short. repeat split; auto.
  - intros ->. exact (last_segment_no_sep _ _ Hseg).
  - intros Hno. rewrite (last_segment_identity _ Hno) in Hseg. congruence.
Qed.

Lemma command_target_id_is_full_vehicle_id_witness :
  In (EvPublish "factory/control/007"
        (command_payload quiet_env (PStr "factory/agv/007")))
     (events (process_and_control quiet_env (reading_007 (PInt 15) "MOVING")
                empty_world)) /\
  exists vehicle_id short,
    py_get (reading_007 (PInt 15) "MOVING") "agv_id" (PStr "Unknown") =
      Ok (PStr vehicle_id) /\
    py_get (command_payload quiet_env (PStr "factory/agv/007")) "target_id" PNone =
      Ok (PStr vehicle_id) /\
    last_segment vehicle_id = Ok short /\
    "factory/control/007" = (CONTROL_TOPIC_BASE ++ "/" ++ short)%string /\
    (short = vehicle_id <-> has_sep "/" vehicle_id = false).
Proof.
  assert (H : In (EvPublish "factory/control/007"
                    (command_payload quiet_env (PStr "factory/agv/007")))
                 (events (process_and_control quiet_env
                            (reading_007 (PInt 15) "MOVING") empty_world))).
  { vm_compute. auto. }
  split; [exact H|].
  exact (command_target_id_is_full_vehicle_id quiet_env
           (reading_007 (PInt 15) "MOVING") empty_world _ _ H).
Defined.

(* ------------------------------------------------------------------ *)
(** * The command dispatcher *)

(** A publish seen while a message is handled comes from the rule
    evaluation of the decoded data. *)
Lemma on_message_publish_inv (json_loads : string -> res pyval) (env : Env)
    (message_payload : list byte) (w : World) (topic : string) (body : pyval) :
  In (EvPublish topic body) (events (on_message json_loads env message_payload w)) ->
  exists payload data,
    bytes_decode_utf8 message_payload = Ok payload /\
    json_loads payload = Ok data /\
    result (save_to_db env data w) = Ok tt /\
    In (topic, body)
       (publish_calls
          (events (process_and_control env data (final (save_to_db env data w))))).
Proof.
  intros Hin.
  destruct (decode_cases message_payload) as [Hbad|[payload Hdec]].
  { rewrite (on_message_bad_utf8 json_loads env w Hbad) in Hin.
    destruct Hin as [Hin|[]]. discriminate Hin. }
  destruct (json_loads payload) as [data|e] eqn:Hl.
  2:{ rewrite (on_message_loads_raises json_loads env w Hdec Hl) in Hin.
      destruct Hin as [Hin|[]]. discriminate Hin. }
  exists payload, data. split; [exact Hdec|]. split; [exact Hl|].
  apply in_publish_calls in Hin.
  rewrite (on_message_events json_loads env w Hdec Hl), publish_calls_app in Hin.
  rewrite (proj1 (save_to_db_no_publish env data w)) in Hin. cbn [app] in Hin.
  destruct (result (save_to_db env data w)) as [[]|e]; [|contradiction].
  split; [reflexivity|].
  rewrite publish_calls_app in Hin. apply in_app_or in Hin as [Hin|Hin]; [exact Hin|].
  destruct (result (process_and_control env data (final (save_to_db env data w))));
    cbn in Hin; contradiction.
Qed.

(** C7.  Every publish made while a message is handled goes to the topic
    made of the fixed prefix factory/control, a slash, and the short id
    derived from the vehicle id of the decoded reading. *)
Theorem command_topic_format (json_loads : string -> res pyval) (env : Env)
    (message_payload : list byte) (w : World) (topic : string) (body : pyval) :
  In (EvPublish topic body) (events (on_message json_loads env message_payload w)) ->
  exists payload data vehicle_id short,
    bytes_decode_utf8 message_payload = Ok payload /\
    json_loads payload = Ok data /\
    py_get data "agv_id" (PStr "Unknown") = Ok (PStr vehicle_id) /\
    last_segment vehicle_id = Ok short /\
    topic = (CONTROL_TOPIC_BASE ++ "/" ++ short)%string /\
    CONTROL_TOPIC_BASE = "factory/control".
Proof.
  intros Hin.
  destruct (on_message_publish_inv _ _ _ _ _ _ Hin) as (payload & data & Hdec & Hl & _ & Hp).
  destruct (pac_publish_inv _ _ _ _ _ Hp)
    as (agv & _ & _ & short & Ha & _ & _ & _ & _ & Hseg & Ht & _).
  exists payload, data, agv, short. auto 10.
Qed.

Lemma command_topic_format_witness :
  In (EvPublish "factory/control/007"
        (command_payload quiet_env (PStr "factory/agv/007")))
     (events (on_message scenario_loads quiet_env payload_007_moving empty_world)) /\
  exists payload data vehicle_id short,
    bytes_decode_utf8 payload_007_moving = Ok payload /\
    scenario_loads payload = Ok data /\
    py_get data "agv_id" (PStr "Unknown") = Ok (PStr vehicle_id) /\
    last_segment vehicle_id = Ok short /\
    "factory/control/007" = (CONTROL_TOPIC_BASE ++ "/" ++ short)%string /\
    CONTROL_TOPIC_BASE = "factory/control".
Proof.
  assert (H : In (EvPublish "factory/control/007"
                    (command_payload quiet_env (PStr "factory/agv/007")))
                 (events (on_message scenario_loads quiet_env payload_007_moving
                            empty_world))).
  { vm_compute. repeat (first [left; reflexivity | right]). }
  split; [exact H|].
  exact (command_topic_format scenario_loads quiet_env payload_007_moving
           empty_world _ _ H).
Defined.

(** Short id 001 gives the topic factory/control/001. *)
Example topic_of_agv_001 :
  last_segment "factory/agv/001" = Ok "001" /\
  (CONTROL_TOPIC_BASE ++ "/" ++ "001")%string = "factory/control/001".
Proof. split; reflexivity. Qed.

(** C10.  The last-segment transform is total; on a vehicle id without a
    slash it returns the id itself, so every publish for such a reading
    goes to factory/control/ followed by the whole id. *)
Theorem separator_free_id_is_its_own_short_id (env : Env) (data : pyval) (w : World)
    (vehicle_id : string) :
  py_get data "agv_id" (PStr "Unknown") = Ok (PStr vehicle_id) ->
  has_sep "/" vehicle_id = false ->
  (forall s, exists short, last_segment s = Ok short) /\
  last_segment vehicle_id = Ok vehicle_id /\
  (forall topic body,
     In (EvPublish topic body) (events (process_and_control env data w)) ->
     topic = ("factory/control/" ++ vehicle_id)%string).
Proof.
  intros Ha Hno.
  pose proof (last_segment_identity _ Hno) as Hseg.
  split; [exact last_segment_total|]. split; [exact Hseg|].
  intros topic body Hin. apply in_publish_calls in Hin.
  destruct (pac_publish_inv _ _ _ _ _ Hin)
    as (agv & _ & _ & short & Ha' & _ & _ & _ & _ & Hseg' & -> & _).
  rewrite Ha in Ha'. injection Ha' as <-.
  rewrite Hseg in Hseg'. injection Hseg' as <-. reflexivity.
Qed.

Lemma separator_free_id_is_its_own_short_id_witness :
  py_get (PDict [("agv_id", PStr "agv-42"); ("battery", PInt 5);
                 ("status", PStr "MOVING")]) "agv_id" (PStr "Unknown") =
    Ok (PStr "agv-42") /\
  has_sep "/" "agv-42" = false /\
  last_segment "agv-42" = Ok "agv-42" /\
  In (EvPublish "factory/control/agv-42" (command_payload quiet_env (PStr "agv-42")))
     (events (process_and_control quiet_env
                (PDict [("agv_id", PStr "agv-42"); ("battery", PInt 5);
                        ("status", PStr "MOVING")]) empty_world)) /\
  "factory/control/agv-42" = ("factory/control/" ++ "agv-42")%string.
Proof.
  split; [reflexivity|]. split; [reflexivity|].
  destruct (separator_free_id_is_its_own_short_id quiet_env
              (PDict [("agv_id", PStr "agv-42"); ("battery", PInt 5);
                      ("status", PStr "MOVING")]) empty_world "agv-42"
              eq_refl eq_refl) as (_ & Hid & Htopic).
  split; [exact Hid|].
  assert (Hin : In (EvPublish "factory/control/agv-42"
                      (command_payload quiet_env (PStr "agv-42")))
                   (events (process_and_control quiet_env
                              (PDict [("agv_id", PStr "agv-42"); ("battery", PInt 5);
                                      ("status", PStr "MOVING")]) empty_world))).
  { vm_compute. auto. }
  split; [exact Hin | exact (Htopic _ _ Hin)].
Defined.

(* ------------------------------------------------------------------ *)
(** * The telemetry store *)

(** C9.  When [get_db_connection] returned a connection, [save_to_db]
    calls [conn.close()] exactly once, as its last action, whatever the
    cursor, the field lookup, the insert and the commit did; and when the
    close returns, no connection stays open. *)
Theorem connection_released_on_every_path (env : Env) (data : pyval) (w : World) :
  connect_raises env = None ->
  (exists evs,
     events (save_to_db env data w) = evs ++ [EvClose] /\
     In EvConnect evs /\ ~ In EvClose evs) /\
  (close_raises env = None ->
   open_conns (final (save_to_db env data w)) = open_conns w).
Proof.
  intros Hc. pose proof (save_to_db_close env data w) as H.
  cbv zeta in H. rewrite Hc in H. exact H.
Qed.

Lemma connection_released_on_every_path_witness :
  connect_raises failing_insert_env = None /\
  (exists evs,
     events (save_to_db failing_insert_env (reading_007 (PInt 15) "MOVING")
               empty_world) = evs ++ [EvClose] /\
     In EvConnect evs /\ ~ In EvClose evs) /\
  (close_raises failing_insert_env = None ->
   open_conns (final (save_to_db failing_insert_env
                        (reading_007 (PInt 15) "MOVING") empty_world)) =
   open_conns empty_world).
Proof.
  split; [reflexivity|].
  apply (connection_released_on_every_path failing_insert_env
           (reading_007 (PInt 15) "MOVING") empty_world).
  reflexivity.
Defined.

(** No connection, nothing to close. *)
Lemma no_connection_no_close (env : Env) (data : pyval) (w : World) (e : exn) :
  connect_raises env = Some e ->
  close_calls (events (save_to_db env data w)) = 0%nat /\
  open_conns (final (save_to_db env data w)) = open_conns w.
Proof.
  intros Hc. pose proof (save_to_db_close env data w) as H.
  cbv zeta in H. rewrite Hc in H. exact H.
Qed.

(** C6.  For a JSON object, when the insert and the commit go through,
    exactly one row is added: a missing agv_id is stored as Unknown, a
    missing battery as 0, a missing status as Unknown, and every field
    that is present is stored with the value of the payload. *)
Theorem missing_fields_persist_defaults (json_loads : string -> res pyval)
    (env : Env) (message_payload : list byte) (w : World)
    (payload : string) (d : list (string * pyval)) :
  bytes_decode_utf8 message_payload = Ok payload ->
  json_loads payload = Ok (PDict d) ->
  connect_raises env = None -> cursor_raises env = None ->
  execute_raises env = None -> commit_raises env = None ->
  exists row,
    agv_logs (final (on_message json_loads env message_payload w)) =
      agv_logs w ++ [row] /\
    (dict_get "agv_id" d = None -> row_agv_id row = PStr "Unknown") /\
    (dict_get "battery" d = None -> row_battery row = PInt 0) /\
    (dict_get "status" d = None -> row_status row = PStr "Unknown") /\
    (forall v, dict_get "agv_id" d = Some v -> row_agv_id row = v) /\
    (forall v, dict_get "battery" d = Some v -> row_battery row = v) /\
    (forall v, dict_get "status" d = Some v -> row_status row = v).
Proof.
  intros Hdec Hl Hc Hcu He Hco.
  destruct (save_to_db_dict env d w) as (_ & _ & _ & Hrow).
  specialize (Hrow Hc Hcu He Hco).
  eexists. split.
  - rewrite (on_message_final json_loads env w Hdec Hl).
    destruct (result (save_to_db env (PDict d) w)).
    + rewrite (proj1 (process_and_control_db_untouched env (PDict d) _)).
      exact Hrow.
    + exact Hrow.
  - cbn. repeat split; intros; 
      match goal with H : dict_get _ d = _ |- _ => rewrite H end; reflexivity.
Qed.

Lemma missing_fields_persist_defaults_witness :
  bytes_decode_utf8 (list_byte_of_string "{}") = Ok "{}" /\
  scenario_loads "{}" = Ok (PDict []) /\
  agv_logs (final (on_message scenario_loads quiet_env
                     (list_byte_of_string "{}") empty_world)) =
  [mkRow (PStr "Unknown") (PInt 0) (PStr "Unknown") (now quiet_env)].
Proof.
  split; [reflexivity|]. split; [reflexivity|].
  destruct (missing_fields_persist_defaults scenario_loads quiet_env
              (list_byte_of_string "{}") empty_world "{}" []
              eq_refl eq_refl eq_refl eq_refl eq_refl eq_refl)
    as (row & Hrow & Ha & Hb & Hs & _).
  rewrite Hrow. cbn [agv_logs empty_world app].
  destruct row as [a b s t]. cbn in Ha, Hb, Hs.
  rewrite (Ha eq_refl), (Hb eq_refl), (Hs eq_refl).
  vm_compute in Hrow. injection Hrow as _ _ _ <-. reflexivity.
Defined.

(** The first scenario of section 8: the row of the reading is stored. *)
Example scenario_007_row :
  agv_logs (final (on_message scenario_loads quiet_env payload_007_moving
                     empty_world)) =
  [mkRow (PStr "factory/agv/007") (PInt 15) (PStr "MOVING") (now quiet_env)].
Proof. reflexivity. Qed.

(** C4, as stated, fails for a battery that is present and not an
    integer: the string is handed to the insert as it is, and the rule
    evaluation raises instead of comparing 0 with 20 (with battery 0 the
    same reading gets a command). *)
Lemma malformed_battery_not_defaulted :
  execute_calls
    (events (save_to_db quiet_env (reading_007 (PStr "15") "MOVING") empty_world)) =
    [mkRow (PStr "factory/agv/007") (PStr "15") (PStr "MOVING") (now quiet_env)] /\
  agv_logs
    (final (save_to_db quiet_env (reading_007 (PStr "15") "MOVING") empty_world)) =
    [mkRow (PStr "factory/agv/007") (PStr "15") (PStr "MOVING") (now quiet_env)] /\
  result (process_and_control quiet_env (reading_007 (PStr "15") "MOVING")
            empty_world) = Raise TypeError /\
  publish_calls
    (events (process_and_control quiet_env (reading_007 (PStr "15") "MOVING")
               empty_world)) = [] /\
  publish_calls
    (events (process_and_control quiet_env (reading_007 (PInt 0) "MOVING")
               empty_world)) <> [].
Proof. repeat split; try reflexivity. discriminate. Qed.

(** C4, amended.  For a JSON object without a battery field, the insert
    receives battery 0 and the rule evaluation behaves as on the same
    object with battery 0.  A battery that is present, integer or not, is
    handed to the insert unchanged. *)
Theorem absent_battery_defaults_to_zero (env : Env) (d : list (string * pyval))
    (w : World) :
  (dict_get "battery" d = None ->
   (forall row, In (EvExecute row) (events (save_to_db env (PDict d) w)) ->
                row_battery row = PInt 0) /\
   (forall row, In row (agv_logs (final (save_to_db env (PDict d) w))) ->
                In row (agv_logs w) \/ row_battery row = PInt 0) /\
   result (process_and_control env (PDict d) w) =
     result (process_and_control env (PDict (("battery", PInt 0) :: d)) w) /\
   final (process_and_control env (PDict d) w) =
     final (process_and_control env (PDict (("battery", PInt 0) :: d)) w) /\
   publish_calls (events (process_and_control env (PDict d) w)) =
     publish_calls
       (events (process_and_control env (PDict (("battery", PInt 0) :: d)) w))) /\
  (forall v, dict_get "battery" d = Some v ->
   forall row, In (EvExecute row) (events (save_to_db env (PDict d) w)) ->
               row_battery row = v).
Proof.
  assert (Hexec : forall row,
             In (EvExecute row) (events (save_to_db env (PDict d) w)) ->
             row_battery row =
             match dict_get "battery" d with Some v => v | None => PInt 0 end).
  { intros row Hin.
    assert (Hin' : In row (execute_calls (events (save_to_db env (PDict d) w)))).
    { unfold execute_calls. apply in_flat_map. exists (EvExecute row). cbn. auto. }
    destruct (save_to_db_dict env d w) as ([Hx|Hx] & _); rewrite Hx in Hin'.
    - contradiction.
    - destruct Hin' as [<-|[]]. reflexivity. }
  split.
  - intros Hnone. split; [|split].
    + intros row Hin. rewrite (Hexec row Hin), Hnone. reflexivity.
    + intros row Hin.
      destruct (save_to_db_dict env d w) as (_ & [Hx|Hx] & _); rewrite Hx in Hin.
      * left. exact Hin.
      * apply in_app_or in Hin as [Hin|[<-|[]]]; [left; exact Hin|].
        right. cbn. rewrite Hnone. reflexivity.
    + pose proof (py_get_dict d "agv_id" (PStr "Unknown")) as Ha.
      pose proof (py_get_dict d "battery" (PInt 0)) as Hb.
      pose proof (py_get_dict d "status" (PStr "Unknown")) as Hs.
      rewrite Hnone in Hb.
      set (d0 := ("battery", PInt 0) :: d).
      assert (Ha0 : py_get (PDict d0) "agv_id" (PStr "Unknown") =
                    py_get (PDict d) "agv_id" (PStr "Unknown")) by reflexivity.
      assert (Hb0 : py_get (PDict d0) "battery" (PInt 0) = Ok (PInt 0)) by reflexivity.
      assert (Hs0 : py_get (PDict d0) "status" (PStr "Unknown") =
                    py_get (PDict d) "status" (PStr "Unknown")) by reflexivity.
      rewrite Ha in Ha0. rewrite Hs in Hs0.
      set (agv_id := match dict_get "agv_id" d with
                     | Some v => v | None => PStr "Unknown" end) in *.
      set (status := match dict_get "status" d with
                     | Some v => v | None => PStr "Unknown" end) in *.
      assert (Hl : py_lt_int (PInt 0) 20 = Ok true) by reflexivity.
      destruct (py_eq_str status "MOVING") eqn:Hm.
      * destruct agv_id as [| | | |agv| |] eqn:Hid;
          try (rewrite (pac_bad_id env w Ha Hb Hs Hl Hm) by discriminate;
               rewrite (pac_bad_id env w Ha0 Hb0 Hs0 Hl Hm) by discriminate;
               repeat split; reflexivity).
        destruct (encodable agv) eqn:Henc.
        2:{ rewrite (pac_unprintable env w Ha Hb Hs Hl Hm eq_refl Henc).
            rewrite (pac_unprintable env w Ha0 Hb0 Hs0 Hl Hm eq_refl Henc).
            repeat split; reflexivity. }
        destruct (last_segment_total agv) as [short Hseg].
        rewrite (pac_fires env w Ha Hb Hs Hl Hm eq_refl Henc Hseg).
        rewrite (pac_fires env w Ha0 Hb0 Hs0 Hl Hm eq_refl Henc Hseg).
        destruct (publish_raises env); repeat split; reflexivity.
      * rewrite (pac_silent env w Ha Hb Hs Hl (f_equal (andb true) Hm)).
        rewrite (pac_silent env w Ha0 Hb0 Hs0 Hl (f_equal (andb true) Hm)).
        repeat split; reflexivity.
  - intros v Hsome row Hin. rewrite (Hexec row Hin), Hsome. reflexivity.
Qed.

Lemma absent_battery_defaults_to_zero_witness :
  dict_get "battery" [("agv_id", PStr "factory/agv/007"); ("status", PStr "MOVING")]
    = None /\
  publish_calls
    (events (process_and_control quiet_env
               (PDict [("agv_id", PStr "factory/agv/007"); ("status", PStr "MOVING")])
               empty_world)) =
  publish_calls
    (events (process_and_control quiet_env
               (PDict [("battery", PInt 0); ("agv_id", PStr "factory/agv/007");
                       ("status", PStr "MOVING")])
               empty_world)).
Proof.
  split; [reflexivity|].
  destruct (absent_battery_defaults_to_zero quiet_env
              [("agv_id", PStr "factory/agv/007"); ("status", PStr "MOVING")]
              empty_world) as [Habsent _].
  destruct (Habsent eq_refl) as (_ & _ & _ & _ & Hp). exact Hp.
Defined.

(* ------------------------------------------------------------------ *)
(** * The ingestion loop *)

(** C8.  For a decoded message the stages come in one order: the record
    ([save_to_db]) first, then the evaluation ([process_and_control]),
    then at most one dispatch (publish); no stage happens twice and no
    dispatch precedes the record.  The evaluation follows the record
    whenever [save_to_db] returns, which it does when the close returns. *)
Theorem pipeline_stage_order (json_loads : string -> res pyval) (env : Env)
    (message_payload : list byte) (w : World) (payload : string) (data : pyval) :
  bytes_decode_utf8 message_payload = Ok payload ->
  json_loads payload = Ok data ->
  (stages (events (on_message json_loads env message_payload w)) = [StRecord] \/
   stages (events (on_message json_loads env message_payload w)) =
     [StRecord; StEvaluate] \/
   stages (events (on_message json_loads env message_payload w)) =
     [StRecord; StEvaluate; StDispatch]) /\
  (exists rest,
     events (on_message json_loads env message_payload w) = EvSaveToDb data :: rest) /\
  (close_raises env = None ->
   stages (events (on_message json_loads env message_payload w)) <> [StRecord]).
Proof.
  intros Hdec Hl.
  rewrite (on_message_events json_loads env w Hdec Hl).
  rewrite stages_app, save_to_db_stages.
  pose proof (save_to_db_result env data w) as Hres.
  destruct (save_to_db_enters env data w) as [rest Hrest].
  split; [|split].
  - destruct (result (save_to_db env data w)) as [[]|e]; [|left; reflexivity].
    right. rewrite stages_app.
    assert (Htail : forall r : res unit,
               stages match r with
                      | Ok _ => []
                      | Raise e => [EvPrint (handler_line payload e)]
                      end = []) by (intros [|]; reflexivity).
    rewrite Htail, app_nil_r.
    destruct (process_and_control_stages env data (final (save_to_db env data w)))
      as [-> | ->]; auto.
  - rewrite Hrest. eexists. reflexivity.
  - intros Hclose. rewrite Hclose in Hres. rewrite Hres, stages_app.
    destruct (process_and_control_stages env data (final (save_to_db env data w)))
      as [-> | ->]; discriminate.
Qed.

Lemma pipeline_stage_order_witness :
  bytes_decode_utf8 payload_007_moving =
    Ok (text_of_reading "factory/agv/007" "15" "MOVING") /\
  scenario_loads (text_of_reading "factory/agv/007" "15" "MOVING") =
    Ok (reading_007 (PInt 15) "MOVING") /\
  stages (events (on_message scenario_loads quiet_env payload_007_moving empty_world))
    <> [StRecord].
Proof.
  split; [reflexivity|]. split; [reflexivity|].
  apply (pipeline_stage_order scenario_loads quiet_env payload_007_moving empty_world
           (text_of_reading "factory/agv/007" "15" "MOVING")
           (reading_007 (PInt 15) "MOVING") eq_refl eq_refl).
  reflexivity.
Defined.

(** The two scenarios of section 8 on vehicle 007. *)
Example scenario_007_stages :
  stages (events (on_message scenario_loads quiet_env payload_007_moving empty_world))
    = [StRecord; StEvaluate; StDispatch] /\
  stages (events (on_message scenario_loads quiet_env payload_007_returning
                    empty_world))
    = [StRecord; StEvaluate].
Proof. split; reflexivity. Qed.

(** C3, as stated, fails for JSON that is not an object: the array [1]
    is handed to [save_to_db], which opens a connection, and then to
    [process_and_control]. *)
Lemma non_object_json_reaches_store :
  malformed scenario_loads payload_array /\
  events (on_message scenario_loads quiet_env payload_array empty_world) =
    [EvSaveToDb (PList [PInt 1]); EvConnect; EvCursor;
     EvPrint (DiagDbError AttributeError); EvClose;
     EvProcess (PList [PInt 1]); EvPrint (DiagMsgError AttributeError)] /\
  stages (events (on_message scenario_loads quiet_env payload_array empty_world)) =
    [StRecord; StEvaluate].
Proof.
  split; [|split; reflexivity].
  right. exact (json_non_object scenario_loads payload_array "[1]" (PList [PInt 1])
                  eq_refl eq_refl eq_refl).
Qed.

(** An undecodable payload leaves one diagnostic and nothing else. *)
Lemma undecodable_outcome (json_loads : string -> res pyval) (env : Env)
    (message_payload : list byte) (w : World) :
  undecodable json_loads message_payload ->
  exists line,
    on_message json_loads env message_payload w = mkOutcome (Ok tt) w [EvPrint line].
Proof.
  intros [Hbad | payload e Hdec Hl].
  - eexists. exact (on_message_bad_utf8 json_loads env w Hbad).
  - eexists. exact (on_message_loads_raises json_loads env w Hdec Hl).
Qed.

Lemma decoded_not_undecodable (json_loads : string -> res pyval)
    (message_payload : list byte) (payload : string) (v : pyval) :
  bytes_decode_utf8 message_payload = Ok payload ->
  json_loads payload = Ok v ->
  ~ undecodable json_loads message_payload.
Proof.
  intros Hdec Hl [Hbad | payload' e Hdec' Hl'].
  - unfold bytes_decode_utf8 in Hdec. rewrite Hbad in Hdec. discriminate.
  - congruence.
Qed.

Lemma diagnostics_last (a b : list event) (line : diag) :
  diagnostics (a ++ b ++ [EvPrint line]) <> [].
Proof.
  unfold diagnostics. rewrite !flat_map_app. cbn. intros H.
  apply app_eq_nil in H as [_ H]. apply app_eq_nil in H as [_ H]. discriminate H.
Qed.

(** JSON that is not an object: both handlers are entered, both fail on
    the first field lookup, before any insert and any publish. *)
Lemma non_object_outcome (json_loads : string -> res pyval) (env : Env)
    (message_payload : list byte) (w : World) (payload : string) (v : pyval) :
  bytes_decode_utf8 message_payload = Ok payload ->
  json_loads payload = Ok v ->
  is_dict v = false ->
  execute_calls (events (on_message json_loads env message_payload w)) = [] /\
  agv_logs (final (on_message json_loads env message_payload w)) = agv_logs w /\
  publish_calls (events (on_message json_loads env message_payload w)) = [] /\
  outbox (final (on_message json_loads env message_payload w)) = outbox w /\
  diagnostics (events (on_message json_loads env message_payload w)) <> [].
Proof.
  intros Hdec Hl Hnd.
  assert (Hp : process_and_control env v (final (save_to_db env v w)) =
               mkOutcome (Raise AttributeError) (final (save_to_db env v w))
                         [EvProcess v])
    by exact (pac_not_dict env _ Hnd).
  destruct (save_to_db_not_dict env v w Hnd) as [Hx Hlogs].
  destruct (save_to_db_no_publish env v w) as [Hpub Hout].
  rewrite (on_message_events json_loads env w Hdec Hl).
  rewrite (on_message_final json_loads env w Hdec Hl).
  rewrite Hp. cbn [events final result].
  rewrite execute_calls_app, publish_calls_app, Hx, Hpub. cbn [app].
  destruct (result (save_to_db env v w)) as [[]|e]; cbn [events final result];
    repeat split; auto.
  - exact (diagnostics_last _ [EvProcess v] _).
  - exact (diagnostics_last _ [] _).
Qed.

(** C3, amended.  A malformed payload never changes the table or the
    outbox: no insert, no publish, at least one diagnostic, no exception
    out of the callback, and the loop goes on with the next message.
    When the bytes are not UTF-8 or the text is not JSON, neither
    [save_to_db] nor [process_and_control] is called and the one effect
    is the diagnostic. *)
Theorem malformed_payload_dropped (json_loads : string -> res pyval) (env : Env)
    (message_payload : list byte) (w : World) :
  malformed json_loads message_payload ->
  result (on_message json_loads env message_payload w) = Ok tt /\
  execute_calls (events (on_message json_loads env message_payload w)) = [] /\
  agv_logs (final (on_message json_loads env message_payload w)) = agv_logs w /\
  publish_calls (events (on_message json_loads env message_payload w)) = [] /\
  outbox (final (on_message json_loads env message_payload w)) = outbox w /\
  diagnostics (events (on_message json_loads env message_payload w)) <> [] /\
  (undecodable json_loads message_payload ->
   stages (events (on_message json_loads env message_payload w)) = [] /\
   final (on_message json_loads env message_payload w) = w /\
   exists line, events (on_message json_loads env message_payload w) = [EvPrint line]) /\
  (forall rest,
     loop_forever json_loads ((env, message_payload) :: rest) w =
     after (events (on_message json_loads env message_payload w))
           (loop_forever json_loads rest
              (final (on_message json_loads env message_payload w)))).
Proof.
  intros Hmal.
  assert (Hu : undecodable json_loads message_payload ->
               stages (events (on_message json_loads env message_payload w)) = [] /\
               final (on_message json_loads env message_payload w) = w /\
               exists line,
                 events (on_message json_loads env message_payload w) = [EvPrint line]).
  { intros H. destruct (undecodable_outcome json_loads env message_payload w H) as [line ->].
    cbn. eauto. }
  assert (Heff :
    execute_calls (events (on_message json_loads env message_payload w)) = [] /\
    agv_logs (final (on_message json_loads env message_payload w)) = agv_logs w /\
    publish_calls (events (on_message json_loads env message_payload w)) = [] /\
    outbox (final (on_message json_loads env message_payload w)) = outbox w /\
    diagnostics (events (on_message json_loads env message_payload w)) <> []).
  { destruct Hmal as [H | [payload v Hdec Hl Hnd]].
    - destruct (undecodable_outcome json_loads env message_payload w H) as [line ->].
      cbn. repeat split; auto. discriminate.
    - exact (non_object_outcome json_loads env message_payload w payload v Hdec Hl Hnd). }
  destruct Heff as (H1 & H2 & H3 & H4 & H5).
  refine (conj _ (conj H1 (conj H2 (conj H3 (conj H4 (conj H5 (conj Hu _))))))).
  - apply on_message_never_raises.
  - intros rest. apply loop_forever_next.
Qed.

Lemma malformed_payload_dropped_witness :
  malformed scenario_loads payload_not_json /\
  events (on_message scenario_loads quiet_env payload_not_json empty_world) =
    [EvPrint (DiagNotJson "not-json")] /\
  final (on_message scenario_loads quiet_env payload_not_json empty_world) =
    empty_world.
Proof.
  assert (Hu : undecodable scenario_loads payload_not_json).
  { exact (invalid_json scenario_loads payload_not_json "not-json" JSONDecodeError
             eq_refl eq_refl). }
  split; [left; exact Hu|].
  destruct (malformed_payload_dropped scenario_loads quiet_env payload_not_json
              empty_world (or_introl Hu)) as (_ & _ & _ & _ & _ & _ & Hd & _).
  destruct (Hd Hu) as (_ & Hfinal & _).
  split; [reflexivity | exact Hfinal].
Defined.

(** The third scenario of section 8, and bytes that are not UTF-8. *)
Example scenario_not_json :
  on_message scenario_loads quiet_env payload_not_json empty_world =
    mkOutcome (Ok tt) empty_world [EvPrint (DiagNotJson "not-json")] /\
  on_message scenario_loads quiet_env payload_not_utf8 empty_world =
    mkOutcome (Ok tt) empty_world [EvPrint (DiagMsgError UnicodeDecodeError)].
Proof. split; reflexivity. Qed.

Lemma process_and_control_publish_once (env : Env) (data : pyval) (w : World) :
  (List.length (publish_calls (events (process_and_control env data w))) <= 1)%nat.
Proof.
  pac_paths env data w; cbn; try lia.
  destruct (publish_raises env); cbn; lia.
Qed.

Lemma handler_tail_quiet (payload : string) (r : res unit) :
  let tail := match r with
              | Ok _ => []
              | Raise e => [EvPrint (handler_line payload e)]
              end in
  connect_calls tail = 0%nat /\ execute_calls tail = [] /\ publish_calls tail = [].
Proof. destruct r; repeat split; reflexivity. Qed.

(** C5, as stated, fails for the telemetry store: when the insert raises,
    the exception is logged inside [save_to_db] and the message goes on
    through the rule evaluation and the dispatch. *)
Lemma store_exception_does_not_end_processing :
  first_store_exception failing_insert_env (reading_007 (PInt 15) "MOVING") =
    Some (MySQLError "insert refused") /\
  events (on_message scenario_loads failing_insert_env payload_007_moving
            empty_world) =
    [EvSaveToDb (reading_007 (PInt 15) "MOVING"); EvConnect; EvCursor;
     EvExecute (mkRow (PStr "factory/agv/007") (PInt 15) (PStr "MOVING")
                      "2024-05-01 12:00:00");
     EvPrint (DiagDbError (MySQLError "insert refused")); EvClose;
     EvProcess (reading_007 (PInt 15) "MOVING");
     EvPrint (DiagDecision (PStr "factory/agv/007") (PInt 15));
     EvPublish "factory/control/007"
       (command_payload failing_insert_env (PStr "factory/agv/007"));
     EvPrint (DiagSent "factory/control/007")].
Proof. split; reflexivity. Qed.

(** C5, amended.  For a decoded message no exception of the store or of
    the publish leaves the callback, the loop goes on, and nothing is
    tried twice.  An exception raised inside the try block of
    [save_to_db] (connect, cursor, field lookup, insert, commit) is
    logged there and costs the row; the rule evaluation
    (and the dispatch, if the rule fires) still runs when [save_to_db]
    returns.  An exception that leaves [save_to_db], and an exception of
    the publish, are logged by [on_message] and end the message there. *)
Theorem store_and_publish_exceptions_contained (json_loads : string -> res pyval)
    (env : Env) (message_payload : list byte) (w : World)
    (payload : string) (data : pyval) :
  bytes_decode_utf8 message_payload = Ok payload ->
  json_loads payload = Ok data ->
  result (on_message json_loads env message_payload w) = Ok tt /\
  (forall rest,
     loop_forever json_loads ((env, message_payload) :: rest) w =
     after (events (on_message json_loads env message_payload w))
           (loop_forever json_loads rest
              (final (on_message json_loads env message_payload w)))) /\
  ((connect_calls (events (on_message json_loads env message_payload w)) <= 1)%nat /\
   (List.length
      (execute_calls (events (on_message json_loads env message_payload w))) <= 1)%nat /\
   (List.length
      (publish_calls (events (on_message json_loads env message_payload w))) <= 1)%nat) /\
  (forall e,
     first_store_exception env data = Some e ->
     In (EvPrint (DiagDbError e))
        (events (on_message json_loads env message_payload w)) /\
     agv_logs (final (on_message json_loads env message_payload w)) = agv_logs w /\
     (result (save_to_db env data w) = Ok tt ->
      In (EvProcess data) (events (on_message json_loads env message_payload w)))) /\
  (forall e,
     result (save_to_db env data w) = Raise e ->
     events (on_message json_loads env message_payload w) =
     events (save_to_db env data w) ++ [EvPrint (handler_line payload e)]) /\
  (forall e topic body,
     publish_raises env = Some e ->
     In (EvPublish topic body)
        (events (on_message json_loads env message_payload w)) ->
     outbox (final (on_message json_loads env message_payload w)) = outbox w /\
     exists pre,
       events (on_message json_loads env message_payload w) =
       pre ++ [EvPublish topic body; EvPrint (handler_line payload e)]).
Proof.
  intros Hdec Hl.
  pose proof (on_message_events json_loads env w Hdec Hl) as Hev.
  pose proof (on_message_final json_loads env w Hdec Hl) as Hfin.
  set (o := on_message json_loads env message_payload w) in *.
  set (s := save_to_db env data w) in *.
  set (p := process_and_control env data (final s)) in *.
  destruct (process_and_control_db_untouched env data (final s))
    as (Hplogs & _ & Hpexec & Hpconn). fold p in Hplogs, Hpexec, Hpconn.
  destruct (save_to_db_no_publish env data w) as [Hspub Hsout]. fold s in Hspub, Hsout.
  destruct (save_to_db_once env data w) as [Hsconn Hsexec]. fold s in Hsconn, Hsexec.
  pose proof (process_and_control_publish_once env data (final s)) as Hppub.
  fold p in Hppub.
  split; [exact (on_message_never_raises json_loads env message_payload w)|].
  split; [intros rest; apply loop_forever_next|].
  split; [|split; [|split]].
  - rewrite Hev, connect_calls_app, execute_calls_app, publish_calls_app, Hspub.
    destruct (result s) as [[]|e].
    + rewrite connect_calls_app, execute_calls_app, publish_calls_app.
      destruct (handler_tail_quiet payload (result p)) as (-> & -> & ->).
      rewrite Hpconn, Hpexec, !app_nil_r, !Nat.add_0_r. cbn [app].
      repeat split; assumption.
    + cbn [connect_calls filter List.length execute_calls publish_calls flat_map app].
      rewrite app_nil_r, Nat.add_0_r. repeat split; [assumption | assumption | apply Nat.le_0_l].
  - intros e He. split; [|split].
    + rewrite Hev. apply in_or_app. left.
      exact (save_to_db_logs env data w e He).
    + pose proof (save_to_db_uncommitted env data w e He) as Hlogs. fold s in Hlogs.
      rewrite Hfin. destruct (result s); congruence.
    + intros Hok. rewrite Hev, Hok. apply in_or_app. right. apply in_or_app. left.
      destruct (process_and_control_enters env data (final s)) as [rest Hrest].
      fold p in Hrest. rewrite Hrest. left. reflexivity.
  - intros e He. rewrite Hev, He. reflexivity.
  - intros e topic body Hpr Hin.
    destruct (on_message_publish_inv json_loads env message_payload w topic body Hin)
      as (payload' & data' & Hdec' & Hl' & Hok & Hinp).
    assert (payload' = payload) by congruence. subst payload'.
    assert (data' = data) by congruence. subst data'.
    fold s in Hok, Hinp. fold p in Hinp.
    pose proof (process_and_control_publish_raises env data (final s) e Hpr)
      as Hraise.
    cbv zeta in Hraise. fold p in Hraise.
    destruct Hraise as [Hnone | (pre & topic' & body' & Hpe & Hpre & Hres & Hpf)].
    { rewrite Hnone in Hinp. contradiction. }
    rewrite Hpe, publish_calls_app, Hpre in Hinp.
    destruct Hinp as [Heq|[]]. injection Heq as <- <-.
    split.
    + rewrite Hfin, Hok, Hpf. exact Hsout.
    + exists (events s ++ pre).
      rewrite Hev, Hok, Hres, Hpe, <- !app_assoc. reflexivity.
Qed.

Lemma store_and_publish_exceptions_contained_witness :
  bytes_decode_utf8 payload_007_moving =
    Ok (text_of_reading "factory/agv/007" "15" "MOVING") /\
  scenario_loads (text_of_reading "factory/agv/007" "15" "MOVING") =
    Ok (reading_007 (PInt 15) "MOVING") /\
  publish_raises failing_publish_env = Some (OtherError "publish refused") /\
  In (EvPublish "factory/control/007"
        (command_payload failing_publish_env (PStr "factory/agv/007")))
     (events (on_message scenario_loads failing_publish_env payload_007_moving
                empty_world)) /\
  outbox (final (on_message scenario_loads failing_publish_env payload_007_moving
                   empty_world)) = outbox empty_world.
Proof.
  split; [reflexivity|]. split; [reflexivity|]. split; [reflexivity|].
  assert (Hin : In (EvPublish "factory/control/007"
                      (command_payload failing_publish_env (PStr "factory/agv/007")))
                   (events (on_message scenario_loads failing_publish_env
                              payload_007_moving empty_world))).
  { vm_compute. repeat (first [left; reflexivity | right]). }
  split; [exact Hin|].
  destruct (store_and_publish_exceptions_contained scenario_loads failing_publish_env
              payload_007_moving empty_world
              (text_of_reading "factory/agv/007" "15" "MOVING")
              (reading_007 (PInt 15) "MOVING") eq_refl eq_refl)
    as (_ & _ & _ & _ & _ & Hpub).
  exact (proj1 (Hpub _ _ _ eq_refl Hin)).
Defined.

(** A refused publish, after the row was stored. *)
Example scenario_publish_refused :
  events (on_message scenario_loads failing_publish_env payload_007_moving
            empty_world) =
    [EvSaveToDb (reading_007 (PInt 15) "MOVING"); EvConnect; EvCursor;
     EvExecute (mkRow (PStr "factory/agv/007") (PInt 15) (PStr "MOVING")
                      "2024-05-01 12:00:00");
     EvCommit;
     EvPrint (DiagSaved (PStr "factory/agv/007") (PStr "MOVING") (PInt 15));
     EvClose;
     EvProcess (reading_007 (PInt 15) "MOVING");
     EvPrint (DiagDecision (PStr "factory/agv/007") (PInt 15));
     EvPublish "factory/control/007"
       (command_payload failing_publish_env (PStr "factory/agv/007"));
     EvPrint (DiagMsgError (OtherError "publish refused"))].
Proof. reflexivity. Qed.

(** The loop handles every delivery, whatever the payloads and the faults. *)
Example loop_survives_bad_messages :
  loop_forever scenario_loads
    [(quiet_env, payload_not_utf8); (quiet_env, payload_not_json);
     (failing_insert_env, payload_array); (quiet_env, payload_007_moving)]
    empty_world =
  after
    [EvPrint (DiagMsgError UnicodeDecodeError); EvPrint (DiagNotJson "not-json");
     EvSaveToDb (PList [PInt 1]); EvConnect; EvCursor;
     EvPrint (DiagDbError AttributeError); EvClose;
     EvProcess (PList [PInt 1]); EvPrint (DiagMsgError AttributeError)]
    (on_message scenario_loads quiet_env payload_007_moving empty_world).
Proof. reflexivity. Qed.

(* ------------------------------------------------------------------ *)
(** * Further properties of the rule engine *)


(** The same reading with an id that cannot be written: the decision
    line raises, and the callback logs the error after the row was
    stored. *)
Example unprintable_id_is_stored_not_commanded :
  process_and_control quiet_env reading_unprintable_id empty_world =
    mkOutcome (Raise UnicodeEncodeError) empty_world
      [EvProcess reading_unprintable_id] /\
  events (save_to_db quiet_env reading_unprintable_id empty_world) =
    [EvSaveToDb reading_unprintable_id; EvConnect; EvCursor;
     EvExecute (mkRow (PStr unprintable_id) (PInt 5) (PStr "MOVING")
                      "2024-05-01 12:00:00");
     EvCommit; EvPrint (DiagDbError UnicodeEncodeError); EvClose] /\
  agv_logs (final (save_to_db quiet_env reading_unprintable_id empty_world)) =
    [mkRow (PStr unprintable_id) (PInt 5) (PStr "MOVING") "2024-05-01 12:00:00"].
Proof. repeat split; reflexivity. Qed.

(** X2.  When the rule fires on a vehicle id that is not a str (a
    number, null, a list), the decision is logged, [split] raises
    AttributeError, nothing is published, and [on_message] logs the
    error after whatever [save_to_db] did. *)
Theorem non_string_vehicle_id_gets_no_command (json_loads : string -> res pyval)
    (env : Env) (message_payload : list byte) (w : World)
    (payload : string) (data agv_id battery status : pyval) :
  bytes_decode_utf8 message_payload = Ok payload ->
  json_loads payload = Ok data ->
  py_get data "agv_id" (PStr "Unknown") = Ok agv_id ->
  py_get data "battery" (PInt 0) = Ok battery ->
  py_get data "status" (PStr "Unknown") = Ok status ->
  py_lt_int battery 20 = Ok true ->
  py_eq_str status "MOVING" = true ->
  (forall s, agv_id <> PStr s) ->
  publish_calls (events (on_message json_loads env message_payload w)) = [] /\
  outbox (final (on_message json_loads env message_payload w)) = outbox w /\
  (result (save_to_db env data w) = Ok tt ->
   events (on_message json_loads env message_payload w) =
   events (save_to_db env data w) ++
   [EvProcess data; EvPrint (DiagDecision agv_id battery);
    EvPrint (DiagMsgError AttributeError)]).
Proof.
  intros Hdec Hl Ha Hb Hs Hlow Hm Hid.
  pose proof (pac_bad_id env (final (save_to_db env data w)) Ha Hb Hs Hlow Hm Hid)
    as Hp.
  destruct (save_to_db_no_publish env data w) as [Hpub Hout].
  rewrite (on_message_events json_loads env w Hdec Hl).
  rewrite (on_message_final json_loads env w Hdec Hl).
  rewrite Hp. cbn [result final events].
  rewrite publish_calls_app, Hpub. cbn [app].
  split; [|split].
  - destruct (result (save_to_db env data w)); reflexivity.
  - destruct (result (save_to_db env data w)); exact Hout.
  - intros ->. reflexivity.
Qed.

Lemma non_string_vehicle_id_gets_no_command_witness :
  bytes_decode_utf8 payload_numeric_id = Ok text_numeric_id /\
  scenario_loads_ext text_numeric_id = Ok reading_numeric_id /\
  (forall s, PInt 7 <> PStr s) /\
  events (on_message scenario_loads_ext quiet_env payload_numeric_id empty_world) =
  events (save_to_db quiet_env reading_numeric_id empty_world) ++
  [EvProcess reading_numeric_id; EvPrint (DiagDecision (PInt 7) (PInt 5));
   EvPrint (DiagMsgError AttributeError)].
Proof.
  split; [reflexivity|]. split; [reflexivity|].
  assert (Hid : forall s, PInt 7 <> PStr s) by discriminate.
  split; [exact Hid|].
  refine (proj2 (proj2 (non_string_vehicle_id_gets_no_command
                   scenario_loads_ext quiet_env payload_numeric_id empty_world
                   text_numeric_id reading_numeric_id (PInt 7) (PInt 5)
                   (PStr "MOVING")
                   eq_refl eq_refl eq_refl eq_refl eq_refl eq_refl eq_refl Hid)) _).
  reflexivity.
Defined.

(** X3.  A battery that is not a number (null, a string, a list, an
    object) makes the comparison raise TypeError: whatever the status
    and the vehicle id, the evaluation ends there, before any log line
    and any publish. *)
Theorem non_numeric_battery_is_type_error (env : Env) (data : pyval) (w : World)
    (battery : pyval) :
  py_get data "battery" (PInt 0) = Ok battery ->
  is_number battery = false ->
  process_and_control env data w = mkOutcome (Raise TypeError) w [EvProcess data].
Proof.
  intros Hb Hnum.
  destruct data as [| | | | | |d]; try discriminate Hb.
  apply (pac_type_error env w (py_get_dict d "agv_id" (PStr "Unknown")) Hb
           (py_get_dict d "status" (PStr "Unknown"))).
  destruct battery; try discriminate Hnum; reflexivity.
Qed.

Lemma non_numeric_battery_is_type_error_witness :
  py_get (reading_007 PNone "MOVING") "battery" (PInt 0) = Ok PNone /\
  is_number PNone = false /\
  process_and_control quiet_env (reading_007 PNone "MOVING") empty_world =
  mkOutcome (Raise TypeError) empty_world [EvProcess (reading_007 PNone "MOVING")].
Proof.
  split; [reflexivity|]. split; [reflexivity|].
  exact (non_numeric_battery_is_type_error quiet_env (reading_007 PNone "MOVING")
           empty_world PNone eq_refl eq_refl).
Defined.

(** X4.  A JSON boolean as battery compares as 0 or 1, so it is always
    below 20: a MOVING vehicle whose id is a str that can be written to
    the console is recalled. *)
Theorem boolean_battery_counts_as_low (env : Env) (data : pyval) (w : World)
    (agv : string) (b : bool) :
  py_get data "agv_id" (PStr "Unknown") = Ok (PStr agv) ->
  py_get data "battery" (PInt 0) = Ok (PBool b) ->
  py_get data "status" (PStr "Unknown") = Ok (PStr "MOVING") ->
  encodable agv = true ->
  exists topic,
    publish_calls (events (process_and_control env data w)) =
    [(topic, command_payload env (PStr agv))].
Proof.
  intros Ha Hb Hs Henc.
  assert (Hl : py_lt_int (PBool b) 20 = Ok true) by (destruct b; reflexivity).
  destruct (last_segment_total agv) as [short Hseg].
  rewrite (pac_fires env w Ha Hb Hs Hl eq_refl eq_refl Henc Hseg).
  destruct (publish_raises env); eexists; reflexivity.
Qed.

Lemma boolean_battery_counts_as_low_witness :
  py_get (reading_007 (PBool true) "MOVING") "battery" (PInt 0) = Ok (PBool true) /\
  encodable "factory/agv/007" = true /\
  exists topic,
    publish_calls
      (events (process_and_control quiet_env (reading_007 (PBool true) "MOVING")
                 empty_world)) =
    [(topic, command_payload quiet_env (PStr "factory/agv/007"))].
Proof.
  split; [reflexivity|]. split; [reflexivity|].
  exact (boolean_battery_counts_as_low quiet_env (reading_007 (PBool true) "MOVING")
           empty_world "factory/agv/007" true eq_refl eq_refl eq_refl eq_refl).
Defined.

(* ------------------------------------------------------------------ *)
(** * Further properties of the short id *)

Lemma py_last_after_sep (sep : ascii) (pre s : string) :
  py_last (str_split sep (pre ++ String sep s)%string) = py_last (str_split sep s).
Proof.
  induction pre as [|c pre IH]; cbn [String.append str_split].
  - rewrite Ascii.eqb_refl. apply py_last_cons, str_split_nonempty.
  - destruct (Ascii.eqb c sep).
    + rewrite py_last_cons by apply str_split_nonempty. exact IH.
    + destruct (str_split sep (pre ++ String sep s)%string) as [|seg rest] eqn:Hsp.
      * exfalso. exact (str_split_nonempty _ _ Hsp).
      * destruct rest as [|seg' rest].
        -- destruct (str_split_single _ _ _ Hsp) as [_ Hno]. exfalso.
           clear -Hno. induction pre as [|c' pre IH]; cbn in Hno.
           ++ rewrite Ascii.eqb_refl in Hno. discriminate.
           ++ apply orb_false_iff in Hno as [_ Hno]. auto.
        -- rewrite <- IH. reflexivity.
Qed.

(** X5.  The short id of [pre/s] is [s] whenever [s] holds no slash,
    whatever the prefix: only what follows the last slash counts.  With
    [s] empty: a vehicle id that ends in a slash has the empty short id. *)
Theorem last_segment_after_last_separator (pre s : string) :
  has_sep "/" s = false ->
  last_segment (pre ++ "/" ++ s)%string = Ok s.
Proof.
  intros Hno. unfold last_segment. cbn [String.append].
  rewrite py_last_after_sep, (str_split_no_sep _ _ Hno). reflexivity.
Qed.

Lemma last_segment_after_last_separator_witness :
  has_sep "/" "" = false /\ last_segment ("factory/agv" ++ "/" ++ "")%string = Ok "".
Proof.
  split; [reflexivity|].
  exact (last_segment_after_last_separator "factory/agv" "" eq_refl).
Defined.

(** X6.  Every published topic is the prefix, a slash, and a short id
    that holds no slash and with which the vehicle id ends: the id is
    either the short id itself or some prefix, a slash, and the short id. *)
Theorem short_id_is_a_separator_free_suffix (env : Env) (data : pyval) (w : World)
    (topic : string) (body : pyval) :
  In (EvPublish topic body) (events (process_and_control env data w)) ->
  exists agv short,
    py_get data "agv_id" (PStr "Unknown") = Ok (PStr agv) /\
    topic = (CONTROL_TOPIC_BASE ++ "/" ++ short)%string /\
    has_sep "/" short = false /\
    (agv = short \/ exists pre, agv = (pre ++ "/" ++ short)%string).
Proof.
  intros Hin. apply in_publish_calls in Hin.
  destruct (pac_publish_inv env data w topic body Hin)
    as (agv & _ & _ & short & Ha & _ & _ & _ & _ & Hseg & Ht & _).
  exists agv, short. split; [exact Ha|]. split; [exact Ht|].
  unfold last_segment in Hseg.
  destruct (py_last_str_split "/" agv) as (seg & Hl & Hn & Hs).
  rewrite Hl in Hseg. injection Hseg as <-. auto.
Qed.

Lemma short_id_is_a_separator_free_suffix_witness :
  In (EvPublish "factory/control/007"
        (command_payload quiet_env (PStr "factory/agv/007")))
     (events (process_and_control quiet_env (reading_007 (PInt 15) "MOVING")
                empty_world)) /\
  exists agv short,
    py_get (reading_007 (PInt 15) "MOVING") "agv_id" (PStr "Unknown") =
      Ok (PStr agv) /\
    "factory/control/007" = (CONTROL_TOPIC_BASE ++ "/" ++ short)%string /\
    has_sep "/" short = false /\
    (agv = short \/ exists pre, agv = (pre ++ "/" ++ short)%string).
Proof.
  assert (H : In (EvPublish "factory/control/007"
                    (command_payload quiet_env (PStr "factory/agv/007")))
                 (events (process_and_control quiet_env
                            (reading_007 (PInt 15) "MOVING") empty_world))).
  { vm_compute. auto. }
  split; [exact H|].
  exact (short_id_is_a_separator_free_suffix quiet_env
           (reading_007 (PInt 15) "MOVING") empty_world _ _ H).
Defined.

(** X7.  Two vehicles whose ids end in the same segment, and can be
    written to the console, are commanded on the same topic; the
    payloads still carry the two full ids. *)
Theorem same_last_segment_same_topic (env : Env) (data1 data2 : pyval) (w1 w2 : World)
    (pre1 pre2 s : string) (battery1 battery2 status1 status2 : pyval) :
  has_sep "/" s = false ->
  py_get data1 "agv_id" (PStr "Unknown") = Ok (PStr (pre1 ++ "/" ++ s)%string) ->
  py_get data2 "agv_id" (PStr "Unknown") = Ok (PStr (pre2 ++ "/" ++ s)%string) ->
  py_get data1 "battery" (PInt 0) = Ok battery1 ->
  py_get data2 "battery" (PInt 0) = Ok battery2 ->
  py_get data1 "status" (PStr "Unknown") = Ok status1 ->
  py_get data2 "status" (PStr "Unknown") = Ok status2 ->
  py_lt_int battery1 20 = Ok true -> py_lt_int battery2 20 = Ok true ->
  py_eq_str status1 "MOVING" = true -> py_eq_str status2 "MOVING" = true ->
  encodable (pre1 ++ "/" ++ s)%string = true ->
  encodable (pre2 ++ "/" ++ s)%string = true ->
  publish_calls (events (process_and_control env data1 w1)) =
    [((CONTROL_TOPIC_BASE ++ "/" ++ s)%string,
      command_payload env (PStr (pre1 ++ "/" ++ s)%string))] /\
  publish_calls (events (process_and_control env data2 w2)) =
    [((CONTROL_TOPIC_BASE ++ "/" ++ s)%string,
      command_payload env (PStr (pre2 ++ "/" ++ s)%string))].
Proof.
  intros Hno Ha1 Ha2 Hb1 Hb2 Hs1 Hs2 Hl1 Hl2 Hm1 Hm2 He1 He2.
  rewrite (pac_fires env w1 Ha1 Hb1 Hs1 Hl1 Hm1 eq_refl He1
             (last_segment_after_last_separator pre1 s Hno)).
  rewrite (pac_fires env w2 Ha2 Hb2 Hs2 Hl2 Hm2 eq_refl He2
             (last_segment_after_last_separator pre2 s Hno)).
  destruct (publish_raises env); split; reflexivity.
Qed.

Lemma same_last_segment_same_topic_witness :
  has_sep "/" "007" = false /\
  encodable ("factory/agv" ++ "/" ++ "007")%string = true /\
  encodable ("depot" ++ "/" ++ "007")%string = true /\
  publish_calls
    (events (process_and_control quiet_env (reading_007 (PInt 15) "MOVING")
               empty_world)) =
    [("factory/control/007", command_payload quiet_env (PStr "factory/agv/007"))] /\
  publish_calls
    (events (process_and_control quiet_env
               (PDict [("agv_id", PStr "depot/007"); ("battery", PInt 3);
                       ("status", PStr "MOVING")]) empty_world)) =
    [("factory/control/007", command_payload quiet_env (PStr "depot/007"))].
Proof.
  split; [reflexivity|]. split; [reflexivity|]. split; [reflexivity|].
  exact (same_last_segment_same_topic quiet_env
           (reading_007 (PInt 15) "MOVING")
           (PDict [("agv_id", PStr "depot/007"); ("battery", PInt 3);
                   ("status", PStr "MOVING")])
           empty_world empty_world "factory/agv" "depot" "007"
           (PInt 15) (PInt 3) (PStr "MOVING") (PStr "MOVING")
           eq_refl eq_refl eq_refl eq_refl eq_refl eq_refl eq_refl
           eq_refl eq_refl eq_refl eq_refl eq_refl eq_refl).
Defined.

(* ------------------------------------------------------------------ *)
(** * Further properties of the handlers *)


(** X8.  The object fields other than agv_id, battery and status are
    never read: two objects that agree on these three keys get the same
    insert, the same table, the same command and the same outcome. *)
Theorem unread_fields_have_no_effect (env : Env) (d d' : list (string * pyval))
    (w : World) :
  dict_get "agv_id" d = dict_get "agv_id" d' ->
  dict_get "battery" d = dict_get "battery" d' ->
  dict_get "status" d = dict_get "status" d' ->
  execute_calls (events (save_to_db env (PDict d) w)) =
    execute_calls (events (save_to_db env (PDict d') w)) /\
  final (save_to_db env (PDict d) w) = final (save_to_db env (PDict d') w) /\
  result (save_to_db env (PDict d) w) = result (save_to_db env (PDict d') w) /\
  publish_calls (events (process_and_control env (PDict d) w)) =
    publish_calls (events (process_and_control env (PDict d') w)) /\
  final (process_and_control env (PDict d) w) =
    final (process_and_control env (PDict d') w) /\
  result (process_and_control env (PDict d) w) =
    result (process_and_control env (PDict d') w).
Proof.
  intros Ha Hb Hs.
  assert (Hsave :
    execute_calls (events (save_to_db env (PDict d) w)) =
      execute_calls (events (save_to_db env (PDict d') w)) /\
    final (save_to_db env (PDict d) w) = final (save_to_db env (PDict d') w) /\
    result (save_to_db env (PDict d) w) = result (save_to_db env (PDict d') w)).
  { cases_env env; unfold_save; rewrite ?Ha, ?Hb, ?Hs;
      try match goal with
          | |- context [formattable ?values] => destruct (formattable values); cbn
          end;
      repeat split; reflexivity. }
  destruct Hsave as (H1 & H2 & H3).
  refine (conj H1 (conj H2 (conj H3 _))).
  pose proof (py_get_dict d "agv_id" (PStr "Unknown")) as Ga.
  pose proof (py_get_dict d "battery" (PInt 0)) as Gb.
  pose proof (py_get_dict d "status" (PStr "Unknown")) as Gs.
  pose proof (py_get_dict d' "agv_id" (PStr "Unknown")) as Ga'.
  pose proof (py_get_dict d' "battery" (PInt 0)) as Gb'.
  pose proof (py_get_dict d' "status" (PStr "Unknown")) as Gs'.
  rewrite <- Ha in Ga'. rewrite <- Hb in Gb'. rewrite <- Hs in Gs'.
  set (agv_id := match dict_get "agv_id" d with
                 | Some v => v | None => PStr "Unknown" end) in *.
  set (battery := match dict_get "battery" d with
                  | Some v => v | None => PInt 0 end) in *.
  set (status := match dict_get "status" d with
                 | Some v => v | None => PStr "Unknown" end) in *.
  destruct (py_lt_int battery 20) as [low|e] eqn:Hl.
  2:{ rewrite (pac_type_error env w Ga Gb Gs Hl), (pac_type_error env w Ga' Gb' Gs' Hl).
      repeat split; reflexivity. }
  destruct (low && py_eq_str status "MOVING") eqn:Hc.
  2:{ rewrite (pac_silent env w Ga Gb Gs Hl Hc), (pac_silent env w Ga' Gb' Gs' Hl Hc).
      repeat split; reflexivity. }
  apply andb_true_iff in Hc as [-> Hm].
  destruct agv_id as [| | | |agv| |] eqn:Hid;
    try (rewrite (pac_bad_id env w Ga Gb Gs Hl Hm) by discriminate;
         rewrite (pac_bad_id env w Ga' Gb' Gs' Hl Hm) by discriminate;
         repeat split; reflexivity).
  destruct (encodable agv) eqn:Henc.
  2:{ rewrite (pac_unprintable env w Ga Gb Gs Hl Hm eq_refl Henc).
      rewrite (pac_unprintable env w Ga' Gb' Gs' Hl Hm eq_refl Henc).
      repeat split; reflexivity. }
  destruct (last_segment_total agv) as [short Hseg].
  rewrite (pac_fires env w Ga Gb Gs Hl Hm eq_refl Henc Hseg).
  rewrite (pac_fires env w Ga' Gb' Gs' Hl Hm eq_refl Henc Hseg).
  destruct (publish_raises env); repeat split; reflexivity.
Qed.

Lemma unread_fields_have_no_effect_witness :
  dict_get "agv_id" [("agv_id", PStr "a/1"); ("battery", PInt 5)] =
    dict_get "agv_id" [("recorded_at", PStr "1999-01-01"); ("agv_id", PStr "a/1");
                       ("speed", PInt 3); ("battery", PInt 5)] /\
  final (save_to_db quiet_env (PDict [("agv_id", PStr "a/1"); ("battery", PInt 5)])
           empty_world) =
  final (save_to_db quiet_env
           (PDict [("recorded_at", PStr "1999-01-01"); ("agv_id", PStr "a/1");
                   ("speed", PInt 3); ("battery", PInt 5)]) empty_world).
Proof.
  split; [reflexivity|].
  exact (proj1 (proj2 (unread_fields_have_no_effect quiet_env
           [("agv_id", PStr "a/1"); ("battery", PInt 5)]
           [("recorded_at", PStr "1999-01-01"); ("agv_id", PStr "a/1");
            ("speed", PInt 3); ("battery", PInt 5)]
           empty_world eq_refl eq_refl eq_refl))).
Defined.


(** X10.  The sent line of [process_and_control] reports that publish
    returned, not that the message went out: it is printed for a topic
    exactly when a publish call on that topic returned, whatever the
    return code, which the code does not look at.  The message is in the
    outbox only when the code was MQTT_ERR_SUCCESS; with any other code
    the line is printed and the outbox is as it was. *)
Theorem sent_line_iff_publish_returned (env : Env) (data : pyval) (w : World)
    (topic : string) :
  (In (EvPrint (DiagSent topic)) (events (process_and_control env data w)) <->
   publish_raises env = None /\
   exists body, In (EvPublish topic body) (events (process_and_control env data w))) /\
  (In (EvPrint (DiagSent topic)) (events (process_and_control env data w)) ->
   publish_rc env = 0 ->
   exists body,
     outbox (final (process_and_control env data w)) = outbox w ++ [(topic, body)]) /\
  (publish_rc env <> 0 ->
   outbox (final (process_and_control env data w)) = outbox w).
Proof.
  pac_paths env data w; cbn [events final];
    try (split; [split|split];
         [ intros H; repeat (destruct H as [H|H]; [discriminate H|]); contradiction
         | intros [_ [body H]];
           repeat (destruct H as [H|H]; [discriminate H|]); contradiction
         | intros H; repeat (destruct H as [H|H]; [discriminate H|]); contradiction
         | reflexivity ]).
  unfold after_publish.
  destruct (publish_raises env); cbn [events final outbox].
  - split; [split|split].
    + intros H; repeat (destruct H as [H|H]; [discriminate H|]); contradiction.
    + intros [H _]. discriminate H.
    + intros H; repeat (destruct H as [H|H]; [discriminate H|]); contradiction.
    + reflexivity.
  - split; [split|split].
    + intros H; repeat (destruct H as [H|H]; [try discriminate H|]);
        try contradiction.
      injection H as <-. split; [reflexivity|]. eexists. do 2 right. left. reflexivity.
    + intros [_ [body H]].
      repeat (destruct H as [H|H]; [try discriminate H|]); try contradiction.
      injection H as <- _. do 3 right. left. reflexivity.
    + intros H Hrc; repeat (destruct H as [H|H]; [try discriminate H|]);
        try contradiction.
      injection H as <-. rewrite Hrc. eexists. reflexivity.
    + intros Hrc. apply Z.eqb_neq in Hrc. rewrite Hrc. reflexivity.
Qed.

(** A publish that returns MQTT_ERR_NO_CONN: the sent line is printed,
    and no message went out. *)
Example dropped_command_is_reported_sent :
  events (process_and_control dropped_publish_env (reading_007 (PInt 15) "MOVING")
            empty_world) =
    [EvProcess (reading_007 (PInt 15) "MOVING");
     EvPrint (DiagDecision (PStr "factory/agv/007") (PInt 15));
     EvPublish "factory/control/007"
       (command_payload dropped_publish_env (PStr "factory/agv/007"));
     EvPrint (DiagSent "factory/control/007")] /\
  outbox (final (process_and_control dropped_publish_env
                   (reading_007 (PInt 15) "MOVING") empty_world)) = [].
Proof. split; reflexivity. Qed.

Lemma save_to_db_prints (env : Env) (data : pyval) (w : World) :
  diagnostics (events (save_to_db env data w)) <> [].
Proof. save_paths env data; discriminate. Qed.

Lemma diagnostics_app (a b : list event) :
  diagnostics (a ++ b) = diagnostics a ++ diagnostics b.
Proof. apply flat_map_app. Qed.

(** X11.  No message is handled silently: whatever the payload and the
    faults, [on_message] prints at least one line. *)
Theorem every_message_is_logged (json_loads : string -> res pyval) (env : Env)
    (message_payload : list byte) (w : World) :
  diagnostics (events (on_message json_loads env message_payload w)) <> [].
Proof.
  destruct (decode_cases message_payload) as [Hbad|[payload Hdec]].
  { rewrite (on_message_bad_utf8 json_loads env w Hbad). discriminate. }
  destruct (json_loads payload) as [data|e] eqn:Hl.
  2:{ rewrite (on_message_loads_raises json_loads env w Hdec Hl). discriminate. }
  rewrite (on_message_events json_loads env w Hdec Hl), diagnostics_app.
  intros H. apply app_eq_nil in H as [H _].
  exact (save_to_db_prints env data w H).
Qed.

(** X12.  [save_to_db] lets an exception out only from [conn.close()]:
    it raises [e] exactly when the connection was obtained and the close
    raised [e]; every other failure is swallowed. *)
Theorem save_to_db_raises_only_from_close (env : Env) (data : pyval) (w : World)
    (e : exn) :
  result (save_to_db env data w) = Raise e <->
  connect_raises env = None /\ close_raises env = Some e.
Proof.
  save_paths env data; split;
    try (intros H; discriminate H);
    try (intros [H1 H2]; discriminate);
    try (intros H; injection H as <-; split; reflexivity);
    try (intros [_ H]; injection H as <-; reflexivity).
Qed.

(** X13.  Each handler keeps to its own resource: [save_to_db] never
    calls publish and leaves the outbox as it was; [process_and_control]
    never opens a connection, never executes an insert and leaves the
    table and the connections as they were. *)
Theorem handlers_keep_to_their_resources (env : Env) (data : pyval) (w : World) :
  (publish_calls (events (save_to_db env data w)) = [] /\
   outbox (final (save_to_db env data w)) = outbox w) /\
  (connect_calls (events (process_and_control env data w)) = 0%nat /\
   execute_calls (events (process_and_control env data w)) = [] /\
   agv_logs (final (process_and_control env data w)) = agv_logs w /\
   open_conns (final (process_and_control env data w)) = open_conns w).
Proof.
  split; [exact (save_to_db_no_publish env data w)|].
  destruct (process_and_control_db_untouched env data w) as (H1 & H2 & H3 & H4).
  auto.
Qed.

(* ------------------------------------------------------------------ *)
(** * Further properties of the loop *)

Lemma save_to_db_rows (env : Env) (data : pyval) (w : World) :
  exists rows,
    agv_logs (final (save_to_db env data w)) = agv_logs w ++ rows /\
    (List.length rows <= 1)%nat.
Proof.
  save_paths env data;
    first [ exists []; split; [symmetry; apply app_nil_r | cbn; lia]
          | eexists [_]; split; [reflexivity | cbn; lia] ].
Qed.

Lemma save_to_db_conns (env : Env) (data : pyval) (w : World) :
  close_raises env = None ->
  open_conns (final (save_to_db env data w)) = open_conns w.
Proof.
  intros Hc. pose proof (save_to_db_close env data w) as H. cbv zeta in H.
  destruct (connect_raises env); [exact (proj2 H) | exact (proj2 H Hc)].
Qed.

Lemma process_and_control_outbox (env : Env) (data : pyval) (w : World) :
  exists sent,
    outbox (final (process_and_control env data w)) = outbox w ++ sent /\
    (List.length sent <= 1)%nat /\
    Forall (fun m => py_get (snd m) "command" PNone = Ok (PStr "RETURN_TO_BASE")) sent.
Proof.
  pac_paths env data w;
    try (exists []; split; [symmetry; apply app_nil_r | split; [cbn; lia | constructor]]).
  unfold after_publish.
  destruct (publish_raises env); [|destruct (publish_rc env =? 0)]; cbn [final outbox].
  - exists []. split; [symmetry; apply app_nil_r | split; [cbn; lia | constructor]].
  - eexists [_]. split; [reflexivity | split; [cbn; lia |]].
    constructor; [reflexivity | constructor].
  - exists []. split; [symmetry; apply app_nil_r | split; [cbn; lia | constructor]].
Qed.

(** What one message does to the table, the outbox and the connections. *)
Lemma on_message_footprint (json_loads : string -> res pyval) (env : Env)
    (message_payload : list byte) (w : World) :
  (exists rows,
     agv_logs (final (on_message json_loads env message_payload w)) =
       agv_logs w ++ rows /\
     (List.length rows <= 1)%nat) /\
  (exists sent,
     outbox (final (on_message json_loads env message_payload w)) =
       outbox w ++ sent /\
     (List.length sent <= 1)%nat /\
     Forall (fun m => py_get (snd m) "command" PNone = Ok (PStr "RETURN_TO_BASE"))
            sent) /\
  (close_raises env = None ->
   open_conns (final (on_message json_loads env message_payload w)) = open_conns w).
Proof.
  assert (Hquiet : forall line,
    on_message json_loads env message_payload w = mkOutcome (Ok tt) w [EvPrint line] ->
    (exists rows,
       agv_logs (final (on_message json_loads env message_payload w)) =
         agv_logs w ++ rows /\ (List.length rows <= 1)%nat) /\
    (exists sent,
       outbox (final (on_message json_loads env message_payload w)) =
         outbox w ++ sent /\ (List.length sent <= 1)%nat /\
       Forall (fun m => py_get (snd m) "command" PNone = Ok (PStr "RETURN_TO_BASE"))
              sent) /\
    (close_raises env = None ->
     open_conns (final (on_message json_loads env message_payload w)) = open_conns w)).
  { intros line ->. cbn [final]. split; [|split].
    - exists []. split; [symmetry; apply app_nil_r | cbn; lia].
    - exists []. split; [symmetry; apply app_nil_r | split; [cbn; lia | constructor]].
    - reflexivity. }
  destruct (decode_cases message_payload) as [Hbad|[payload Hdec]].
  { exact (Hquiet _ (on_message_bad_utf8 json_loads env w Hbad)). }
  destruct (json_loads payload) as [data|e] eqn:Hl.
  2:{ exact (Hquiet _ (on_message_loads_raises json_loads env w Hdec Hl)). }
  clear Hquiet.
  rewrite (on_message_final json_loads env w Hdec Hl).
  destruct (save_to_db_rows env data w) as (rows & Hrows & Hlen).
  destruct (save_to_db_no_publish env data w) as [_ Hout].
  destruct (process_and_control_db_untouched env data (final (save_to_db env data w)))
    as (Hplogs & Hpconn & _).
  destruct (process_and_control_outbox env data (final (save_to_db env data w)))
    as (sent & Hsent & Hslen & Hcmd).
  destruct (result (save_to_db env data w)); split; [|split| |split].
  - exists rows. rewrite Hplogs. auto.
  - exists sent. rewrite Hsent, Hout. auto.
  - intros Hc. rewrite Hpconn. exact (save_to_db_conns env data w Hc).
  - exists rows. auto.
  - exists []. rewrite Hout.
    split; [symmetry; apply app_nil_r | split; [cbn; lia | constructor]].
  - exact (save_to_db_conns env data w).
Qed.

(** X14.  The table is append-only: after any number of deliveries the
    rows that were there are still there, in place, followed by at most
    one new row per delivery. *)
Theorem table_is_append_only (json_loads : string -> res pyval)
    (deliveries : list (Env * list byte)) (w : World) :
  exists rows,
    agv_logs (final (loop_forever json_loads deliveries w)) = agv_logs w ++ rows /\
    (List.length rows <= List.length deliveries)%nat.
Proof.
  revert w. induction deliveries as [|[env m] rest IH]; intros w.
  - exists []. split; [symmetry; apply app_nil_r | cbn; lia].
  - rewrite loop_forever_next, final_after.
    destruct (on_message_footprint json_loads env m w) as ((r1 & H1 & L1) & _).
    destruct (IH (final (on_message json_loads env m w))) as (r2 & H2 & L2).
    exists (r1 ++ r2). rewrite H2, H1, <- app_assoc. split; [reflexivity|].
    rewrite length_app. cbn [List.length]. lia.
Qed.

(** X15.  The outbox is append-only too: at most one message per
    delivery is added, and every message added carries the command
    RETURN_TO_BASE. *)
Theorem outbox_is_append_only (json_loads : string -> res pyval)
    (deliveries : list (Env * list byte)) (w : World) :
  exists sent,
    outbox (final (loop_forever json_loads deliveries w)) = outbox w ++ sent /\
    (List.length sent <= List.length deliveries)%nat /\
    Forall (fun m => py_get (snd m) "command" PNone = Ok (PStr "RETURN_TO_BASE")) sent.
Proof.
  revert w. induction deliveries as [|[env m] rest IH]; intros w.
  - exists []. split; [symmetry; apply app_nil_r | split; [cbn; lia | constructor]].
  - rewrite loop_forever_next, final_after.
    destruct (on_message_footprint json_loads env m w) as (_ & (s1 & H1 & L1 & C1) & _).
    destruct (IH (final (on_message json_loads env m w))) as (s2 & H2 & L2 & C2).
    exists (s1 ++ s2). rewrite H2, H1, <- app_assoc. split; [reflexivity|].
    split; [rewrite length_app; cbn [List.length]; lia |].
    apply Forall_app. auto.
Qed.

(** X16.  The loop leaks no connection: when every [conn.close()]
    returns, as many connections are open after the deliveries as
    before, whatever else failed. *)
Theorem loop_leaks_no_connection (json_loads : string -> res pyval)
    (deliveries : list (Env * list byte)) (w : World) :
  Forall (fun d => close_raises (fst d) = None) deliveries ->
  open_conns (final (loop_forever json_loads deliveries w)) = open_conns w.
Proof.
  revert w. induction deliveries as [|[env m] rest IH]; intros w Hall.
  - reflexivity.
  - inversion Hall as [|d ds Hd Hrest]; subst.
    rewrite loop_forever_next, final_after, (IH _ Hrest).
    exact (proj2 (proj2 (on_message_footprint json_loads env m w)) Hd).
Qed.

Lemma loop_leaks_no_connection_witness :
  Forall (fun d => close_raises (fst d) = None)
         [(failing_insert_env, payload_007_moving); (quiet_env, payload_array);
          (failing_connect_env, payload_007_returning)] /\
  open_conns
    (final (loop_forever scenario_loads
              [(failing_insert_env, payload_007_moving); (quiet_env, payload_array);
               (failing_connect_env, payload_007_returning)] empty_world)) =
  open_conns empty_world.
Proof.
  assert (H : Forall (fun d => close_raises (fst d) = None)
                [(failing_insert_env, payload_007_moving); (quiet_env, payload_array);
                 (failing_connect_env, payload_007_returning)]).
  { repeat constructor. }
  split; [exact H|].
  exact (loop_leaks_no_connection scenario_loads _ empty_world H).
Defined.

Lemma after_after {S A} (a b : list event) (o : outcome S A) :
  after a (after b o) = after (a ++ b) o.
Proof. destruct o. cbn. rewrite app_assoc. reflexivity. Qed.

(** X17.  Deliveries compose: handling [first ++ second] is handling
    [first], then handling [second] from the state [first] left, with
    the two event logs one after the other. *)
Theorem loop_forever_app (json_loads : string -> res pyval)
    (first second : list (Env * list byte)) (w : World) :
  loop_forever json_loads (first ++ second) w =
  after (events (loop_forever json_loads first w))
        (loop_forever json_loads second (final (loop_forever json_loads first w))).
Proof.
  revert w. induction first as [|[env m] rest IH]; intros w.
  - cbn. symmetry. apply after_nil.
  - cbn [app]. rewrite !loop_forever_next, IH, after_after, events_after, final_after.
    reflexivity.
Qed.

Lemma save_to_db_any_world (env : Env) (data : pyval) (w w' : World) :
  events (save_to_db env data w) = events (save_to_db env data w') /\
  result (save_to_db env data w) = result (save_to_db env data w').
Proof. save_paths env data; split; reflexivity. Qed.

Lemma process_and_control_any_world (env : Env) (data : pyval) (w w' : World) :
  events (process_and_control env data w) = events (process_and_control env data w') /\
  result (process_and_control env data w) = result (process_and_control env data w').
Proof.
  pac_paths env data w;
    first [ rewrite (pac_not_dict env w' Hd)
          | rewrite (pac_type_error env w' Ha Hb Hs Hl)
          | rewrite (pac_silent env w' Ha Hb Hs Hl eq_refl)
          | rewrite (pac_silent env w' Ha Hb Hs Hl (f_equal (andb true) Hm))
          | rewrite (pac_fires env w' Ha Hb Hs Hl Hm eq_refl Henc Hseg)
          | rewrite (pac_unprintable env w' Ha Hb Hs Hl Hm eq_refl Henc)
          | rewrite (pac_bad_id env w' Ha Hb Hs Hl Hm) by discriminate ];
    try (split; reflexivity).
  destruct (publish_raises env); split; reflexivity.
Qed.

Lemma on_message_any_world (json_loads : string -> res pyval) (env : Env)
    (message_payload : list byte) (w w' : World) :
  events (on_message json_loads env message_payload w) =
  events (on_message json_loads env message_payload w').
Proof.
  destruct (decode_cases message_payload) as [Hbad|[payload Hdec]].
  { rewrite !(on_message_bad_utf8 json_loads env _ Hbad). reflexivity. }
  destruct (json_loads payload) as [data|e] eqn:Hl.
  2:{ rewrite !(on_message_loads_raises json_loads env _ Hdec Hl). reflexivity. }
  rewrite !(on_message_events json_loads env _ Hdec Hl).
  destruct (save_to_db_any_world env data w w') as [-> ->].
  destruct (process_and_control_any_world env data
              (final (save_to_db env data w)) (final (save_to_db env data w')))
    as [-> ->].
  reflexivity.
Qed.

(** X18.  No state is carried from one message to the next: what the
    loop does for a list of deliveries is what [on_message] does for
    each delivery alone, from any state, one log after the other. *)
Theorem loop_handles_each_message_alone (json_loads : string -> res pyval)
    (deliveries : list (Env * list byte)) (w w0 : World) :
  events (loop_forever json_loads deliveries w) =
  flat_map (fun d => events (on_message json_loads (fst d) (snd d) w0)) deliveries.
Proof.
  revert w. induction deliveries as [|[env m] rest IH]; intros w.
  - reflexivity.
  - rewrite loop_forever_next, events_after, IH. cbn [flat_map fst snd].
    rewrite (on_message_any_world json_loads env m w w0). reflexivity.
Qed.

(* ------------------------------------------------------------------ *)
(** * Startup *)

Ltac run_boot :=
  unfold init_db_attempt, try_except_class, boot_external, boot, on_world,
    rebind_conn, rebind_cursor, finalize_connection,
    get_db_connection, conn_close, conn_commit, external, in_world,
    try_except, bind, after, lift_res, ret, raise, emit, modify, modify_local,
    get_local, set_local;
  cbn.

(** Splits on the outcome of every call of a turn and on what the
    locals [conn] and [cursor] hold when it starts. *)
Ltac turn_paths env l :=
  cases_env env; destruct l as [[|] [| |]]; run_boot;
  repeat match goal with
         | |- context [is_mysql_error ?e] => destruct e; cbn
         end.

Lemma seconds_slept_app (a b : list boot_event) :
  seconds_slept (a ++ b) = seconds_slept a + seconds_slept b.
Proof.
  unfold seconds_slept. induction a as [|ev a IH]; cbn [app fold_right]; [reflexivity|].
  destruct ev; rewrite ?IH; lia.
Qed.

Lemma boot_lines_app (a b : list boot_event) :
  boot_lines (a ++ b) = boot_lines a ++ boot_lines b.
Proof. apply flat_map_app. Qed.

Lemma broker_connects_app (a b : list boot_event) :
  broker_connects (a ++ b) = (broker_connects a + broker_connects b)%nat.
Proof. unfold broker_connects. rewrite filter_app. apply length_app. Qed.

Lemma subscribe_calls_app (a b : list boot_event) :
  subscribe_calls (a ++ b) = subscribe_calls a ++ subscribe_calls b.
Proof. apply flat_map_app. Qed.

Lemma with_local_after {W L A} (evs : list event) (o : outcome (W * L) A) :
  match after evs o with
  | mkOutcome r (w', _) evs' => mkOutcome r w' evs'
  end =
  after evs match o with
            | mkOutcome r (w', _) evs' => mkOutcome r w' evs'
            end.
Proof. destruct o as [r [w' l] evs']. reflexivity. Qed.

Lemma held_connections_bound (l : Locals) : (held_connections l <= 2)%nat.
Proof. destruct l as [[|] [| |]]; cbn; lia. Qed.

(** What a turn does in every case: the table, the outbox and the
    subscriptions stay, no stage of the pipeline runs. *)
Lemma init_db_attempt_frame (env : Env) (w : World) (s : Session) (l : Locals) :
  let o := init_db_attempt env (w, s, l) in
  agv_logs (fst (fst (final o))) = agv_logs w /\
  outbox (fst (fst (final o))) = outbox w /\
  subscriptions (snd (fst (final o))) = subscriptions s /\
  stages (events o) = [] /\
  (exists more,
     session_log (snd (fst (final o))) = session_log s ++ more /\
     broker_connects more = 0%nat /\ subscribe_calls more = []).
Proof.
  turn_paths env l;
    rewrite ?app_nil_r, <- ?app_assoc;
    (repeat split; try reflexivity);
    first [ eexists; split; [reflexivity | split; reflexivity]
          | exists []; rewrite app_nil_r; split; [reflexivity | split; reflexivity] ].
Qed.

(** The connections that are open beyond those of the caller are
    exactly the ones the locals keep alive, before and after a turn. *)
Lemma init_db_attempt_conns (env : Env) (w : World) (s : Session) (l : Locals)
    (base : nat) :
  open_conns w = (base + held_connections l)%nat ->
  let o := init_db_attempt env (w, s, l) in
  open_conns (fst (fst (final o))) = (base + held_connections (snd (final o)))%nat.
Proof.
  destruct w as [logs conns out]. cbn [open_conns]. intros ->.
  turn_paths env l; lia.
Qed.

(** A turn that meets no exception ends the loop, with the connection closed. *)
Lemma init_db_attempt_ready (env : Env) (w : World) (s : Session) (l : Locals) :
  first_init_exception env = None ->
  let o := init_db_attempt env (w, s, l) in
  result o = Ok true /\
  session_log (snd (fst (final o))) =
    session_log s ++ [BootCreateTable; BootPrint LineDbReady] /\
  events o = [EvConnect; EvCursor; EvCommit; EvClose] /\
  conn_open (snd (final o)) = false.
Proof.
  unfold first_init_exception.
  cases_env env; intros H; try discriminate H;
    destruct l as [[|] [| |]]; run_boot;
    rewrite <- app_assoc; repeat split; reflexivity.
Qed.

(** A turn that meets an error of the driver is logged, followed by a
    sleep of three seconds; the connection it obtained is still open. *)
Lemma init_db_attempt_retried (env : Env) (w : World) (s : Session) (l : Locals) :
  retried env = true ->
  let o := init_db_attempt env (w, s, l) in
  result o = Ok false /\
  seconds_slept (session_log (snd (fst (final o)))) =
    seconds_slept (session_log s) + 3 /\
  (leaks_connection env = true -> conn_open (snd (final o)) = true) /\
  exists e,
    first_init_exception env = Some e /\
    boot_lines (session_log (snd (fst (final o)))) =
      boot_lines (session_log s) ++ [LineDbRetry e].
Proof.
  unfold retried, leaks_connection, first_init_exception.
  cases_env env; cbn [connect_raises cursor_raises execute_raises commit_raises
                      close_raises];
    intros H; try discriminate H;
    match type of H with
    | is_mysql_error ?e = true => destruct e; try discriminate H
    end;
    destruct l as [[|] [| |]]; run_boot;
    rewrite ?seconds_slept_app, ?boot_lines_app; cbn;
    rewrite ?app_nil_r;
    (split; [reflexivity|]); (split; [lia|]);
    (split; [intros Hleak; first [reflexivity | discriminate Hleak]|]);
    eexists; split; reflexivity.
Qed.

(** A turn that meets any other exception lets it through to the caller. *)
Lemma init_db_attempt_crashes (env : Env) (w : World) (s : Session) (l : Locals)
    (e : exn) :
  first_init_exception env = Some e ->
  is_mysql_error e = false ->
  result (init_db_attempt env (w, s, l)) = Raise e.
Proof.
  unfold first_init_exception.
  cases_env env; cbn [connect_raises cursor_raises execute_raises commit_raises
                      close_raises];
    intros H He; try discriminate H; injection H as ->;
    destruct e; try discriminate He; destruct l as [[|] [| |]]; reflexivity.
Qed.

(** The function returns: the locals let go of what they kept alive. *)
Lemma drop_locals_eq (w : World) (s : Session) (l : Locals) :
  exists w',
    (drop_locals ;; ret true) (w, s, l) = mkOutcome (Ok true) (w', s, no_locals) [] /\
    agv_logs w' = agv_logs w /\ outbox w' = outbox w /\
    open_conns w' = (open_conns w - held_connections l)%nat.
Proof.
  destruct w as [logs conns out].
  destruct l as [[|] [| |]]; eexists; (split; [reflexivity|]); cbn;
    repeat split; lia.
Qed.

Lemma init_db_loop_cons (env : Env) (later : list Env)
    (st : World * Session * Locals) :
  init_db_loop (env :: later) st =
  match init_db_attempt env st with
  | mkOutcome (Ok true) st' evs => after evs ((drop_locals ;; ret true) st')
  | mkOutcome (Ok false) st' evs => after evs (init_db_loop later st')
  | mkOutcome (Raise e) st' evs => mkOutcome (Raise e) st' evs
  end.
Proof.
  cbn [init_db_loop]. unfold bind at 1.
  destruct (init_db_attempt env st) as [[[|]|e] st' evs]; reflexivity.
Qed.

Lemma init_db_eq (attempts : list Env) (w : World) (s : Session) :
  init_db attempts (w, s) =
  with_local no_locals (init_db_loop attempts)
    (w, mkSession (session_log s ++ [BootPrint LineDbConnecting]) (subscriptions s)).
Proof. unfold init_db, bind, boot, modify_local. cbn. apply after_nil. Qed.

(** The loop through turns that are all retried: where it stands
    afterwards does not depend on the turns that follow. *)
Lemma init_db_loop_retried (failed : list Env) (w : World) (s : Session) (l : Locals)
    (base : nat) :
  Forall (fun env => retried env = true) failed ->
  open_conns w = (base + held_connections l)%nat ->
  exists w' s' l' evs retries,
    (forall rest,
       init_db_loop (failed ++ rest) (w, s, l) =
       after evs (init_db_loop rest (w', s', l'))) /\
    open_conns w' = (base + held_connections l')%nat /\
    seconds_slept (session_log s') =
      seconds_slept (session_log s) + 3 * Z.of_nat (List.length failed) /\
    boot_lines (session_log s') = boot_lines (session_log s) ++ retries /\
    List.length retries = List.length failed /\
    (forall last before, failed = before ++ [last] ->
       leaks_connection last = true -> conn_open l' = true).
Proof.
  revert w s l. induction failed as [|env failed IH]; intros w s l Hall Hbase.
  - exists w, s, l, [], []. cbn [app List.length].
    rewrite app_nil_r. repeat split; try reflexivity; try lia; try assumption.
    + intros rest. symmetry. apply after_nil.
    + intros last before Heq. destruct before; discriminate Heq.
  - inversion Hall as [|x xs Hx Hxs]; subst.
    destruct (init_db_attempt_retried env w s l Hx)
      as (Hres & Hsl & Hleak & e & _ & Hlines).
    pose proof (init_db_attempt_conns env w s l base Hbase) as Hconn.
    destruct (init_db_attempt env (w, s, l)) as [r [[w1 s1] l1] evs1] eqn:Hatt.
    cbn [result final events fst snd] in *. subst r.
    destruct (IH w1 s1 l1 Hxs Hconn)
      as (w' & s' & l' & evs & retries & Heq & Hc & Hs & Hl & Hlen & Hlast).
    exists w', s', l', (evs1 ++ evs), (LineDbRetry e :: retries).
    split; [|split; [|split; [|split; [|split]]]].
    + intros rest. cbn [app]. rewrite init_db_loop_cons, Hatt, Heq, after_after.
      reflexivity.
    + exact Hc.
    + rewrite Hs, Hsl. cbn [List.length]. lia.
    + rewrite Hl, Hlines, <- app_assoc. reflexivity.
    + cbn [List.length]. lia.
    + intros last before Heqf Hlk.
      destruct before as [|b before]; cbn [app] in Heqf.
      * injection Heqf as -> ->.
        specialize (Heq []). cbn [app] in Heq.
        cbn [init_db_loop] in Heq. unfold ret, after in Heq.
        injection Heq as _ _ Hl1 _. subst l'. exact (Hleak Hlk).
      * injection Heqf as _ ->. exact (Hlast last before eq_refl Hlk).
Qed.

(** Where [init_db] stands after its retried turns. *)
Lemma init_db_retried (failed : list Env) (w : World) (s : Session) :
  Forall (fun env => retried env = true) failed ->
  exists w' s' l' evs retries,
    (forall rest,
       init_db (failed ++ rest) (w, s) =
       after evs (with_local l' (init_db_loop rest) (w', s'))) /\
    open_conns w' = (open_conns w + held_connections l')%nat /\
    seconds_slept (session_log s') =
      seconds_slept (session_log s) + 3 * Z.of_nat (List.length failed) /\
    boot_lines (session_log s') =
      boot_lines (session_log s) ++ [LineDbConnecting] ++ retries /\
    List.length retries = List.length failed /\
    (forall last before, failed = before ++ [last] ->
       leaks_connection last = true -> conn_open l' = true).
Proof.
  intros Hall.
  destruct (init_db_loop_retried failed w
              (mkSession (session_log s ++ [BootPrint LineDbConnecting])
                         (subscriptions s)) no_locals (open_conns w) Hall)
    as (w' & s' & l' & evs & retries & Heq & Hc & Hs & Hl & Hlen & Hlast).
  { cbn. lia. }
  exists w', s', l', evs, retries.
  cbn [session_log] in Hs, Hl. rewrite seconds_slept_app in Hs.
  rewrite boot_lines_app in Hl.
  change (seconds_slept [BootPrint LineDbConnecting]) with 0 in Hs.
  change (boot_lines [BootPrint LineDbConnecting]) with [LineDbConnecting] in Hl.
  split.
  { intros rest. rewrite init_db_eq. unfold with_local. rewrite Heq.
    apply with_local_after. }
  split; [exact Hc|]. split; [lia|].
  split; [rewrite Hl, <- app_assoc; reflexivity |]. split; [exact Hlen | exact Hlast].
Qed.

(** The turn that goes through, and the return of [init_db] after it. *)
Lemma init_db_loop_ready (good : Env) (later : list Env) (w : World) (s : Session)
    (l : Locals) :
  first_init_exception good = None ->
  exists w1 s1 evs1,
    with_local l (init_db_loop (good :: later)) (w, s) =
      mkOutcome (Ok true) (w1, s1) evs1 /\
    session_log s1 = session_log s ++ [BootCreateTable; BootPrint LineDbReady] /\
    (forall base, open_conns w = (base + held_connections l)%nat ->
                  open_conns w1 = base).
Proof.
  intros Hgood.
  destruct (init_db_attempt_ready good w s l Hgood) as (Hres & Hlog & _ & _).
  pose proof (init_db_attempt_conns good w s l) as Hconn.
  unfold with_local. rewrite init_db_loop_cons.
  destruct (init_db_attempt good (w, s, l)) as [r [[w1 s1] l1] evs1].
  cbn [result final events fst snd] in *. subst r.
  destruct (drop_locals_eq w1 s1 l1) as (w2 & -> & _ & _ & Hdrop).
  exists w2, s1, (evs1 ++ []). split; [reflexivity|]. split; [exact Hlog|].
  intros base Hbase. rewrite Hdrop, (Hconn base Hbase). lia.
Qed.

(** X19.  [init_db] returns at the first turn in which connect, cursor,
    create table, commit and close all go through: every earlier turn,
    failing on an error of the driver, was logged and followed by a
    sleep of three seconds, and the turns after it are never run. *)
Theorem init_db_ready_after_retries (failed : list Env) (good : Env)
    (later : list Env) (w : World) (s : Session) :
  Forall (fun env => retried env = true) failed ->
  first_init_exception good = None ->
  result (init_db (failed ++ good :: later) (w, s)) = Ok true /\
  seconds_slept (session_log (snd (final (init_db (failed ++ good :: later) (w, s))))) =
    seconds_slept (session_log s) + 3 * Z.of_nat (List.length failed) /\
  (exists retries,
     boot_lines (session_log (snd (final (init_db (failed ++ good :: later) (w, s))))) =
       boot_lines (session_log s) ++ [LineDbConnecting] ++ retries ++ [LineDbReady] /\
     List.length retries = List.length failed) /\
  init_db (failed ++ good :: later) (w, s) = init_db (failed ++ [good]) (w, s).
Proof.
  intros Hall Hgood.
  destruct (init_db_retried failed w s Hall)
    as (w' & s' & l' & evs & retries & Heq & _ & Hs & Hl & Hlen & _).
  assert (Hsame : init_db (failed ++ good :: later) (w, s) =
                  init_db (failed ++ [good]) (w, s)).
  { rewrite !Heq. f_equal. unfold with_local. rewrite !init_db_loop_cons.
    destruct (init_db_attempt_ready good w' s' l' Hgood) as (Hres & _).
    destruct (init_db_attempt good (w', s', l')) as [r st1 evs0].
    cbn [result] in Hres. subst r. reflexivity. }
  split; [|split; [|split; [|exact Hsame]]]; rewrite Heq;
    destruct (init_db_loop_ready good later w' s' l' Hgood)
      as (w1 & s1 & evs1 & -> & Hlog & _);
    cbn [after result final snd].
  - reflexivity.
  - rewrite Hlog, seconds_slept_app.
    change (seconds_slept [BootCreateTable; BootPrint LineDbReady]) with 0. lia.
  - exists retries. split; [|exact Hlen].
    rewrite Hlog, boot_lines_app, Hl.
    change (boot_lines [BootCreateTable; BootPrint LineDbReady]) with [LineDbReady].
    rewrite <- !app_assoc. reflexivity.
Qed.

Lemma init_db_ready_after_retries_witness :
  Forall (fun env => retried env = true) [failing_connect_env; failing_insert_env] /\
  first_init_exception quiet_env = None /\
  result (init_db ([failing_connect_env; failing_insert_env] ++ quiet_env :: [])
            (empty_world, empty_session)) = Ok true /\
  seconds_slept
    (session_log
       (snd (final (init_db ([failing_connect_env; failing_insert_env]
                              ++ quiet_env :: [])
                      (empty_world, empty_session))))) = 6.
Proof.
  assert (H : Forall (fun env => retried env = true)
                [failing_connect_env; failing_insert_env]) by (repeat constructor).
  split; [exact H|]. split; [reflexivity|].
  destruct (init_db_ready_after_retries [failing_connect_env; failing_insert_env]
              quiet_env [] empty_world empty_session H eq_refl) as (Hr & Hs & _).
  split; [exact Hr | exact Hs].
Defined.

(** X20.  Only errors of the driver are retried: the first turn that
    meets any other exception lets it out of [init_db], and the program
    never gets to the broker. *)
Theorem init_db_lets_other_exceptions_out (failed : list Env) (bad : Env)
    (later : list Env) (w : World) (s : Session) (e : exn) :
  Forall (fun env => retried env = true) failed ->
  first_init_exception bad = Some e ->
  is_mysql_error e = false ->
  result (init_db (failed ++ bad :: later) (w, s)) = Raise e.
Proof.
  intros Hall Hbad He.
  destruct (init_db_retried failed w s Hall)
    as (w' & s' & l' & evs & retries & Heq & _).
  rewrite Heq, result_after. unfold with_local. rewrite init_db_loop_cons.
  pose proof (init_db_attempt_crashes bad w' s' l' e Hbad He) as Hres.
  destruct (init_db_attempt bad (w', s', l')) as [r [[w1 s1] l1] evs1].
  cbn [result] in Hres. subst r. reflexivity.
Qed.

Lemma init_db_lets_other_exceptions_out_witness :
  Forall (fun env => retried env = true) [failing_connect_env] /\
  first_init_exception interrupted_env = Some (OtherError "interrupted") /\
  is_mysql_error (OtherError "interrupted") = false /\
  result (init_db ([failing_connect_env] ++ interrupted_env :: [quiet_env])
            (empty_world, empty_session)) = Raise (OtherError "interrupted").
Proof.
  assert (H : Forall (fun env => retried env = true) [failing_connect_env])
    by (repeat constructor).
  split; [exact H|]. split; [reflexivity|]. split; [reflexivity|].
  exact (init_db_lets_other_exceptions_out [failing_connect_env] interrupted_env
           [quiet_env] empty_world empty_session (OtherError "interrupted")
           H eq_refl eq_refl).
Defined.

(** X21.  [init_db] has no [finally]: a turn that obtained a connection
    and then failed never closes it, and the connection stays open while
    the program sleeps.  It is released when the next turns rebind
    [conn] and [cursor], or when the function returns: so when [init_db]
    returns, no connection of a failed turn is left open, and while it
    retries at most two are. *)
Theorem init_db_releases_failed_connections (failed : list Env) (good : Env)
    (later : list Env) (w : World) (s : Session) :
  Forall (fun env => retried env = true) failed ->
  first_init_exception good = None ->
  open_conns (fst (final (init_db (failed ++ good :: later) (w, s)))) = open_conns w /\
  (open_conns w <= open_conns (fst (final (init_db failed (w, s)))) <= open_conns w + 2)%nat /\
  (forall last before,
     failed = before ++ [last] -> leaks_connection last = true ->
     (open_conns w < open_conns (fst (final (init_db failed (w, s)))))%nat).
Proof.
  intros Hall Hgood.
  destruct (init_db_retried failed w s Hall)
    as (w' & s' & l' & evs & retries & Heq & Hc & _ & _ & _ & Hlast).
  assert (Hstay : fst (final (init_db failed (w, s))) = w').
  { specialize (Heq []). rewrite app_nil_r in Heq. rewrite Heq. reflexivity. }
  rewrite Hstay, Heq, final_after.
  destruct (init_db_loop_ready good later w' s' l' Hgood) as (w1 & s1 & evs1 & -> & _ & Hback).
  cbn [final fst]. pose proof (held_connections_bound l') as Hle.
  split; [exact (Hback _ Hc)|]. split; [lia|].
  intros last before Hf Hlk. specialize (Hlast last before Hf Hlk).
  rewrite Hc. unfold held_connections. rewrite Hlast. lia.
Qed.

Lemma init_db_releases_failed_connections_witness :
  Forall (fun env => retried env = true) [failing_connect_env; failing_insert_env] /\
  first_init_exception quiet_env = None /\
  open_conns
    (fst (final (init_db ([failing_connect_env; failing_insert_env]
                            ++ quiet_env :: [])
                   (empty_world, empty_session)))) = 0%nat /\
  open_conns
    (fst (final (init_db [failing_connect_env; failing_insert_env]
                   (empty_world, empty_session)))) = 1%nat.
Proof.
  assert (H : Forall (fun env => retried env = true)
                [failing_connect_env; failing_insert_env]) by (repeat constructor).
  split; [exact H|]. split; [reflexivity|].
  split; [|reflexivity].
  exact (proj1 (init_db_releases_failed_connections
                  [failing_connect_env; failing_insert_env]
                  quiet_env [] empty_world empty_session H eq_refl)).
Defined.

(** X22.  [init_db] never gives up: as long as every turn fails on an
    error of the driver it neither returns nor raises, and it has slept
    three seconds per turn. *)
Theorem init_db_keeps_retrying (attempts : list Env) (w : World) (s : Session) :
  Forall (fun env => retried env = true) attempts ->
  result (init_db attempts (w, s)) = Ok false /\
  seconds_slept (session_log (snd (final (init_db attempts (w, s))))) =
    seconds_slept (session_log s) + 3 * Z.of_nat (List.length attempts).
Proof.
  intros Hall.
  destruct (init_db_retried attempts w s Hall)
    as (w' & s' & l' & evs & retries & Heq & _ & Hs & _).
  specialize (Heq []). rewrite app_nil_r in Heq. rewrite Heq.
  cbn. split; [reflexivity | exact Hs].
Qed.

Lemma init_db_keeps_retrying_witness :
  Forall (fun env => retried env = true)
         [failing_connect_env; failing_connect_env; failing_connect_env] /\
  result (init_db [failing_connect_env; failing_connect_env; failing_connect_env]
            (empty_world, empty_session)) = Ok false.
Proof.
  assert (H : Forall (fun env => retried env = true)
                [failing_connect_env; failing_connect_env; failing_connect_env])
    by (repeat constructor).
  split; [exact H|].
  exact (proj1 (init_db_keeps_retrying _ empty_world empty_session H)).
Defined.

(** What [init_db] leaves alone, for any turns. *)
Lemma init_db_loop_frame (attempts : list Env) (w : World) (s : Session) (l : Locals) :
  let o := init_db_loop attempts (w, s, l) in
  agv_logs (fst (fst (final o))) = agv_logs w /\
  outbox (fst (fst (final o))) = outbox w /\
  subscriptions (snd (fst (final o))) = subscriptions s /\
  stages (events o) = [] /\
  (exists more,
     session_log (snd (fst (final o))) = session_log s ++ more /\
     broker_connects more = 0%nat /\ subscribe_calls more = []).
Proof.
  cbv zeta. revert w s l. induction attempts as [|env later IH]; intros w s l.
  - cbn. repeat split; try reflexivity. exists []. rewrite app_nil_r. auto.
  - rewrite init_db_loop_cons.
    destruct (init_db_attempt_frame env w s l)
      as (H1 & H2 & H3 & H4 & more & H5 & H6 & H7).
    destruct (init_db_attempt env (w, s, l)) as [[[|]|e] [[w1 s1] l1] evs1];
      cbn [result final events fst snd] in *.
    + destruct (drop_locals_eq w1 s1 l1) as (w2 & -> & D1 & D2 & _).
      cbn [after final events fst snd]. rewrite app_nil_r, D1, D2.
      repeat split; auto. exists more. auto.
    + destruct (IH w1 s1 l1) as (I1 & I2 & I3 & I4 & more' & I5 & I6 & I7).
      rewrite final_after, events_after, stages_app, H4, I4, I1, I2, I3.
      repeat split; auto.
      exists (more ++ more'). rewrite I5, H5, <- app_assoc.
      rewrite broker_connects_app, subscribe_calls_app, H6, H7, I6, I7. auto.
    + repeat split; auto. exists more. auto.
Qed.

(** X23.  [init_db] touches neither the rows of the table nor the
    outbox nor the subscriptions, runs no stage of the pipeline and
    makes no call to the broker, however many turns it takes and
    however it ends. *)
Theorem init_db_only_prepares (attempts : list Env) (w : World) (s : Session) :
  agv_logs (fst (final (init_db attempts (w, s)))) = agv_logs w /\
  outbox (fst (final (init_db attempts (w, s)))) = outbox w /\
  subscriptions (snd (final (init_db attempts (w, s)))) = subscriptions s /\
  stages (events (init_db attempts (w, s))) = [] /\
  broker_connects (session_log (snd (final (init_db attempts (w, s))))) =
    broker_connects (session_log s) /\
  subscribe_calls (session_log (snd (final (init_db attempts (w, s))))) =
    subscribe_calls (session_log s).
Proof.
  rewrite init_db_eq.
  destruct (init_db_loop_frame attempts w
              (mkSession (session_log s ++ [BootPrint LineDbConnecting])
                         (subscriptions s)) no_locals)
    as (H1 & H2 & H3 & H4 & more & H5 & H6 & H7).
  unfold with_local.
  destruct (init_db_loop attempts
              (w, mkSession (session_log s ++ [BootPrint LineDbConnecting])
                            (subscriptions s), no_locals))
    as [r [[w1 s1] l1] evs1].
  cbn [result final events fst snd] in *.
  rewrite H1, H2, H3, H4, H5. cbn [session_log subscriptions].
  rewrite !broker_connects_app, !subscribe_calls_app, H6, H7. cbn.
  rewrite !app_nil_r, !Nat.add_0_r. auto 10.
Qed.

(* ------------------------------------------------------------------ *)
(** * The session with the broker *)

Section Session.

Variable json_loads : string -> res pyval.
Variable MQTT_TOPIC : string.

(** The three ways through [on_connect]. *)
Lemma on_connect_eq (subscribe_raises : option exn) (rc : Z) (w : World) (s : Session) :
  on_connect MQTT_TOPIC subscribe_raises rc (w, s) =
  if rc =? 0 then
    match subscribe_raises with
    | None =>
        mkOutcome (Ok tt)
          (w, mkSession (session_log s ++
                           [BootPrint LineMqttConnected; BootSubscribe MQTT_TOPIC;
                            BootPrint (LineSubscribed MQTT_TOPIC)])
                        (subscriptions s ++ [MQTT_TOPIC])) []
    | Some e =>
        mkOutcome (Raise e)
          (w, mkSession (session_log s ++
                           [BootPrint LineMqttConnected; BootSubscribe MQTT_TOPIC])
                        (subscriptions s)) []
    end
  else
    mkOutcome (Ok tt)
      (w, mkSession (session_log s ++ [BootPrint (LineMqttRefused rc)])
                    (subscriptions s)) [].
Proof.
  unfold on_connect. destruct (rc =? 0); [|reflexivity].
  destruct subscribe_raises;
    unfold client_subscribe, boot_external, boot, bind, after, modify_local, ret, raise;
    cbn; rewrite <- ?app_assoc; reflexivity.
Qed.

Lemma network_loop_message (env : Env) (message_payload : list byte)
    (rest : list delivery) (w : World) (s : Session) :
  network_loop json_loads MQTT_TOPIC (Message env message_payload :: rest) (w, s) =
  after (events (on_message json_loads env message_payload w))
        (network_loop json_loads MQTT_TOPIC rest
           (final (on_message json_loads env message_payload w), s)).
Proof.
  cbn [network_loop]. unfold bind, in_world. cbn [fst snd].
  pose proof (on_message_never_raises json_loads env message_payload w) as H.
  destruct (on_message json_loads env message_payload w) as [r w' evs].
  cbn in H. subst r. reflexivity.
Qed.

Lemma network_loop_connack (subscribe_raises : option exn) (rc : Z)
    (rest : list delivery) (w : World) (s : Session) :
  callback_returns (ConnAck subscribe_raises rc) = true ->
  network_loop json_loads MQTT_TOPIC (ConnAck subscribe_raises rc :: rest) (w, s) =
  network_loop json_loads MQTT_TOPIC rest
    (final (on_connect MQTT_TOPIC subscribe_raises rc (w, s))).
Proof.
  intros H. cbn [network_loop]. unfold bind. rewrite on_connect_eq.
  unfold callback_returns in H.
  destruct (rc =? 0); destruct subscribe_raises; try discriminate H;
    cbn [final]; apply after_nil.
Qed.

(** X24.  The client only ever subscribes to the configured topic
    filter, once per accepted CONNACK at most, and exactly once per
    accepted CONNACK (so again after every reconnect) as long as each
    subscribe returns; a refused CONNACK and a message never subscribe. *)
Theorem subscriptions_follow_accepted_connacks (deliveries : list delivery)
    (w : World) (s : Session) :
  exists n,
    subscriptions (snd (final (network_loop json_loads MQTT_TOPIC deliveries (w, s)))) =
      subscriptions s ++ repeat MQTT_TOPIC n /\
    (n <= List.length (filter accepted deliveries))%nat /\
    (forallb callback_returns deliveries = true ->
     n = List.length (filter accepted deliveries)).
Proof.
  revert w s. induction deliveries as [|d rest IH]; intros w s.
  - exists 0%nat. cbn. rewrite app_nil_r. auto.
  - destruct d as [sr rc | env m].
    + cbn [network_loop filter accepted forallb callback_returns]. unfold bind.
      rewrite on_connect_eq.
      destruct (rc =? 0) eqn:Hrc.
      * destruct sr as [e|]; cbn [negb andb].
        -- exists 0%nat. cbn. rewrite app_nil_r.
           split; [reflexivity|]. split; [lia | discriminate].
        -- destruct (IH w (mkSession
                             (session_log s ++
                                [BootPrint LineMqttConnected; BootSubscribe MQTT_TOPIC;
                                 BootPrint (LineSubscribed MQTT_TOPIC)])
                             (subscriptions s ++ [MQTT_TOPIC])))
             as (n & Hn & Hle & Heq).
           exists (S n). rewrite final_after, Hn. cbn [subscriptions repeat List.length].
           rewrite <- app_assoc. split; [reflexivity|]. split; [lia|].
           intros H. rewrite (Heq H). reflexivity.
      * destruct (IH w (mkSession (session_log s ++ [BootPrint (LineMqttRefused rc)])
                                  (subscriptions s)))
          as (n & Hn & Hle & Heq).
        exists n. rewrite final_after, Hn. cbn [subscriptions].
        split; [reflexivity|]. split; [exact Hle|].
        intros H. apply Heq. destruct sr; exact H.
    + rewrite network_loop_message, final_after.
      destruct (IH (final (on_message json_loads env m w)) s) as (n & Hn & Hle & Heq).
      exists n. auto.
Qed.

(** X25.  CONNACKs and messages do not interfere: when every callback
    returns, the world and the event log after the network loop are
    those of [loop_forever] on the messages alone, and the loop ends on
    no exception. *)
Theorem network_loop_handles_messages_as_loop_forever (deliveries : list delivery)
    (w : World) (s : Session) :
  forallb callback_returns deliveries = true ->
  result (network_loop json_loads MQTT_TOPIC deliveries (w, s)) = Ok tt /\
  fst (final (network_loop json_loads MQTT_TOPIC deliveries (w, s))) =
    final (loop_forever json_loads (messages_of deliveries) w) /\
  events (network_loop json_loads MQTT_TOPIC deliveries (w, s)) =
    events (loop_forever json_loads (messages_of deliveries) w).
Proof.
  revert w s. induction deliveries as [|d rest IH]; intros w s Hall.
  - repeat split; reflexivity.
  - cbn [forallb] in Hall. apply andb_true_iff in Hall as [Hd Hrest].
    destruct d as [sr rc | env m].
    + rewrite (network_loop_connack sr rc rest w s Hd), on_connect_eq.
      cbn [messages_of flat_map app].
      unfold callback_returns in Hd.
      destruct (rc =? 0); destruct sr; try discriminate Hd; cbn [final];
        exact (IH _ _ Hrest).
    + rewrite network_loop_message.
      change (messages_of (Message env m :: rest)) with ((env, m) :: messages_of rest).
      rewrite loop_forever_next, result_after, !final_after, !events_after.
      destruct (IH (final (on_message json_loads env m w)) s Hrest) as (H1 & H2 & H3).
      rewrite H1, H2, H3. repeat split; reflexivity.
Qed.

Lemma bind_boot {B} (ev : boot_event) (k : unit -> M (World * Session) B)
    (w : World) (s : Session) :
  bind (boot ev) k (w, s) =
  k tt (w, mkSession (session_log s ++ [ev]) (subscriptions s)).
Proof. unfold bind, boot, modify_local. cbn. apply after_nil. Qed.

Lemma bind_ret_result {S A B} (m : M S A) (b : B) (s : S) :
  result (bind m (fun _ => ret b) s) =
  match result (m s) with
  | Ok _ => Ok b
  | Raise e => Raise e
  end.
Proof. unfold bind. destruct (m s) as [[a|e] s' evs]; reflexivity. Qed.

Lemma try_except_boot_result (body : M (World * Session) unit)
    (line : exn -> boot_line) (st : World * Session) :
  result (try_except body (fun e => boot (BootPrint (line e))) st) = Ok tt.
Proof.
  unfold try_except. destruct (body st) as [[[]|e] st' evs]; reflexivity.
Qed.

Lemma main_eq (attempts : list Env) (connect_raises : option exn)
    (deliveries : list delivery) (st : World * Session) :
  main json_loads MQTT_TOPIC attempts connect_raises deliveries st =
  match init_db attempts st with
  | mkOutcome (Ok true) st1 evs1 =>
      after evs1
        ((boot (BootPrint LineStarting) ;;
          try_except
            (boot_external BootBrokerConnect connect_raises ;;
             network_loop json_loads MQTT_TOPIC deliveries)
            (fun e => boot (BootPrint (LineFatal e))) ;;
          ret true) st1)
  | mkOutcome (Ok false) st1 evs1 => mkOutcome (Ok false) st1 evs1
  | mkOutcome (Raise e) st1 evs1 => mkOutcome (Raise e) st1 evs1
  end.
Proof.
  unfold main. unfold bind at 1.
  destruct (init_db attempts st) as [[[|]|e] st1 evs1]; try reflexivity.
  unfold ret, after. rewrite app_nil_r. reflexivity.
Qed.

(** X26.  The startup gate: unless [init_db] has returned, the program
    makes no call to the broker, subscribes to nothing and handles no
    message; it stays in [init_db] or dies of the exception that left it. *)
Theorem main_waits_for_init_db (attempts : list Env) (connect_raises : option exn)
    (deliveries : list delivery) (w : World) (s : Session) :
  result (init_db attempts (w, s)) <> Ok true ->
  result (main json_loads MQTT_TOPIC attempts connect_raises deliveries (w, s)) <> Ok true /\
  stages (events (main json_loads MQTT_TOPIC attempts connect_raises deliveries (w, s)))
    = [] /\
  broker_connects
    (session_log
       (snd (final (main json_loads MQTT_TOPIC attempts connect_raises deliveries
                      (w, s))))) = broker_connects (session_log s) /\
  subscriptions
    (snd (final (main json_loads MQTT_TOPIC attempts connect_raises deliveries (w, s))))
    = subscriptions s /\
  agv_logs
    (fst (final (main json_loads MQTT_TOPIC attempts connect_raises deliveries (w, s))))
    = agv_logs w.
Proof.
  intros Hnot.
  destruct (init_db_only_prepares attempts w s) as (H1 & _ & H3 & H4 & H5 & _).
  rewrite main_eq.
  destruct (init_db attempts (w, s)) as [[[|]|e] st1 evs1];
    cbn [result final events] in *; try congruence;
    repeat split; auto; discriminate.
Qed.

(** X27.  Once [init_db] has returned, no exception leaves the program:
    [main] ends normally, and when [client.connect] raises, the fatal
    line is the last thing printed and no delivery is handled. *)
Theorem main_contains_every_exception (attempts : list Env)
    (connect_raises : option exn) (deliveries : list delivery)
    (w : World) (s : Session) :
  result (init_db attempts (w, s)) = Ok true ->
  result (main json_loads MQTT_TOPIC attempts connect_raises deliveries (w, s)) = Ok true /\
  (forall e,
     connect_raises = Some e ->
     stages
       (events (main json_loads MQTT_TOPIC attempts connect_raises deliveries (w, s)))
       = [] /\
     session_log
       (snd (final (main json_loads MQTT_TOPIC attempts connect_raises deliveries
                      (w, s)))) =
     session_log (snd (final (init_db attempts (w, s)))) ++
     [BootPrint LineStarting; BootBrokerConnect; BootPrint (LineFatal e)]).
Proof.
  intros Hready.
  destruct (init_db_only_prepares attempts w s) as (_ & _ & _ & Hst & _).
  rewrite main_eq.
  destruct (init_db attempts (w, s)) as [r [w1 s1] evs1].
  cbn [result final events fst snd] in *. subst r.
  rewrite result_after, events_after, final_after, stages_app, Hst, bind_boot.
  split.
  - rewrite bind_ret_result, try_except_boot_result. reflexivity.
  - intros e ->.
    unfold bind, boot_external, boot, try_except, modify_local, raise, ret, after.
    cbn. rewrite <- !app_assoc. split; reflexivity.
Qed.

Lemma bind_boot_external_returns {B} (ev : boot_event)
    (k : unit -> M (World * Session) B) (w : World) (s : Session) :
  bind (boot_external ev None) k (w, s) =
  k tt (w, mkSession (session_log s ++ [ev]) (subscriptions s)).
Proof.
  unfold bind, boot_external, boot, modify_local, ret, after. cbn.
  destruct (k tt (w, mkSession (session_log s ++ [ev]) (subscriptions s))).
  reflexivity.
Qed.

(** X28.  The whole program, when nothing fails after startup: the
    messages are handled as by [loop_forever], from the world [init_db]
    left, after the events of [init_db]; the CONNACKs in between change
    nothing of that. *)
Theorem main_runs_the_pipeline_after_startup (attempts : list Env)
    (deliveries : list delivery) (w : World) (s : Session) :
  result (init_db attempts (w, s)) = Ok true ->
  forallb callback_returns deliveries = true ->
  events (main json_loads MQTT_TOPIC attempts None deliveries (w, s)) =
    events (init_db attempts (w, s)) ++
    events (loop_forever json_loads (messages_of deliveries)
              (fst (final (init_db attempts (w, s))))) /\
  fst (final (main json_loads MQTT_TOPIC attempts None deliveries (w, s))) =
    final (loop_forever json_loads (messages_of deliveries)
             (fst (final (init_db attempts (w, s))))).
Proof.
  intros Hready Hall. rewrite main_eq.
  destruct (init_db attempts (w, s)) as [r [w1 s1] evs1].
  cbn [result final events fst snd] in *. subst r.
  destruct (network_loop_handles_messages_as_loop_forever deliveries w1
              (mkSession ((session_log s1 ++ [BootPrint LineStarting])
                            ++ [BootBrokerConnect]) (subscriptions s1)) Hall)
    as (Hres & Hfin & Hev).
  assert (Hrun :
    (boot (BootPrint LineStarting) ;;
     try_except
       (boot_external BootBrokerConnect None ;;
        network_loop json_loads MQTT_TOPIC deliveries)
       (fun e => boot (BootPrint (LineFatal e))) ;;
     ret true) (w1, s1) =
    mkOutcome (Ok true)
      (final (network_loop json_loads MQTT_TOPIC deliveries
                (w1, mkSession ((session_log s1 ++ [BootPrint LineStarting])
                                  ++ [BootBrokerConnect]) (subscriptions s1))))
      (events (network_loop json_loads MQTT_TOPIC deliveries
                 (w1, mkSession ((session_log s1 ++ [BootPrint LineStarting])
                                   ++ [BootBrokerConnect]) (subscriptions s1))))).
  { rewrite bind_boot. unfold bind at 1, try_except.
    rewrite bind_boot_external_returns. cbn [session_log subscriptions].
    destruct (network_loop json_loads MQTT_TOPIC deliveries
                (w1, mkSession ((session_log s1 ++ [BootPrint LineStarting])
                                  ++ [BootBrokerConnect]) (subscriptions s1)))
      as [r st2 evs2].
    cbn [result final events] in *. subst r. cbn [after ret].
    rewrite app_nil_r. reflexivity. }
  rewrite Hrun. cbn [after events final]. rewrite Hev, Hfin. split; reflexivity.
Qed.

End Session.

Lemma network_loop_handles_messages_as_loop_forever_witness :
  forallb callback_returns
    [ConnAck None 0; Message quiet_env payload_007_moving;
     ConnAck (Some (OtherError "unused")) 5; Message failing_insert_env payload_array]
    = true /\
  events (network_loop scenario_loads "factory/agv/+"
            [ConnAck None 0; Message quiet_env payload_007_moving;
             ConnAck (Some (OtherError "unused")) 5;
             Message failing_insert_env payload_array]
            (empty_world, empty_session)) =
  events (loop_forever scenario_loads
            [(quiet_env, payload_007_moving); (failing_insert_env, payload_array)]
            empty_world).
Proof.
  split; [reflexivity|].
  exact (proj2 (proj2 (network_loop_handles_messages_as_loop_forever
           scenario_loads "factory/agv/+"
           [ConnAck None 0; Message quiet_env payload_007_moving;
            ConnAck (Some (OtherError "unused")) 5;
            Message failing_insert_env payload_array]
           empty_world empty_session eq_refl))).
Defined.

Lemma main_waits_for_init_db_witness :
  result (init_db [failing_connect_env; failing_connect_env]
            (empty_world, empty_session)) <> Ok true /\
  stages
    (events (main scenario_loads "factory/agv/+" [failing_connect_env; failing_connect_env]
               None [ConnAck None 0; Message quiet_env payload_007_moving]
               (empty_world, empty_session))) = [].
Proof.
  assert (H : result (init_db [failing_connect_env; failing_connect_env]
                        (empty_world, empty_session)) <> Ok true) by discriminate.
  split; [exact H|].
  exact (proj1 (proj2 (main_waits_for_init_db scenario_loads "factory/agv/+"
           [failing_connect_env; failing_connect_env] None
           [ConnAck None 0; Message quiet_env payload_007_moving]
           empty_world empty_session H))).
Defined.

Lemma main_contains_every_exception_witness :
  result (init_db [failing_connect_env; quiet_env] (empty_world, empty_session)) =
    Ok true /\
  result (main scenario_loads "factory/agv/+" [failing_connect_env; quiet_env]
            (Some (OtherError "broker unreachable"))
            [ConnAck None 0; Message quiet_env payload_007_moving]
            (empty_world, empty_session)) = Ok true.
Proof.
  split; [reflexivity|].
  exact (proj1 (main_contains_every_exception scenario_loads "factory/agv/+"
           [failing_connect_env; quiet_env]
           (Some (OtherError "broker unreachable"))
           [ConnAck None 0; Message quiet_env payload_007_moving]
           empty_world empty_session eq_refl)).
Defined.

Lemma main_runs_the_pipeline_after_startup_witness :
  result (init_db [failing_connect_env; quiet_env] (empty_world, empty_session)) =
    Ok true /\
  forallb callback_returns
    [ConnAck None 0; Message quiet_env payload_007_moving] = true /\
  fst (final (main scenario_loads "factory/agv/+" [failing_connect_env; quiet_env]
                None [ConnAck None 0; Message quiet_env payload_007_moving]
                (empty_world, empty_session))) =
  final (loop_forever scenario_loads [(quiet_env, payload_007_moving)]
           (fst (final (init_db [failing_connect_env; quiet_env]
                          (empty_world, empty_session))))).
Proof.
  split; [reflexivity|]. split; [reflexivity|].
  exact (proj2 (main_runs_the_pipeline_after_startup scenario_loads "factory/agv/+"
           [failing_connect_env; quiet_env]
           [ConnAck None 0; Message quiet_env payload_007_moving]
           empty_world empty_session eq_refl eq_refl)).
Defined.
